(** * VisitaFlow Técnico: the Web Push notification pipeline

    A shallow embedding of the push pipeline of the repository
    (key codec, service worker, client subscription manager, subscription
    store endpoint and notification dispatcher), followed by the properties
    proved about it.

    Conventions.
    - JavaScript strings are [string]; only code units below 256 occur in the
      modelled paths (base64 text, binary strings produced by [atob]).
    - JavaScript numbers that are array lengths, byte values or counters are
      [Z]; a [Uint8Array] is a [list Z] whose stores wrap modulo 256.
    - A value that may be [undefined]/[null] is an [option]; the truthiness
      test of [||], [!] and [if] is written out ([truthy], [or_else]).
    - Exceptions are results in a sum type; effects on the data store, the
      push gateway and the browser platform are explicit state and logs. *)

From Stdlib Require Import ZArith List Ascii String Lia ZifyBool Bool Permutation.
From stdpp Require Import base option list strings gmap.
Import ListNotations.

Local Open Scope string_scope.
Local Open Scope list_scope.
Local Open Scope Z_scope.

Set Warnings "-register-all".

(* ===================================================================== *)
(** * Part I: definitions                                                 *)
(* ===================================================================== *)

(** ** JavaScript helpers shared by all components *)
Module JS.

(** Truthiness of a string: the empty string is falsy. *)
Definition truthy (s : string) : bool :=
  match s with EmptyString => false | String _ _ => true end.

(** Truthiness of a possibly-undefined string. *)
Definition otruthy (o : option string) : bool :=
  match o with Some s => truthy s | None => false end.

(** [a || d] where [a] may be undefined and [d] is a string. *)
Definition or_else (a : option string) (d : string) : string :=
  match a with
  | Some s => if truthy s then s else d
  | None => d
  end.

(** [a || b] where both may be undefined. *)
Definition or_opt (a b : option string) : option string :=
  if otruthy a then a else b.

(** [s.length] *)
Definition length (s : string) : Z := Z.of_nat (String.length s).

(** [s.repeat(n)] for a non-negative count. *)
Fixpoint repeat_nat (s : string) (n : nat) : string :=
  match n with
  | O => ""
  | S k => s +:+ repeat_nat s k
  end.

Definition repeat (s : string) (n : Z) : string := repeat_nat s (Z.to_nat n).

(** [s.replace(/a/g, b)] for single characters [a] and [b]. *)
Fixpoint replace_all (a b : ascii) (s : string) : string :=
  match s with
  | EmptyString => EmptyString
  | String c r =>
      String (if Ascii.eqb c a then b else c) (replace_all a b r)
  end.

(** [s.startsWith(p)] *)
Fixpoint startsWith (p s : string) : bool :=
  match p, s with
  | EmptyString, _ => true
  | String _ _, EmptyString => false
  | String a p', String c s' => Ascii.eqb a c && startsWith p' s'
  end.

(** [s.slice(n)]: drop the first [n] characters. *)
Fixpoint drop (n : nat) (s : string) : string :=
  match n, s with
  | O, _ => s
  | S _, EmptyString => EmptyString
  | S k, String _ r => drop k r
  end.

(** [s.replace(p, "")] with a string pattern: only the first occurrence
    of [p] is removed. *)
Fixpoint remove_first (p s : string) : string :=
  if startsWith p s then drop (String.length p) s
  else match s with
       | EmptyString => EmptyString
       | String c r => String c (remove_first p r)
       end.

(** [s.charCodeAt(i)] of one character, and [String.fromCharCode(z)] for a
    code below 256. *)
Definition charCode (c : ascii) : Z := Z.of_N (N_of_ascii c).
Definition fromCharCode (z : Z) : ascii := ascii_of_N (Z.to_N z).

End JS.

(** ** Subscription Key Codec (client library, [urlBase64ToUint8Array] and
     the [btoa] encoding in [createPushSubscription]) *)
Module Codec.

(** *** Platform primitives [atob] and [btoa]

    The two functions are browser built-ins; they follow the
    forgiving-base64 decode and encode algorithms of the WHATWG Infra
    standard over the RFC 4648 alphabet. *)

(** Value of a character in the standard base64 alphabet. *)
Definition b64_value (c : ascii) : option Z :=
  let n := JS.charCode c in
  if (65 <=? n) && (n <=? 90) then Some (n - 65)
  else if (97 <=? n) && (n <=? 122) then Some (n - 71)
  else if (48 <=? n) && (n <=? 57) then Some (n + 4)
  else if n =? 43 then Some 62
  else if n =? 47 then Some 63
  else None.

(** Character of a six-bit value in the standard base64 alphabet. *)
Definition b64_digit (v : Z) : ascii :=
  if v <? 26 then JS.fromCharCode (v + 65)
  else if v <? 52 then JS.fromCharCode (v + 71)
  else if v <? 62 then JS.fromCharCode (v - 4)
  else if v =? 62 then "+"%char
  else "/"%char.

Definition is_ascii_whitespace (c : ascii) : bool :=
  let n := JS.charCode c in
  (n =? 9) || (n =? 10) || (n =? 12) || (n =? 13) || (n =? 32).

Definition eq_sign : ascii := "="%char.

(** Remove one or two trailing [=] signs. *)
Definition strip_trailing_eq (l : list ascii) : list ascii :=
  match rev l with
  | a :: b :: r =>
      if Ascii.eqb a eq_sign then
        if Ascii.eqb b eq_sign then rev r else rev (b :: r)
      else l
  | [a] => if Ascii.eqb a eq_sign then [] else l
  | [] => l
  end.

(** All characters to their six-bit values; [None] when a character is
    outside the alphabet. *)
Fixpoint sextets (l : list ascii) : option (list Z) :=
  match l with
  | [] => Some []
  | c :: r =>
      match b64_value c, sextets r with
      | Some v, Some vs => Some (v :: vs)
      | _, _ => None
      end
  end.

(** 24 bits at a time to three bytes; a 12-bit remainder gives one byte
    (last four bits discarded), an 18-bit remainder two bytes (last two
    bits discarded). *)
Fixpoint decode_sextets (l : list Z) : list Z :=
  match l with
  | a :: b :: c :: d :: r =>
      (a * 4 + b / 16) :: ((b mod 16) * 16 + c / 4) :: ((c mod 4) * 64 + d)
        :: decode_sextets r
  | [a; b; c] => [a * 4 + b / 16; (b mod 16) * 16 + c / 4]
  | [a; b] => [a * 4 + b / 16]
  | _ => []
  end.

(** [atob(data)]: [None] stands for the [InvalidCharacterError]. *)
Definition atob (data : string) : option string :=
  let l := List.filter (fun c => negb (is_ascii_whitespace c))
                       (list_ascii_of_string data) in
  let l := if Z.of_nat (List.length l) mod 4 =? 0
           then strip_trailing_eq l else l in
  if Z.of_nat (List.length l) mod 4 =? 1 then None
  else match sextets l with
       | None => None
       | Some vs =>
           Some (string_of_list_ascii
                   (map JS.fromCharCode (decode_sextets vs)))
       end.

(** Three bytes at a time to four characters, with [=] padding of the
    final group. *)
Fixpoint encode_bytes (bs : list Z) : list ascii :=
  match bs with
  | x :: y :: z :: r =>
      b64_digit (x / 4) :: b64_digit ((x mod 4) * 16 + y / 16)
        :: b64_digit ((y mod 16) * 4 + z / 64) :: b64_digit (z mod 64)
        :: encode_bytes r
  | [x; y] =>
      [b64_digit (x / 4); b64_digit ((x mod 4) * 16 + y / 16);
       b64_digit ((y mod 16) * 4); eq_sign]
  | [x] => [b64_digit (x / 4); b64_digit ((x mod 4) * 16); eq_sign; eq_sign]
  | [] => []
  end.

(** [btoa(data)]: every character of a [string] is below 256, so the
    call cannot raise. *)
Definition btoa (data : string) : string :=
  string_of_list_ascii
    (encode_bytes (map JS.charCode (list_ascii_of_string data))).

(** *** The repository's codec *)

(** A store into a [Uint8Array] cell. *)
Definition uint8 (z : Z) : Z := z mod 256.

(** [urlBase64ToUint8Array(base64String)]; [None] when [atob] raises. *)
Definition urlBase64ToUint8Array (base64String : string) : option (list Z) :=
  let padding := JS.repeat "=" ((4 - (JS.length base64String mod 4)) mod 4) in
  let base64 :=
    JS.replace_all "_" "/" (JS.replace_all "-" "+" (base64String +:+ padding)) in
  match atob base64 with
  | None => None
  | Some rawData =>
      Some (map (fun c => uint8 (JS.charCode c)) (list_ascii_of_string rawData))
  end.

(** [btoa(String.fromCharCode(...new Uint8Array(key)))], the encoding
    applied to the [p256dh] and [auth] keys in [createPushSubscription]. *)
Definition encodeKey (key : list Z) : string :=
  btoa (string_of_list_ascii (map JS.fromCharCode key)).

(** Decode, then encode. *)
Definition roundtrip (x : string) : option string :=
  match urlBase64ToUint8Array x with
  | None => None
  | Some bytes => Some (encodeKey bytes)
  end.

(** *** Vocabulary of the round-trip property *)

(** The base64url alphabet: letters, digits, [-] and [_]. *)
Definition is_b64url_char (c : ascii) : bool :=
  let n := JS.charCode c in
  ((65 <=? n) && (n <=? 90)) || ((97 <=? n) && (n <=? 122))
  || ((48 <=? n) && (n <=? 57)) || (n =? 45) || (n =? 95).

(** The standard-alphabet counterpart of a base64url character. *)
Definition to_standard (c : ascii) : ascii :=
  if Ascii.eqb c "-" then "+"%char
  else if Ascii.eqb c "_" then "/"%char else c.

(** The unused low bits of the final six-bit value are zero. *)
Definition canonical_tail (vs : list Z) : bool :=
  let r := Z.of_nat (List.length vs) mod 4 in
  if r =? 2 then List.last vs 0 mod 16 =? 0
  else if r =? 3 then List.last vs 0 mod 4 =? 0
  else true.

(** Remove every leading [=] of a list. *)
Fixpoint drop_eq_signs (l : list ascii) : list ascii :=
  match l with
  | c :: r => if Ascii.eqb c eq_sign then drop_eq_signs r else l
  | [] => []
  end.

(** Remove every trailing [=]. *)
Definition strip_padding (s : string) : string :=
  string_of_list_ascii (rev (drop_eq_signs (rev (list_ascii_of_string s)))).

(** A valid base64url text, as an encoder produces it: alphabet characters
    followed by either no padding or the full padding to a multiple of
    four; the unpadded length is not 1 modulo 4 and the unused low bits of
    the final six-bit value are zero. *)
Definition valid_b64url (x : string) : bool :=
  let core := list_ascii_of_string (strip_padding x) in
  let n := Z.of_nat (List.length core) in
  let k := JS.length x - n in
  forallb is_b64url_char core
  && negb (n mod 4 =? 1)
  && ((k =? 0) || (k =? (4 - n mod 4) mod 4))
  && match sextets (map to_standard core) with
     | Some vs => canonical_tail vs
     | None => false
     end.

(** Equality of two base64 texts up to trailing padding. *)
Definition eq_mod_padding (a b : string) : Prop :=
  strip_padding a = strip_padding b.

(** The text [x] in the standard alphabet ([-] as [+], [_] as [/]), and the
    same padded with [=] to a multiple of four characters. *)
Definition standard_text (x : string) : string :=
  JS.replace_all "_" "/" (JS.replace_all "-" "+" x).

Definition standard_padded (x : string) : string :=
  let core := strip_padding x in
  standard_text core +:+ JS.repeat "=" ((4 - (JS.length core mod 4)) mod 4).

(** Six-bit values and bytes. *)
Definition sextet (v : Z) : Prop := 0 <= v < 64.
Definition octet (b : Z) : Prop := 0 <= b < 256.

(** Number of [=] signs that complete a text of [n] characters. *)
Definition pad_count (n : Z) : Z := (4 - n mod 4) mod 4.

(** A character that is neither white space nor the padding sign. *)
Definition plain (c : ascii) : Prop :=
  is_ascii_whitespace c = false /\ Ascii.eqb c eq_sign = false.

End Codec.

(** ** JavaScript values *)
Module JsonValue.

(** JavaScript values as [JSON.parse] produces them. Numbers are integers
    here; an object is its list of properties, the first binding of a name
    being the effective one. *)
Inductive Json : Type :=
| JNull
| JBool (b : bool)
| JNum (z : Z)
| JStr (s : string)
| JArr (items : list Json)
| JObj (props : list (string * Json)).

Definition truthy (v : Json) : bool :=
  match v with
  | JNull => false
  | JBool b => b
  | JNum z => negb (z =? 0)
  | JStr s => JS.truthy s
  | JArr _ | JObj _ => true
  end.

(** [{...props, k: v}]: the property [k] set to [v], in place when [props]
    already has it and at the end otherwise. *)
Fixpoint set_prop (k : string) (v : Json) (props : list (string * Json))
  : list (string * Json) :=
  match props with
  | [] => [(k, v)]
  | (k', v') :: rest =>
      if String.eqb k' k then (k, v) :: rest else (k', v') :: set_prop k v rest
  end.

End JsonValue.

(** ** Background Worker Runtime (the service worker script) *)
Module ServiceWorker.

Import JsonValue.

(** The outcome of a promise. *)
Inductive Settled (A : Type) : Type :=
| Fulfilled (value : A)
| Rejected (error : string).
Arguments Fulfilled {A} value.
Arguments Rejected {A} error.

Definition CACHE_NAME : string := "visitaflow-tecnico-v1".

Record Request := { method : string; url : string }.
Record Response := { status : Z; payload : string }.

(** [caches]: the named caches in creation order, each a map from request
    URL to the stored response. *)
Definition CacheStorage : Type := list (string * gmap string Response).

(** [caches.match(request)]: the first stored response for the request over
    all caches, [None] for [undefined]. *)
Fixpoint caches_match (cs : CacheStorage) (request : Request) : option Response :=
  match cs with
  | [] => None
  | (_, cache) :: rest =>
      match cache !! url request with
      | Some r => Some r
      | None => caches_match rest request
      end
  end.

(** Calls the fetch handler makes on the platform. *)
Inductive FetchCall : Type :=
| NetworkFetch (request : Request)
| CacheMatch (request : Request)
| CachePut (request : Request) (response : Response).

(** What the requester gets: either the handler returned without calling
    [event.respondWith] and the browser performs the request itself, or the
    handler answered with a promise. *)
Inductive FetchOutcome : Type :=
| NotIntercepted
| RespondWith (answer : Settled Response).

Section FetchHandler.
(** [fetch(request)] as the network answers it. *)
Variable network : Request -> Settled Response.

(** The [fetch] event listener: outcome, cache storage afterwards, and the
    platform calls made. *)
Definition onfetch (cs : CacheStorage) (request : Request)
  : FetchOutcome * CacheStorage * list FetchCall :=
  if negb (String.eqb (method request) "GET") then (NotIntercepted, cs, [])
  else
    match network request with
    | Fulfilled response =>
        (RespondWith (Fulfilled response), cs, [NetworkFetch request])
    | Rejected error =>
        match caches_match cs request with
        | Some cachedResponse =>
            (RespondWith (Fulfilled cachedResponse), cs,
             [NetworkFetch request; CacheMatch request])
        | None =>
            (RespondWith (Rejected error), cs,
             [NetworkFetch request; CacheMatch request])
        end
    end.
End FetchHandler.

(** The [activate] listener's cache collection: every cache whose name is
    not [CACHE_NAME] is deleted. *)
Definition onactivate (cs : CacheStorage) : CacheStorage :=
  List.filter (fun c => String.eqb (fst c) CACHE_NAME) cs.

(** *** Push events *)

(** [a || d] where [a] may be [undefined]. *)
Definition or_default (a : option Json) (d : Json) : Json :=
  match a with
  | Some v => if truthy v then v else d
  | None => d
  end.

Fixpoint lookup_prop (k : string) (props : list (string * Json)) : option Json :=
  match props with
  | [] => None
  | (k', v) :: rest => if String.eqb k' k then Some v else lookup_prop k rest
  end.

(** [v.k] for the property names the push handler reads ([title], [body],
    [icon], [badge], [tag], [data], [requireInteraction], [vibrate]): the
    outer [None] is the [TypeError] raised on [null]; strings, numbers,
    booleans and arrays have no such property. *)
Definition get (v : Json) (k : string) : option (option Json) :=
  match v with
  | JNull => None
  | JObj props => Some (lookup_prop k props)
  | _ => Some None
  end.

(** [event.data]: the raw text of the message and the result of
    [JSON.parse] on it, [None] when parsing raises. *)
Record PushMessageData := { text : string; json : option Json }.

(** The handler's [notificationData] object; the last three properties are
    [undefined] unless the JSON branch sets them. *)
Record NotificationData := {
  title : Json;
  body : Json;
  icon : Json;
  badge : Json;
  tag : Json;
  data : Json;
  requireInteraction : option Json;
  vibrate : option Json;
  timestamp : option Json
}.

Definition default_title : string := "VisitaFlow Técnico".
Definition default_body : string := "Você tem uma nova notificação".
Definition default_icon : string := "/icon.svg".
Definition default_badge : string := "/icon.svg".
Definition default_tag : string := "visitaflow-notification".

Definition defaults : NotificationData :=
  {| title := JStr default_title;
     body := JStr default_body;
     icon := JStr default_icon;
     badge := JStr default_badge;
     tag := JStr default_tag;
     data := JObj [];
     requireInteraction := None;
     vibrate := None;
     timestamp := None |}.

(** The body of the [try] block; [None] when it raises. *)
Definition from_json (now : Z) (d : PushMessageData) (nd : NotificationData)
  : option NotificationData :=
  payload ← json d;
  p_title ← get payload "title";
  p_body ← get payload "body";
  p_icon ← get payload "icon";
  p_badge ← get payload "badge";
  p_tag ← get payload "tag";
  p_data ← get payload "data";
  p_requireInteraction ← get payload "requireInteraction";
  p_vibrate ← get payload "vibrate";
  Some {| title := or_default p_title (title nd);
          body := or_default p_body (body nd);
          icon := or_default p_icon (icon nd);
          badge := or_default p_badge (badge nd);
          tag := or_default p_tag (tag nd);
          data := or_default p_data (data nd);
          requireInteraction := Some (or_default p_requireInteraction (JBool false));
          vibrate := Some (or_default p_vibrate (JArr [JNum 200; JNum 100; JNum 200]));
          timestamp := Some (JNum now) |}.

(** The [catch] block: the raw text becomes the body. *)
Definition from_text (d : PushMessageData) (nd : NotificationData)
  : NotificationData :=
  {| title := title nd;
     body := if JS.truthy (text d) then JStr (text d) else body nd;
     icon := icon nd;
     badge := badge nd;
     tag := tag nd;
     data := data nd;
     requireInteraction := requireInteraction nd;
     vibrate := vibrate nd;
     timestamp := timestamp nd |}.

(** The arguments of [self.registration.showNotification(title, options)]. *)
Record Shown := {
  shown_title : Json;
  shown_body : Json;
  shown_icon : Json;
  shown_badge : Json;
  shown_tag : Json;
  shown_data : Json;
  shown_requireInteraction : option Json;
  shown_vibrate : option Json;
  shown_timestamp : option Json;
  shown_actions : Json
}.

Definition showNotification (nd : NotificationData) : Shown :=
  {| shown_title := title nd;
     shown_body := body nd;
     shown_icon := icon nd;
     shown_badge := badge nd;
     shown_tag := tag nd;
     shown_data := data nd;
     shown_requireInteraction := requireInteraction nd;
     shown_vibrate := vibrate nd;
     shown_timestamp := timestamp nd;
     (* [notificationData.actions] is never set *)
     shown_actions := JArr [] |}.

(** The [push] event listener; [now] is [Date.now()]. *)
Definition onpush (now : Z) (event_data : option PushMessageData) : Shown :=
  let notificationData :=
    match event_data with
    | Some d =>
        match from_json now d defaults with
        | Some nd => nd
        | None => from_text d defaults
        end
    | None => defaults
    end in
  showNotification notificationData.

(** The merge of a parsed payload over the defaults, property by property
    with [||]. *)
Definition merged (now : Z) (payload : Json) : Shown :=
  let prop k := match get payload k with Some o => o | None => None end in
  {| shown_title := or_default (prop "title") (JStr default_title);
     shown_body := or_default (prop "body") (JStr default_body);
     shown_icon := or_default (prop "icon") (JStr default_icon);
     shown_badge := or_default (prop "badge") (JStr default_badge);
     shown_tag := or_default (prop "tag") (JStr default_tag);
     shown_data := or_default (prop "data") (JObj []);
     shown_requireInteraction :=
       Some (or_default (prop "requireInteraction") (JBool false));
     shown_vibrate :=
       Some (or_default (prop "vibrate") (JArr [JNum 200; JNum 100; JNum 200]));
     shown_timestamp := Some (JNum now);
     shown_actions := JArr [] |}.

(** *** Sample data *)

(** A cache storage with one stored page, and a network that is down for
    every request but [/online]. *)
Definition sample_caches : CacheStorage :=
  [(CACHE_NAME, {[ "/dashboard" := {| status := 200; payload := "cached" |} ]})].

Definition sample_network (r : Request) : Settled Response :=
  if String.eqb (url r) "/online"
  then Fulfilled {| status := 200; payload := "fresh" |}
  else Rejected "TypeError: Failed to fetch".

End ServiceWorker.

(** ** Subscription Manager (client library) *)
Module SubscriptionManager.

Import ServiceWorker (Settled, Fulfilled, Rejected).

Inductive NotificationPermission : Type := default | granted | denied.

Record PushSubscriptionData := {
  endpoint : string;
  p256dh : string;
  auth : string
}.

(** An HTTP request issued with [fetch] from the page. *)
Record HttpRequest := {
  http_method : string;
  http_url : string;
  http_authorization : option string;
  http_body : option PushSubscriptionData
}.

(** Calls made on the browser platform and on the network. *)
Inductive Call : Type :=
| PromptPermission
| PushUnsubscribe (endpoint : string)
| HttpFetch (request : HttpRequest).

(** The browser as the library sees it. [subscription] is what
    [pushManager.getSubscription()] would resolve to; the three answers are
    how the platform responds to a permission prompt, to [getSubscription]
    and to [unsubscribe]. *)
Record Platform := {
  has_window : bool;
  has_serviceWorker : bool;
  has_PushManager : bool;
  has_Notification : bool;
  permission : NotificationPermission;
  subscription : option PushSubscriptionData;
  prompt_answer : NotificationPermission;
  getSubscription_error : option string;
  unsubscribe_answer : Settled bool
}.

(** The client world: the platform and the calls made so far, oldest
    first. *)
Record World := { platform : Platform; calls : list Call }.

Definition with_permission (p : Platform) (perm : NotificationPermission)
  : Platform :=
  {| has_window := has_window p;
     has_serviceWorker := has_serviceWorker p;
     has_PushManager := has_PushManager p;
     has_Notification := has_Notification p;
     permission := perm;
     subscription := subscription p;
     prompt_answer := prompt_answer p;
     getSubscription_error := getSubscription_error p;
     unsubscribe_answer := unsubscribe_answer p |}.

Definition without_subscription (p : Platform) : Platform :=
  {| has_window := has_window p;
     has_serviceWorker := has_serviceWorker p;
     has_PushManager := has_PushManager p;
     has_Notification := has_Notification p;
     permission := permission p;
     subscription := None;
     prompt_answer := prompt_answer p;
     getSubscription_error := getSubscription_error p;
     unsubscribe_answer := unsubscribe_answer p |}.

Definition record_call (w : World) (c : Call) : World :=
  {| platform := platform w; calls := calls w ++ [c] |}.

(** A value or a thrown [Error] with its message. *)
Inductive Result (A : Type) : Type :=
| Return (value : A)
| Throw (message : string).
Arguments Return {A} value.
Arguments Throw {A} message.

Definition UnsupportedError : string :=
  "Push notifications não são suportadas neste navegador".
Definition PermissionDeniedError : string :=
  "Permissão de notificação foi negada. Por favor, habilite nas configurações do navegador.".

(** [isPushNotificationSupported()] *)
Definition isPushNotificationSupported (p : Platform) : bool :=
  has_window p && has_serviceWorker p && has_PushManager p && has_Notification p.

(** [getNotificationPermission()] *)
Definition getNotificationPermission (p : Platform) : NotificationPermission :=
  if negb (has_window p) || negb (has_Notification p) then denied
  else permission p.

(** [requestNotificationPermission()] *)
Definition requestNotificationPermission (w : World)
  : Result NotificationPermission * World :=
  if negb (isPushNotificationSupported (platform w)) then
    (Throw UnsupportedError, w)
  else
    match permission (platform w) with
    | granted => (Return granted, w)
    | denied => (Throw PermissionDeniedError, w)
    | default =>
        let answer := prompt_answer (platform w) in
        (Return answer,
         record_call
           {| platform := with_permission (platform w) answer;
              calls := calls w |}
           PromptPermission)
    end.

(** The structured result of the client-visible operations. *)
Record Outcome := { success : bool; error : option string }.

(** [saveSubscriptionToServer(subscriptionData)]: [access_token] is the
    session's token if any, [server] the answer of the subscribe endpoint
    ([Rejected] for a network failure, otherwise the status and the
    [message] of the JSON body). *)
Definition saveSubscriptionToServer
    (access_token : option string)
    (server : HttpRequest -> Settled (Z * option string))
    (subscriptionData : PushSubscriptionData) (w : World) : Outcome * World :=
  let request :=
    {| http_method := "POST";
       http_url := "/api/push/subscribe";
       http_authorization :=
         match access_token with
         | Some t => if JS.truthy t then Some ("Bearer " +:+ t) else None
         | None => None
         end;
       http_body := Some subscriptionData |} in
  let w' := record_call w (HttpFetch request) in
  match server request with
  | Rejected e =>
      ({| success := false; error := Some (JS.or_else (Some e) "Erro desconhecido") |}, w')
  | Fulfilled (status, message) =>
      if (200 <=? status) && (status <=? 299) then
        ({| success := true; error := None |}, w')
      else
        ({| success := false;
            error := Some (JS.or_else
                             (Some (JS.or_else message "Erro ao salvar subscription"))
                             "Erro desconhecido") |}, w')
  end.

(** [hasActiveSubscription()] *)
Definition hasActiveSubscription (p : Platform) : bool :=
  if negb (isPushNotificationSupported p) then false
  else
    match getSubscription_error p with
    | Some _ => false
    | None => match subscription p with Some _ => true | None => false end
    end.

(** [disablePushNotifications()] *)
Definition disablePushNotifications (w : World) : Outcome * World :=
  if negb (isPushNotificationSupported (platform w)) then
    ({| success := false; error := Some "Push notifications não suportadas" |}, w)
  else
    match getSubscription_error (platform w) with
    | Some e =>
        ({| success := false; error := Some (JS.or_else (Some e) "Erro desconhecido") |}, w)
    | None =>
        match subscription (platform w) with
        | Some sub =>
            let w' := record_call w (PushUnsubscribe (endpoint sub)) in
            match unsubscribe_answer (platform w) with
            | Fulfilled _ =>
                ({| success := true; error := None |},
                 {| platform := without_subscription (platform w');
                    calls := calls w' |})
            | Rejected e =>
                ({| success := false;
                    error := Some (JS.or_else (Some e) "Erro desconhecido") |}, w')
            end
        | None => ({| success := true; error := None |}, w)
        end
    end.

(** The requests sent to the server among the calls of a world. *)
Definition server_requests (w : World) : list HttpRequest :=
  omap (fun c => match c with HttpFetch r => Some r | _ => None end) (calls w).

(** *** Sample data *)

(** A world with no call made yet; the arguments are whether the browser
    has the [Notification] interface and the current permission. *)
Definition sample_world (notification : bool) (perm : NotificationPermission)
  : World :=
  {| platform :=
       {| has_window := true; has_serviceWorker := true;
          has_PushManager := true; has_Notification := notification;
          permission := perm; subscription := None;
          prompt_answer := granted; getSubscription_error := None;
          unsubscribe_answer := Fulfilled true |};
     calls := [] |}.

(** A world with an active push subscription that was saved on the
    server; the arguments are whether the browser has the [Notification]
    interface and how the platform answers [unsubscribe]. *)
Definition subscribed_world (notification : bool) (answer : Settled bool)
  : World :=
  let sub := {| endpoint := "https://push.example/abc";
                p256dh := "cDI1Ng=="; auth := "YXV0aA==" |} in
  {| platform :=
       {| has_window := true; has_serviceWorker := true;
          has_PushManager := true; has_Notification := notification;
          permission := granted; subscription := Some sub;
          prompt_answer := granted; getSubscription_error := None;
          unsubscribe_answer := answer |};
     calls :=
       [HttpFetch {| http_method := "POST"; http_url := "/api/push/subscribe";
                     http_authorization := Some "Bearer token";
                     http_body := Some sub |}] |}.

End SubscriptionManager.

(** ** The [push_subscriptions] table (migration
       [create_push_subscriptions_table.sql]) *)
Module DataStore.

(** The columns of a row other than its primary key [id]. *)
Record Row := {
  user_id : string;
  endpoint : string;
  p256dh : string;
  auth : string;
  created_at : string;
  updated_at : string
}.

(** The table, keyed by the primary key. *)
Abbreviation Table := (gmap string Row).

(** A selected row with its [id]. *)
Definition StoredRow : Type := string * Row.
Definition id (r : StoredRow) : string := fst r.

(** [select('*')], optionally followed by [.eq(column, value)] filters. *)
Definition select_where (P : Row -> bool) (t : Table) : list StoredRow :=
  List.filter (fun r => P (snd r)) (map_to_list t).

(** The filter [.eq('user_id', u).eq('endpoint', e)]. *)
Definition is_for (u e : string) (r : Row) : bool :=
  String.eqb (user_id r) u && String.eqb (endpoint r) e.

(** [.single()]: the row when exactly one was returned, [null] otherwise. *)
Definition single (rows : list StoredRow) : option StoredRow :=
  match rows with
  | [r] => Some r
  | _ => None
  end.

(** [UNIQUE(user_id, endpoint)] as a test on a candidate row. *)
Definition same_key (r s : Row) : bool :=
  String.eqb (user_id r) (user_id s) && String.eqb (endpoint r) (endpoint s).

(** [insert(row)] with a generated [id]: refused when the primary key or the
    [(user_id, endpoint)] pair is already present. *)
Definition insert_row (new_id : string) (r : Row) (t : Table)
  : string + Table :=
  match t !! new_id with
  | Some _ => inl "duplicate key value violates unique constraint push_subscriptions_pkey"
  | None =>
      match select_where (same_key r) t with
      | _ :: _ =>
          inl "duplicate key value violates unique constraint push_subscriptions_user_id_endpoint_key"
      | [] => inr (<[new_id := r]> t)
      end
  end.

(** [delete().eq('id', i)] *)
Definition delete_eq_id (i : string) (t : Table) : Table := delete i t.

(** The schema's [UNIQUE(user_id, endpoint)] constraint as a property of a
    table. *)
Definition unique_endpoints (t : Table) : Prop :=
  forall i j r s,
    t !! i = Some r -> t !! j = Some s -> same_key r s = true -> i = j.

End DataStore.

(** ** Subscription Store ([POST /api/push/subscribe]) *)
Module SubscriptionStore.

Import DataStore.

Record Body := {
  body_endpoint : option string;
  body_p256dh : option string;
  body_auth : option string
}.

(** The request: the [authorization] header and the outcome of
    [request.json()] ([inl] is the message of the error it raises). *)
Record Request := {
  authorization : option string;
  json : string + Body
}.

Record User := { uid : string }.

(** What the collaborators answer during one call: the identity provider
    ([getServerUser]), the clock of the route ([new Date().toISOString()]),
    the clock of the database ([NOW()]), the identifier the table generates
    for a new row, and whether the data store fails on the lookup or on the
    write. *)
Record Context := {
  getServerUser : option User;
  now : string;
  database_now : string;
  generated_id : string;
  lookup_fails : bool;
  write_error : option string
}.

Record Response := {
  status : Z;
  message : option string;
  success : option bool;
  subscription : option StoredRow
}.

Definition error_response (code : Z) (msg : string) : Response :=
  {| status := code; message := Some msg; success := None; subscription := None |}.

(** The trigger function [update_push_subscriptions_updated_at()] of the
    migration, run [BEFORE UPDATE] on each row: [NEW.updated_at = NOW()]. *)
Definition update_push_subscriptions_updated_at (NOW : string) (NEW : Row)
  : Row :=
  {| user_id := user_id NEW;
     endpoint := endpoint NEW;
     p256dh := p256dh NEW;
     auth := auth NEW;
     created_at := created_at NEW;
     updated_at := NOW |}.

(** [update(subscriptionData)] applied to one row: the columns the route
    sends are written, [created_at] is not among them, and the trigger
    replaces the [updated_at] the route sent by the database's time. *)
Definition apply_update (NOW : string) (subscriptionData : Row) (r : Row)
  : Row :=
  update_push_subscriptions_updated_at NOW
    {| user_id := user_id subscriptionData;
       endpoint := endpoint subscriptionData;
       p256dh := p256dh subscriptionData;
       auth := auth subscriptionData;
       created_at := created_at r;
       updated_at := updated_at subscriptionData |}.

(** The route handler: response and table afterwards. *)
Definition POST (ctx : Context) (t : Table) (request : Request)
  : Response * Table :=
  let accessToken := JS.remove_first "Bearer " <$> authorization request in
  if negb (JS.otruthy accessToken) then
    (error_response 401 "Token de acesso não fornecido", t)
  else
    match getServerUser ctx with
    | None => (error_response 401 "Não autenticado", t)
    | Some user =>
        match json request with
        | inl e =>
            (error_response 500 (JS.or_else (Some e) "Erro ao salvar subscription"), t)
        | inr body =>
            match body_endpoint body, body_p256dh body, body_auth body with
            | Some endpoint, Some p256dh, Some auth =>
                if negb (JS.truthy endpoint) || negb (JS.truthy p256dh)
                   || negb (JS.truthy auth)
                then (error_response 400 "Campos obrigatórios: endpoint, p256dh, auth", t)
                else
                  let existing :=
                    if lookup_fails ctx then None
                    else single (select_where (is_for (uid user) endpoint) t) in
                  (* [created_at] is not sent: an insert fills it with the
                     column default [NOW()], an update leaves it alone *)
                  let subscriptionData :=
                    {| user_id := uid user;
                       endpoint := endpoint;
                       p256dh := p256dh;
                       auth := auth;
                       created_at := database_now ctx;
                       updated_at := now ctx |} in
                  match existing with
                  | Some found =>
                      match write_error ctx with
                      | Some e =>
                          (error_response 500
                             (JS.or_else (Some e) "Erro ao salvar subscription"), t)
                      | None =>
                          let updated :=
                            apply_update (database_now ctx) subscriptionData in
                          let t' := alter updated (id found) t in
                          ({| status := 200; message := None; success := Some true;
                              subscription := Some (id found, updated (snd found)) |},
                           t')
                      end
                  | None =>
                      match write_error ctx with
                      | Some e =>
                          (error_response 500
                             (JS.or_else (Some e) "Erro ao salvar subscription"), t)
                      | None =>
                          match insert_row (generated_id ctx) subscriptionData t with
                          | inl e =>
                              (error_response 500
                                 (JS.or_else (Some e) "Erro ao salvar subscription"), t)
                          | inr t' =>
                              ({| status := 200; message := None; success := Some true;
                                  subscription :=
                                    Some (generated_id ctx, subscriptionData) |},
                               t')
                          end
                      end
                  end
            | _, _, _ =>
                (error_response 400 "Campos obrigatórios: endpoint, p256dh, auth", t)
            end
        end
    end.

(** The records of one user for one endpoint. *)
Definition records_of (u e : string) (t : Table) : list StoredRow :=
  select_where (is_for u e) t.

(** A call by the authenticated user [u] that carries the endpoint [e] and
    the keys [k] and [a], all non-empty. *)
Definition authenticated_call (ctx : Context) (request : Request)
    (u : User) (e k a : string) : Prop :=
  JS.otruthy (JS.remove_first "Bearer " <$> authorization request) = true
  /\ getServerUser ctx = Some u
  /\ json request
     = inr {| body_endpoint := Some e; body_p256dh := Some k; body_auth := Some a |}
  /\ JS.truthy e = true /\ JS.truthy k = true /\ JS.truthy a = true.

(** The data store answers the lookup and the write of the call. *)
Definition store_available (ctx : Context) : Prop :=
  lookup_fails ctx = false /\ write_error ctx = None.

(** *** Sample data *)

Definition ana : User := {| uid := "ana" |}.

Definition sample_context (new_id time : string) : Context :=
  {| getServerUser := Some ana; now := time; database_now := time;
     generated_id := new_id; lookup_fails := false; write_error := None |}.

(** A call during which the clock of the database is not the route's. *)
Definition skewed_context (new_id time database_time : string) : Context :=
  {| getServerUser := Some ana; now := time; database_now := database_time;
     generated_id := new_id; lookup_fails := false; write_error := None |}.

Definition sample_request (k a : string) : Request :=
  {| authorization := Some "Bearer token";
     json := inr {| body_endpoint := Some "https://push.example/a1";
                    body_p256dh := Some k; body_auth := Some a |} |}.

End SubscriptionStore.

(** ** Notification Dispatcher ([POST /api/push/send] and
       [sendPushNotificationServer]) *)
Module Dispatcher.

Import JsonValue DataStore.

(** [process.env] *)
Record Env := {
  VAPID_PUBLIC_KEY : option string;
  VAPID_PRIVATE_KEY : option string;
  VAPID_SUBJECT : option string;
  INTERNAL_SECRET : option string;
  SUPABASE_SERVICE_ROLE_KEY : option string
}.

Definition vapidPublicKey (env : Env) : option string := VAPID_PUBLIC_KEY env.
Definition vapidPrivateKey (env : Env) : option string := VAPID_PRIVATE_KEY env.
Definition vapidSubject (env : Env) : string :=
  JS.or_else (VAPID_SUBJECT env) "mailto:admin@visitaflow.com".
Definition internalSecret (env : Env) : string :=
  JS.or_else (JS.or_opt (INTERNAL_SECRET env) (VAPID_SUBJECT env))
             "change-me-in-production".

(** [PushNotificationPayload]; the fields are the strings of the interface,
    [None] when absent. *)
Record PushNotificationPayload := {
  userId : option string;
  title : option string;
  body : option string;
  icon : option string;
  badge : option string;
  tag : option string;
  data : option (list (string * Json));
  url : option string
}.

(** The object given to [JSON.stringify] for the gateway. *)
Record WirePayload := {
  wire_title : string;
  wire_body : string;
  wire_icon : string;
  wire_badge : string;
  wire_tag : string;
  wire_data : list (string * Json)
}.

Definition notificationPayload (p : PushNotificationPayload) : WirePayload :=
  {| (* [title] and [body] are truthy where the payload is built *)
     wire_title := JS.or_else (title p) "";
     wire_body := JS.or_else (body p) "";
     wire_icon := JS.or_else (icon p) "/icon.svg";
     wire_badge := JS.or_else (badge p) "/icon.svg";
     wire_tag := JS.or_else (tag p) "visitaflow-notification";
     wire_data :=
       set_prop "url" (JStr (JS.or_else (url p) "/dashboard"))
                (match data p with Some d => d | None => [] end) |}.

(** The [pushSubscription] argument of [webpush.sendNotification]. *)
Record PushSubscription := {
  sub_endpoint : string;
  keys_p256dh : string;
  keys_auth : string
}.

Definition pushSubscription (subscription : StoredRow) : PushSubscription :=
  {| sub_endpoint := endpoint (snd subscription);
     keys_p256dh := p256dh (snd subscription);
     keys_auth := auth (snd subscription) |}.

(** How a gateway call ends: delivered, or an error with its optional
    [statusCode] and its message. *)
Inductive GatewayOutcome : Type :=
| Delivered
| Refused (statusCode : option Z) (message : string).

(** Calls on the collaborators, oldest first. *)
Inductive Effect : Type :=
| StoreSelect (user : option string)
| GatewaySend (subscription : PushSubscription) (payload : WirePayload)
| StoreDelete (id : string).

Record World := { table : Table; effects : list Effect }.

Definition record_effects (w : World) (es : list Effect) : World :=
  {| table := table w; effects := effects w ++ es |}.

(** One entry of [results]: the value of a fulfilled send promise. *)
Record SendResult := {
  result_success : bool;
  subscriptionId : string;
  result_error : option string
}.

(** The result of the library function. *)
Record ServerResult := {
  success : bool;
  sent : Z;
  failed : Z;
  error : option string
}.

(** The request: the [x-internal-secret] header and the outcome of
    [request.json()] ([inl] is the message of the error it raises). *)
Record Request := {
  x_internal_secret : option string;
  json : string + PushNotificationPayload
}.

(** The response: the status and the properties of the JSON body, [None]
    for a property the body does not have. *)
Record Response := {
  status : Z;
  resp_message : option string;
  resp_success : option bool;
  resp_sent : option Z;
  resp_failed : option Z;
  resp_total : option Z
}.

Section Send.

(** What the collaborators answer during one send: whether the data store
    fails on the query, how the gateway call made for the subscription
    with a given [id] ends, the order in which the concurrent sends
    complete, and the error, if any, with which the data store answers
    [delete().eq('id', i)]. *)
Variable fetchError : option string.
Variable gateway : string -> GatewayOutcome.
Variable completion : list StoredRow -> list StoredRow.
Variable deleteError : string -> option string.

(** The value of one send promise. *)
Definition send_result (subscription : StoredRow) : SendResult :=
  match gateway (id subscription) with
  | Delivered =>
      {| result_success := true; subscriptionId := id subscription;
         result_error := None |}
  | Refused _ message =>
      {| result_success := false; subscriptionId := id subscription;
         result_error := Some message |}
  end.

(** The [catch] block of one send when its gateway call has ended: a
    refusal with status 410 asks the data store to delete the
    subscription. The answer of the store is not looked at: when it refuses,
    the row stays and the send goes on as if it had been deleted. *)
Definition settle (w : World) (subscription : StoredRow) : World :=
  match gateway (id subscription) with
  | Refused (Some statusCode) _ =>
      if statusCode =? 410 then
        {| table :=
             match deleteError (id subscription) with
             | None => delete_eq_id (id subscription) (table w)
             | Some _ => table w
             end;
           effects := effects w ++ [StoreDelete (id subscription)] |}
      else w
  | _ => w
  end.

(** [subscriptions.map(async ...)] followed by [Promise.allSettled]: every
    gateway call is started, in the order of [subscriptions]; the calls
    end in the order [completion subscriptions], each running its [catch]
    block then; [results] keeps the order of [subscriptions]. *)
Definition send_all (subscriptions : list StoredRow) (payload : WirePayload)
    (w : World) : list SendResult * World :=
  let started :=
    record_effects w
      (map (fun s => GatewaySend (pushSubscription s) payload) subscriptions) in
  (map send_result subscriptions,
   fold_left settle (completion subscriptions) started).

(** [results.filter(r => r.status === 'fulfilled' && r.value.success).length] *)
Definition successful (results : list SendResult) : Z :=
  Z.of_nat (List.length (List.filter result_success results)).

(** The query: all rows, or the rows of [userId] when it is truthy. *)
Definition matches (userId : option string) (r : Row) : bool :=
  match userId with
  | Some u => if JS.truthy u then String.eqb (user_id r) u else true
  | None => true
  end.

Definition query_filter (userId : option string) : option string :=
  match userId with
  | Some u => if JS.truthy u then Some u else None
  | None => None
  end.

(** *** The library function *)

Definition failure (msg : string) : ServerResult :=
  {| success := false; sent := 0; failed := 0; error := Some msg |}.

(** [sendPushNotificationServer(payload)] *)
Definition sendPushNotificationServer (env : Env)
    (payload : PushNotificationPayload) (w : World) : ServerResult * World :=
  if negb (JS.otruthy (vapidPublicKey env))
     || negb (JS.otruthy (vapidPrivateKey env))
  then (failure "VAPID keys não configuradas no servidor", w)
  else if negb (JS.otruthy (title payload)) || negb (JS.otruthy (body payload))
  then (failure "Campos obrigatórios: title, body", w)
  else if negb (JS.otruthy (SUPABASE_SERVICE_ROLE_KEY env))
  then (failure "SUPABASE_SERVICE_ROLE_KEY não configurada", w)
  else
    let w1 := record_effects w [StoreSelect (query_filter (userId payload))] in
    match fetchError with
    | Some e => (failure (JS.or_else (Some e) "Erro desconhecido"), w1)
    | None =>
        let subscriptions := select_where (matches (userId payload)) (table w) in
        match subscriptions with
        | [] => ({| success := true; sent := 0; failed := 0; error := None |}, w1)
        | _ :: _ =>
            let '(results, w2) :=
              send_all subscriptions (notificationPayload payload) w1 in
            ({| success := true;
                sent := successful results;
                failed := Z.of_nat (List.length results) - successful results;
                error := None |}, w2)
        end
    end.

(** *** The route *)

Definition error_response (code : Z) (msg : string) : Response :=
  {| status := code; resp_message := Some msg; resp_success := None;
     resp_sent := None; resp_failed := None; resp_total := None |}.

(** [internalSecretHeader !== internalSecret] *)
Definition header_differs (header : option string) (secret : string) : bool :=
  match header with
  | Some h => negb (String.eqb h secret)
  | None => true
  end.

(** [POST(request)] *)
Definition POST (env : Env) (request : Request) (w : World)
  : Response * World :=
  if header_differs (x_internal_secret request) (internalSecret env) then
    (error_response 401 "Acesso não autorizado. Secret inválido.", w)
  else if negb (JS.otruthy (vapidPublicKey env))
          || negb (JS.otruthy (vapidPrivateKey env))
  then (error_response 500 "VAPID keys não configuradas no servidor", w)
  else
    match json request with
    | inl e => (error_response 500 (JS.or_else (Some e) "Erro ao enviar notificação"), w)
    | inr payload =>
        if negb (JS.otruthy (title payload)) || negb (JS.otruthy (body payload))
        then (error_response 400 "Campos obrigatórios: title, body", w)
        else if negb (JS.otruthy (SUPABASE_SERVICE_ROLE_KEY env))
        then (error_response 500 "SUPABASE_SERVICE_ROLE_KEY não configurada", w)
        else
          let w1 := record_effects w [StoreSelect (query_filter (userId payload))] in
          match fetchError with
          | Some e =>
              (error_response 500 (JS.or_else (Some e) "Erro ao enviar notificação"), w1)
          | None =>
              let subscriptions :=
                select_where (matches (userId payload)) (table w) in
              match subscriptions with
              | [] =>
                  ({| status := 200;
                      resp_message := Some "Nenhuma subscription encontrada";
                      resp_success := None;
                      resp_sent := Some 0;
                      resp_failed := None;
                      resp_total := None |}, w1)
              | _ :: _ =>
                  let '(results, w2) :=
                    send_all subscriptions (notificationPayload payload) w1 in
                  ({| status := 200;
                      resp_message := None;
                      resp_success := Some true;
                      resp_sent := Some (successful results);
                      resp_failed :=
                        Some (Z.of_nat (List.length results) - successful results);
                      resp_total := Some (Z.of_nat (List.length subscriptions)) |},
                   w2)
              end
          end
    end.

(** *** Vocabulary of the properties *)

(** The gateway call for a subscription fails. *)
Definition call_fails (subscription : StoredRow) : bool :=
  match gateway (id subscription) with
  | Delivered => false
  | Refused _ _ => true
  end.

(** The gateway call for the subscription [i] fails with status 410. *)
Definition gone (i : string) : bool :=
  match gateway i with
  | Refused (Some statusCode) _ => statusCode =? 410
  | _ => false
  end.

(** Number of failing gateway calls over a set of subscriptions. *)
Definition failures (subscriptions : list StoredRow) : Z :=
  Z.of_nat (List.length (List.filter call_fails subscriptions)).

(** The data store accepts the deletion of the row [i]. *)
Definition delete_accepted (i : string) : bool :=
  match deleteError i with
  | None => true
  | Some _ => false
  end.

(** The table after the permanently refused subscriptions among the
    matched ones are removed, row by row, where the data store accepts
    their deletion. *)
Definition pruned (userId : option string) (t : Table) (i : string)
  : option Row :=
  match t !! i with
  | Some r =>
      if matches userId r && gone i && delete_accepted i then None else Some r
  | None => None
  end.

End Send.

(** A variable of [process.env] that [||] skips: unset, or set to the empty
    string. *)
Definition blank (v : option string) : Prop := v = None \/ v = Some "".

(** *** Sample data *)

Definition sample_env : Env :=
  {| VAPID_PUBLIC_KEY := Some "BEl-_w";
     VAPID_PRIVATE_KEY := Some "private";
     VAPID_SUBJECT := Some "mailto:ops@example.com";
     INTERNAL_SECRET := Some "s3cret";
     SUPABASE_SERVICE_ROLE_KEY := Some "service-role" |}.

(** The same deployment with [INTERNAL_SECRET] set to the empty string. *)
Definition blank_secret_env : Env :=
  {| VAPID_PUBLIC_KEY := Some "BEl-_w";
     VAPID_PRIVATE_KEY := Some "private";
     VAPID_SUBJECT := Some "mailto:ops@example.com";
     INTERNAL_SECRET := Some "";
     SUPABASE_SERVICE_ROLE_KEY := Some "service-role" |}.

(** The same deployment without [INTERNAL_SECRET]. *)
Definition no_secret_env : Env :=
  {| VAPID_PUBLIC_KEY := Some "BEl-_w";
     VAPID_PRIVATE_KEY := Some "private";
     VAPID_SUBJECT := Some "mailto:ops@example.com";
     INTERNAL_SECRET := None;
     SUPABASE_SERVICE_ROLE_KEY := Some "service-role" |}.

Definition sample_row (user endpoint : string) : Row :=
  {| user_id := user; endpoint := endpoint; p256dh := "cDI1Ng=="; auth := "YXV0aA==";
     created_at := "2024-01-01T00:00:00Z"; updated_at := "2024-01-01T00:00:00Z" |}.

(** Three subscriptions: two devices of [ana], one of [bia]. *)
Definition sample_table : Table :=
  <[ "s1" := sample_row "ana" "https://push.example/a1" ]>
  (<[ "s2" := sample_row "ana" "https://push.example/a2" ]>
  (<[ "s3" := sample_row "bia" "https://push.example/b1" ]> ∅)).

Definition sample_world : World := {| table := sample_table; effects := [] |}.

(** A gateway that delivers to [s1], reports [s2] gone and fails on the
    others with status 500. *)
Definition sample_gateway (i : string) : GatewayOutcome :=
  if String.eqb i "s1" then Delivered
  else if String.eqb i "s2" then Refused (Some 410) "Gone"
  else Refused (Some 500) "Internal Server Error".

(** A data store that deletes what it is asked to, and one that refuses
    every deletion. *)
Definition accepting_deletes (i : string) : option string := None.

Definition refusing_deletes (i : string) : option string :=
  Some "new row violates row-level security policy".

(** The [StoreDelete] calls among a list of calls, by row [id]. *)
Fixpoint deletes_issued (es : list Effect) : list string :=
  match es with
  | [] => []
  | StoreDelete i :: rest => i :: deletes_issued rest
  | _ :: rest => deletes_issued rest
  end.

Definition sample_payload (user : option string) : PushNotificationPayload :=
  {| userId := user; title := Some "T"; body := Some "B"; icon := None;
     badge := None; tag := None; data := None; url := None |}.

Definition sample_request (secret : option string) (user : option string)
  : Request :=
  {| x_internal_secret := secret; json := inr (sample_payload user) |}.

End Dispatcher.

(** ** Domain of the key decoder *)
Module CodecDomain.
Import Codec.

(** A text the decoder accepts: base64url characters followed by either no
    padding or the full padding, the unpadded length not 1 modulo 4. The
    unused low bits of the last character are not looked at. *)
Definition decodable_b64url (x : string) : bool :=
  let core := list_ascii_of_string (strip_padding x) in
  let n := Z.of_nat (List.length core) in
  let k := JS.length x - n in
  forallb is_b64url_char core
  && negb (n mod 4 =? 1)
  && ((k =? 0) || (k =? (4 - n mod 4) mod 4)).

(** A character that is in neither alphabet, is not white space and is not
    the padding sign. *)
Definition is_foreign (c : ascii) : bool :=
  negb (is_b64url_char c) && negb (is_ascii_whitespace c)
  && negb (Ascii.eqb c eq_sign) && negb (Ascii.eqb c "+")
  && negb (Ascii.eqb c "/").

End CodecDomain.

(** ** Background Worker Runtime: notification clicks, and the push
       message as the dispatcher sends it *)
Module ServiceWorkerEvents.
Import JsonValue ServiceWorker.

(** A window client as [clients.matchAll] lists it: its URL and whether it
    has a [focus] method. *)
Record WindowClient := { client_url : string; can_focus : bool }.

(** What the click handler asks of the platform after closing the
    notification. *)
Inductive ClickAction : Type :=
| FocusClient (index : nat) (client : WindowClient)
| OpenWindow (target : Json)
| NoAction.

(** [(event.notification.data || {}).url || '/dashboard'] *)
Definition urlToOpen (notification_data : option Json) : Json :=
  let notificationData := or_default notification_data (JObj []) in
  or_default (match get notificationData "url" with
              | Some o => o
              | None => None
              end)
             (JStr "/dashboard").

(** [client.url === urlToOpen && 'focus' in client] *)
Definition client_matches (target : Json) (client : WindowClient) : bool :=
  match target with
  | JStr s => String.eqb (client_url client) s && can_focus client
  | _ => false
  end.

(** The [for] loop over [windowClients], from index [i]. *)
Fixpoint first_match (target : Json) (windowClients : list WindowClient)
    (i : nat) : option (nat * WindowClient) :=
  match windowClients with
  | [] => None
  | client :: rest =>
      if client_matches target client then Some (i, client)
      else first_match target rest (S i)
  end.

(** The [notificationclick] listener; [has_openWindow] is the test
    [clients.openWindow]. *)
Definition onnotificationclick (has_openWindow : bool)
    (notification_data : option Json) (windowClients : list WindowClient)
  : ClickAction :=
  let target := urlToOpen notification_data in
  match first_match target windowClients 0%nat with
  | Some (i, client) => FocusClient i client
  | None => if has_openWindow then OpenWindow target else NoAction
  end.

(** The object the dispatcher serialises, as [JSON.parse] gives it back in
    the push handler. *)
Definition wire_json (w : Dispatcher.WirePayload) : Json :=
  JObj [("title", JStr (Dispatcher.wire_title w));
        ("body", JStr (Dispatcher.wire_body w));
        ("icon", JStr (Dispatcher.wire_icon w));
        ("badge", JStr (Dispatcher.wire_badge w));
        ("tag", JStr (Dispatcher.wire_tag w));
        ("data", JObj (Dispatcher.wire_data w))].

End ServiceWorkerEvents.

(** ** Subscription Manager: creating a subscription and enabling push,
       and the route the subscription is saved through *)
Module PushClient.
Import ServiceWorker (Settled, Fulfilled, Rejected).
Import SubscriptionManager.

(** A [PushSubscription] of the platform: its endpoint and the bytes of
    [getKey('p256dh')] and [getKey('auth')]. *)
Record RawSubscription := {
  raw_endpoint : string;
  raw_p256dh : list Z;
  raw_auth : list Z
}.

Definition with_subscription (p : Platform) (s : PushSubscriptionData)
  : Platform :=
  {| has_window := has_window p;
     has_serviceWorker := has_serviceWorker p;
     has_PushManager := has_PushManager p;
     has_Notification := has_Notification p;
     permission := permission p;
     subscription := Some s;
     prompt_answer := prompt_answer p;
     getSubscription_error := getSubscription_error p;
     unsubscribe_answer := unsubscribe_answer p |}.

Definition failed (message : string) : Outcome :=
  {| success := false; error := Some (JS.or_else (Some message) "Erro desconhecido") |}.

Section Client.

(** The message of the exception [atob] raises, and the answer of
    [pushManager.subscribe({userVisibleOnly: true, applicationServerKey})]
    for a given key. *)
Variable atob_error : string.
Variable subscribe : list Z -> Settled RawSubscription.

(** [createPushSubscription(vapidPublicKey)] *)
Definition createPushSubscription (vapidPublicKey : string) (w : World)
  : Result PushSubscriptionData * World :=
  if negb (isPushNotificationSupported (platform w)) then
    (Throw UnsupportedError, w)
  else
    match Codec.urlBase64ToUint8Array vapidPublicKey with
    | None => (Throw atob_error, w)
    | Some applicationServerKey =>
        match subscribe applicationServerKey with
        | Rejected e => (Throw e, w)
        | Fulfilled subscription =>
            let subscriptionData :=
              {| endpoint := raw_endpoint subscription;
                 p256dh := Codec.encodeKey (raw_p256dh subscription);
                 auth := Codec.encodeKey (raw_auth subscription) |} in
            (Return subscriptionData,
             {| platform := with_subscription (platform w) subscriptionData;
                calls := calls w |})
        end
    end.

(** The session token and the answer of the subscribe endpoint, as
    [saveSubscriptionToServer] takes them. *)
Variable access_token : option string.
Variable server : HttpRequest -> Settled (Z * option string).

(** [enablePushNotifications(vapidPublicKey)] *)
Definition enablePushNotifications (vapidPublicKey : string) (w : World)
  : Outcome * World :=
  match requestNotificationPermission w with
  | (Throw message, w1) => (failed message, w1)
  | (Return granted, w1) =>
      match createPushSubscription vapidPublicKey w1 with
      | (Throw message, w2) => (failed message, w2)
      | (Return subscriptionData, w2) =>
          saveSubscriptionToServer access_token server subscriptionData w2
      end
  | (Return _, w1) =>
      ({| success := false; error := Some "Permissão de notificação negada" |}, w1)
  end.

End Client.

(** The request of the page as the subscribe route reads it: the
    [Authorization] header and the JSON body. *)
Definition to_store_request (r : HttpRequest) : SubscriptionStore.Request :=
  {| SubscriptionStore.authorization := http_authorization r;
     SubscriptionStore.json :=
       match http_body r with
       | Some d =>
           inr {| SubscriptionStore.body_endpoint := Some (endpoint d);
                  SubscriptionStore.body_p256dh := Some (p256dh d);
                  SubscriptionStore.body_auth := Some (auth d) |}
       | None => inl "Unexpected end of JSON input"
       end |}.

(** The subscribe route as the page's [fetch] sees it: the status and the
    [message] of the reply. *)
Definition subscribe_endpoint (ctx : SubscriptionStore.Context)
    (t : DataStore.Table) (r : HttpRequest) : Settled (Z * option string) :=
  let response := fst (SubscriptionStore.POST ctx t (to_store_request r)) in
  Fulfilled (SubscriptionStore.status response, SubscriptionStore.message response).

(** *** Sample data *)

Definition sample_subscribe (key : list Z) : Settled RawSubscription :=
  Fulfilled {| raw_endpoint := "https://push.example/a1";
               raw_p256dh := [4; 251; 255];
               raw_auth := [1; 2; 3; 4] |}.

Definition accepting_server (r : HttpRequest) : Settled (Z * option string) :=
  Fulfilled (200, None).

Definition refusing_server (r : HttpRequest) : Settled (Z * option string) :=
  Fulfilled (500, Some "Erro ao salvar subscription").

End PushClient.

(** ** Callers of the dispatcher: the helpers of the library and the
       example client of the route ([push-send-example.ts]) *)
Module DispatcherCallers.
Import JsonValue DataStore Dispatcher.

Section Callers.
Variable fetchError : option string.
Variable gateway : string -> GatewayOutcome.
Variable completion : list StoredRow -> list StoredRow.
Variable deleteError : string -> option string.

(** [sendPushToTechnicianServer(userId, title, body, url)] *)
Definition sendPushToTechnicianServer (env : Env) (userId title body : string)
    (url : option string) (w : World) : ServerResult * World :=
  sendPushNotificationServer fetchError gateway completion deleteError env
    {| userId := Some userId;
       title := Some title;
       body := Some body;
       url := Some (JS.or_else url "/dashboard");
       icon := Some "/icon.svg";
       badge := Some "/icon.svg";
       tag := Some "visitaflow-notification";
       data := None |} w.

(** [sendPushToAllTechniciansServer(title, body, url)] *)
Definition sendPushToAllTechniciansServer (env : Env) (title body : string)
    (url : option string) (w : World) : ServerResult * World :=
  sendPushNotificationServer fetchError gateway completion deleteError env
    {| userId := None;
       title := Some title;
       body := Some body;
       url := Some (JS.or_else url "/dashboard");
       icon := Some "/icon.svg";
       badge := Some "/icon.svg";
       tag := Some "visitaflow-notification";
       data := None |} w.

(** The payload of [notifyNewVisitServer(userId, visitTitle, visitId)]. *)
Definition newVisitPayload (userId visitTitle visitId : string)
  : PushNotificationPayload :=
  {| userId := Some userId;
     title := Some "Nova Visita Atribuída";
     body := Some ("Você tem uma nova visita: " +:+ visitTitle);
     url := Some ("/visit/" +:+ visitId);
     icon := Some "/icon.svg";
     badge := Some "/icon.svg";
     tag := Some ("visit-" +:+ visitId);
     data := Some [("visitId", JStr visitId); ("type", JStr "new_visit")] |}.

(** [notifyNewVisitServer(userId, visitTitle, visitId)] *)
Definition notifyNewVisitServer (env : Env) (userId visitTitle visitId : string)
    (w : World) : ServerResult * World :=
  sendPushNotificationServer fetchError gateway completion deleteError env
    (newVisitPayload userId visitTitle visitId) w.

(** The payload of [notifyVisitTodayServer(userId, visitTitle, visitId)]. *)
Definition visitTodayPayload (userId visitTitle visitId : string)
  : PushNotificationPayload :=
  {| userId := Some userId;
     title := Some "Visita Hoje";
     body := Some ("Você tem uma visita agendada para hoje: " +:+ visitTitle);
     url := Some ("/visit/" +:+ visitId);
     icon := Some "/icon.svg";
     badge := Some "/icon.svg";
     tag := Some ("visit-today-" +:+ visitId);
     data := Some [("visitId", JStr visitId); ("type", JStr "visit_today")] |}.

(** [notifyVisitTodayServer(userId, visitTitle, visitId)] *)
Definition notifyVisitTodayServer (env : Env) (userId visitTitle visitId : string)
    (w : World) : ServerResult * World :=
  sendPushNotificationServer fetchError gateway completion deleteError env
    (visitTodayPayload userId visitTitle visitId) w.

(** [result.sent || 0] *)
Definition or_zero (n : option Z) : Z :=
  match n with
  | Some z => z
  | None => 0
  end.

(** The secret the example client puts in the header: the environment's
    chain on the server ([typeof window === 'undefined']), the constant in
    the browser. *)
Definition client_secret (env : Env) (in_browser : bool) : string :=
  if in_browser then "change-me-in-production"
  else JS.or_else (JS.or_opt (INTERNAL_SECRET env) (VAPID_SUBJECT env))
                  "change-me-in-production".

(** [sendPushNotification(payload)] of the example client, the route being
    reachable; on the server the client and the route read the same
    [process.env]. *)
Definition sendPushNotification (env : Env) (in_browser : bool)
    (payload : PushNotificationPayload) (w : World) : ServerResult * World :=
  let request :=
    {| x_internal_secret := Some (client_secret env in_browser);
       json := inr payload |} in
  let '(response, w') := POST fetchError gateway completion deleteError env request w in
  if (200 <=? status response) && (status response <=? 299) then
    ({| success := true;
        sent := or_zero (resp_sent response);
        failed := or_zero (resp_failed response);
        error := None |}, w')
  else
    (failure (JS.or_else
                (Some (JS.or_else (resp_message response)
                                  "Erro ao enviar notificação"))
                "Erro desconhecido"), w').

End Callers.

(** The gateway calls of a send, one per subscription. *)
Definition gateway_calls (payload : PushNotificationPayload)
    (subscriptions : list StoredRow) : list Effect :=
  map (fun s => GatewaySend (pushSubscription s) (notificationPayload payload))
      subscriptions.

(** A deployment that sets neither [INTERNAL_SECRET] nor [VAPID_SUBJECT]. *)
Definition default_secret_env : Env :=
  {| VAPID_PUBLIC_KEY := Some "BEl-_w";
     VAPID_PRIVATE_KEY := Some "private";
     VAPID_SUBJECT := None;
     INTERNAL_SECRET := None;
     SUPABASE_SERVICE_ROLE_KEY := Some "service-role" |}.

(** [GET /api/push/vapid-key]: the status and either the [publicKey] or the
    [message] of the body. *)
Definition GET_vapid_key (env : Env) : Z * (string + string) :=
  match vapidPublicKey env with
  | Some k =>
      if JS.truthy k then (200, inl k)
      else (500, inr "VAPID public key não configurada")
  | None => (500, inr "VAPID public key não configurada")
  end.

End DispatcherCallers.

(** ** Replies of the subscription store *)
Module SubscriptionStoreReplies.
Import DataStore SubscriptionStore.

(** [subscriptionData] of a call by [u] carrying [e], [k] and [a], with
    the [created_at] an insert gives it. *)
Definition data_of (ctx : Context) (u : User) (e k a : string) : Row :=
  {| user_id := uid u; endpoint := e; p256dh := k; auth := a;
     created_at := database_now ctx; updated_at := now ctx |}.

(** A table with the same endpoint stored for two users. *)
Definition shared_endpoint_table : Table :=
  <["id-1" := data_of (sample_context "id-1" "2024-05-01T10:00:00Z") ana
                "https://push.example/a1" "key-1" "auth-1"]>
  (<["id-9" := data_of (sample_context "id-9" "2024-04-01T08:00:00Z")
                 {| uid := "bia" |} "https://push.example/a1" "key-9" "auth-9"]> ∅).

(** The reply [{ success: true, subscription: result }] with status 200. *)
Definition ok_response (x : StoredRow) : Response :=
  {| status := 200; message := None; success := Some true;
     subscription := Some x |}.

End SubscriptionStoreReplies.

(** ** Visit notifications, from the send to the click *)
Module VisitNotifications.
Import JsonValue DataStore ServiceWorker ServiceWorkerEvents.

(** What the service worker does with a payload the gateway delivers: the
    notification shown by the [push] listener has the title, body and tag
    given, and a click on it targets [target]. *)
Definition shown_as (now : Z) (raw : string) (p : Dispatcher.WirePayload)
    (t b tg target : string) : Prop :=
  let shown :=
    onpush now (Some {| text := raw; json := Some (wire_json p) |}) in
  shown_title shown = JStr t
  /\ shown_body shown = JStr b
  /\ shown_tag shown = JStr tg
  /\ urlToOpen (Some (shown_data shown)) = JStr target.

(** Every gateway call made between [w] and [w'] goes to a stored
    subscription of [userId] and carries a payload satisfying [P]. *)
Definition reaches_only (userId : string) (w w' : Dispatcher.World)
    (P : Dispatcher.WirePayload -> Prop) : Prop :=
  exists es,
    Dispatcher.effects w' = Dispatcher.effects w ++ es
    /\ forall s p, In (Dispatcher.GatewaySend s p) es ->
         (exists i r, Dispatcher.table w !! i = Some r /\ user_id r = userId
                      /\ s = Dispatcher.pushSubscription (i, r))
         /\ P p.

End VisitNotifications.

(* ===================================================================== *)
(** * Part II: properties                                                 *)
(* ===================================================================== *)

(** ** Subscription Key Codec *)
Module CodecFacts.
Import Codec.

(** The primitives and the codec on a few texts. *)
Example codec_samples : Codec.atob "QQ==" = Some "A" /\ Codec.btoa "A" = "QQ=="
  /\ Codec.roundtrip "-_-_" = Some "+/+/"
  /\ Codec.roundtrip "QR" = Some "QQ=="
  /\ Codec.roundtrip "Q" = None
  /\ Codec.btoa "Man" = "TWFu" /\ Codec.atob "TWE=" = Some "Ma"
  /\ Codec.valid_b64url "TWE" = true /\ Codec.valid_b64url "TWE=" = true
  /\ Codec.valid_b64url "TWF" = false /\ Codec.valid_b64url "-_-_" = true
  /\ Codec.valid_b64url "TWE==" = false /\ Codec.valid_b64url "T" = false
  /\ Codec.standard_padded "-_E" = "+/E=".
Proof. repeat split; vm_compute; reflexivity. Qed.

Lemma fromCharCode_charCode (c : ascii) : JS.fromCharCode (JS.charCode c) = c.
Proof.
  unfold JS.fromCharCode, JS.charCode.
  rewrite N2Z.id. apply ascii_N_embedding.
Qed.

Lemma charCode_fromCharCode (z : Z) :
  0 <= z < 256 -> JS.charCode (JS.fromCharCode z) = z.
Proof.
  intros Hz. unfold JS.fromCharCode, JS.charCode.
  rewrite N_ascii_embedding by lia. lia.
Qed.

Lemma charCode_range (c : ascii) : 0 <= JS.charCode c < 256.
Proof.
  unfold JS.charCode. pose proof (N_ascii_bounded c). lia.
Qed.

Lemma b64_value_range (c : ascii) (v : Z) :
  b64_value c = Some v -> 0 <= v < 64.
Proof.
  unfold b64_value. intros H.
  repeat match type of H with
         | (if ?b then _ else _) = _ => destruct b eqn:?
         end; inversion H; subst; lia.
Qed.

Lemma b64_digit_value (c : ascii) (v : Z) :
  b64_value c = Some v -> b64_digit v = c.
Proof.
  unfold b64_value, b64_digit. intros H.
  pose proof (fromCharCode_charCode c) as Hc.
  repeat match type of H with
         | (if ?b then _ else _) = _ => destruct b eqn:?
         end; inversion H; subst; clear H;
  repeat match goal with
         | |- context [if ?b then _ else _] => destruct b eqn:?
         end; try lia.
  - now replace (JS.charCode c - 65 + 65) with (JS.charCode c) by lia.
  - now replace (JS.charCode c - 71 + 71) with (JS.charCode c) by lia.
  - now replace (JS.charCode c + 4 - 4) with (JS.charCode c) by lia.
  - replace (JS.charCode c) with 43 in Hc by lia. exact Hc.
  - replace (JS.charCode c) with 47 in Hc by lia. exact Hc.
Qed.

(** Induction over a list four elements at a time, the way both the decoder
    and the encoder consume their input. *)
Lemma list_ind4 {A : Type} (P : list A -> Prop) :
  P [] -> (forall a, P [a]) -> (forall a b, P [a; b]) ->
  (forall a b c, P [a; b; c]) ->
  (forall a b c d r, P r -> P (a :: b :: c :: d :: r)) ->
  forall l, P l.
Proof.
  intros H0 H1 H2 H3 H4. fix IH 1.
  intros [|a [|b [|c [|d r]]]];
    [exact H0 | apply H1 | apply H2 | apply H3 | apply H4, IH].
Qed.

(** Four six-bit values packed into three bytes and unpacked again. *)
Lemma regroup_full (a b c d : Z) :
  sextet a -> sextet b -> sextet c -> sextet d ->
  let x := a * 4 + b / 16 in
  let y := (b mod 16) * 16 + c / 4 in
  let z := (c mod 4) * 64 + d in
  (x / 4 = a /\ (x mod 4) * 16 + y / 16 = b
   /\ (y mod 16) * 4 + z / 64 = c /\ z mod 64 = d)
  /\ octet x /\ octet y /\ octet z.
Proof.
  unfold sextet, octet. intros Ha Hb Hc Hd. cbv zeta.
  repeat split; Z.div_mod_to_equations; lia.
Qed.

Lemma regroup_three (a b c : Z) :
  sextet a -> sextet b -> sextet c -> c mod 4 = 0 ->
  let x := a * 4 + b / 16 in
  let y := (b mod 16) * 16 + c / 4 in
  (x / 4 = a /\ (x mod 4) * 16 + y / 16 = b /\ (y mod 16) * 4 = c)
  /\ octet x /\ octet y.
Proof.
  unfold sextet, octet. intros Ha Hb Hc Hz. cbv zeta.
  repeat split; Z.div_mod_to_equations; lia.
Qed.

Lemma regroup_two (a b : Z) :
  sextet a -> sextet b -> b mod 16 = 0 ->
  let x := a * 4 + b / 16 in
  (x / 4 = a /\ (x mod 4) * 16 = b) /\ octet x.
Proof.
  unfold sextet, octet. intros Ha Hb Hz. cbv zeta.
  repeat split; Z.div_mod_to_equations; lia.
Qed.

Lemma length4_mod {A : Type} (a b c d : A) (r : list A) :
  Z.of_nat (List.length (a :: b :: c :: d :: r)) mod 4
  = Z.of_nat (List.length r) mod 4.
Proof.
  cbn [List.length]. rewrite !Nat2Z.inj_succ.
  replace (Z.succ (Z.succ (Z.succ (Z.succ (Z.of_nat (List.length r))))))
    with (Z.of_nat (List.length r) + 1 * 4) by lia.
  apply Z_mod_plus_full.
Qed.

Lemma canonical_tail_step (a b c d : Z) (r : list Z) :
  canonical_tail (a :: b :: c :: d :: r) = canonical_tail r.
Proof.
  unfold canonical_tail. rewrite length4_mod.
  destruct r as [|e r']; [reflexivity|].
  reflexivity.
Qed.

Ltac octets :=
  repeat first
    [ apply Stdlib.Lists.List.Forall_nil
    | apply Stdlib.Lists.List.Forall_cons; [assumption|] ];
  try assumption.

(** Decoding six-bit values and encoding the bytes again gives back the
    characters of the values, followed by the padding. *)
Lemma encode_decode_sextets (vs : list Z) :
  Forall sextet vs ->
  Z.of_nat (List.length vs) mod 4 <> 1 ->
  canonical_tail vs = true ->
  encode_bytes (decode_sextets vs)
  = (map b64_digit vs
     ++ List.repeat eq_sign (Z.to_nat (pad_count (Z.of_nat (List.length vs)))))%list
  /\ Forall octet (decode_sextets vs).
Proof.
  induction vs as [|a|a b|a b c|a b c d r IH] using list_ind4;
    intros Hr Hlen Hcan.
  - split; [reflexivity | constructor].
  - exfalso. apply Hlen. reflexivity.
  - inversion Hr as [|? ? Ha Hr1]; subst.
    inversion Hr1 as [|? ? Hb _]; subst.
    change (canonical_tail [a; b]) with (b mod 16 =? 0) in Hcan.
    destruct (regroup_two a b Ha Hb ltac:(lia)) as [[E1 E2] Ox].
    cbn [decode_sextets encode_bytes map List.length]. cbv zeta in *.
    rewrite E1, E2. split; [reflexivity | octets].
  - inversion Hr as [|? ? Ha Hr1]; subst.
    inversion Hr1 as [|? ? Hb Hr2]; subst.
    inversion Hr2 as [|? ? Hc _]; subst.
    change (canonical_tail [a; b; c]) with (c mod 4 =? 0) in Hcan.
    destruct (regroup_three a b c Ha Hb Hc ltac:(lia)) as [[E1 [E2 E3]] [Ox Oy]].
    cbn [decode_sextets encode_bytes map List.length]. cbv zeta in *.
    rewrite E1, E2, E3. split; [reflexivity | octets].
  - inversion Hr as [|? ? Ha Hr1]; subst.
    inversion Hr1 as [|? ? Hb Hr2]; subst.
    inversion Hr2 as [|? ? Hc Hr3]; subst.
    inversion Hr3 as [|? ? Hd Hr4]; subst.
    rewrite canonical_tail_step in Hcan. rewrite length4_mod in Hlen.
    destruct (IH Hr4 Hlen Hcan) as [IHe IHo].
    destruct (regroup_full a b c d Ha Hb Hc Hd) as [[E1 [E2 [E3 E4]]] [Ox [Oy Oz]]].
    cbv zeta in *.
    unfold pad_count. rewrite length4_mod. fold (pad_count (Z.of_nat (List.length r))).
    change (decode_sextets (a :: b :: c :: d :: r))
      with ((a * 4 + b / 16) :: ((b mod 16) * 16 + c / 4)
              :: ((c mod 4) * 64 + d) :: decode_sextets r).
    split.
    + change (encode_bytes (?x :: ?y :: ?z :: ?t))
        with (b64_digit (x / 4) :: b64_digit ((x mod 4) * 16 + y / 16)
                :: b64_digit ((y mod 16) * 4 + z / 64) :: b64_digit (z mod 64)
                :: encode_bytes t).
      rewrite E1, E2, E3, E4, IHe. reflexivity.
    + octets.
Qed.

(** *** Characters *)

Lemma url_char_standard (c : ascii) :
  is_b64url_char c = true ->
  is_ascii_whitespace (to_standard c) = false
  /\ Ascii.eqb (to_standard c) eq_sign = false
  /\ exists v, b64_value (to_standard c) = Some v.
Proof.
  destruct c as [[] [] [] [] [] [] [] []]; vm_compute; intros H;
    try discriminate H; repeat split; eexists; reflexivity.
Qed.

Lemma replace_char_standard (c : ascii) :
  (if Ascii.eqb (if Ascii.eqb c "-" then "+"%char else c) "_"
   then "/"%char else (if Ascii.eqb c "-" then "+"%char else c))
  = to_standard c.
Proof.
  unfold to_standard. destruct (Ascii.eqb c "-"); reflexivity.
Qed.

Lemma replace_all_standard (s : string) :
  list_ascii_of_string (JS.replace_all "_" "/" (JS.replace_all "-" "+" s))
  = map to_standard (list_ascii_of_string s).
Proof.
  induction s as [|c s IH]; [reflexivity|].
  cbn [JS.replace_all list_ascii_of_string map].
  rewrite replace_char_standard, IH. reflexivity.
Qed.

Lemma list_ascii_app (a b : string) :
  list_ascii_of_string (a +:+ b)
  = (list_ascii_of_string a ++ list_ascii_of_string b)%list.
Proof.
  induction a as [|c a IH]; [reflexivity|].
  change (String c a +:+ b) with (String c (a +:+ b)).
  cbn [list_ascii_of_string]. rewrite IH. reflexivity.
Qed.

Lemma list_ascii_repeat_eq (k : Z) :
  list_ascii_of_string (JS.repeat "=" k) = List.repeat eq_sign (Z.to_nat k).
Proof.
  unfold JS.repeat. induction (Z.to_nat k) as [|n IH]; [reflexivity|].
  change (JS.repeat_nat "=" (S n)) with (String "=" (JS.repeat_nat "=" n)).
  cbn [list_ascii_of_string List.repeat]. rewrite IH. reflexivity.
Qed.

Lemma list_ascii_length (s : string) :
  List.length (list_ascii_of_string s) = String.length s.
Proof. induction s as [|c s IH]; [reflexivity|]. cbn. now rewrite IH. Qed.

(** *** Padding *)

Lemma drop_eq_signs_split (l : list ascii) :
  l = (List.repeat eq_sign (List.length l - List.length (drop_eq_signs l))
       ++ drop_eq_signs l)%list
  /\ (List.length (drop_eq_signs l) <= List.length l)%nat.
Proof.
  induction l as [|c l [IH Hle]]; [split; reflexivity|].
  cbn [drop_eq_signs]. destruct (Ascii.eqb c eq_sign) eqn:E.
  - apply Ascii.eqb_eq in E. subst c. cbn [List.length]. split; [|lia].
    replace (S (List.length l) - List.length (drop_eq_signs l))%nat
      with (S (List.length l - List.length (drop_eq_signs l))) by lia.
    cbn [List.repeat]. cbn [app]. f_equal. exact IH.
  - cbn [List.length]. rewrite Nat.sub_diag. split; [reflexivity | lia].
Qed.

(** A text is its unpadded part followed by [=] signs. *)
Lemma strip_padding_split (x : string) :
  let core := list_ascii_of_string (strip_padding x) in
  list_ascii_of_string x
  = (core ++ List.repeat eq_sign (String.length x - List.length core))%list
  /\ (List.length core <= String.length x)%nat.
Proof.
  cbv zeta. unfold strip_padding.
  rewrite list_ascii_of_string_of_list_ascii.
  destruct (drop_eq_signs_split (rev (list_ascii_of_string x))) as [Hs Hle].
  rewrite length_rev in *. rewrite list_ascii_length in *.
  split; [|exact Hle].
  rewrite <- (rev_involutive (list_ascii_of_string x)) at 1.
  rewrite Hs at 1. rewrite rev_app_distr.
  f_equal. clear.
  generalize (String.length x - List.length (drop_eq_signs (rev (list_ascii_of_string x))))%nat.
  intros n. induction n as [|n IH]; [reflexivity|].
  cbn [List.repeat rev]. rewrite IH. clear.
  induction n as [|n IH]; [reflexivity|]. cbn. now rewrite IH.
Qed.

(** *** The decoder on a padded standard text *)

Lemma filter_whitespace_pad (l : list ascii) (k : nat) :
  Forall plain l ->
  List.filter (fun c => negb (is_ascii_whitespace c)) (l ++ List.repeat eq_sign k)
  = (l ++ List.repeat eq_sign k)%list.
Proof.
  intros Hl. induction Hl as [|c l [Hc _] _ IH].
  - cbn [app]. induction k as [|k IH]; [reflexivity|].
    cbn [List.repeat List.filter].
    change (negb (is_ascii_whitespace eq_sign)) with true. cbn match.
    now rewrite IH.
  - cbn [app List.filter]. rewrite Hc. cbn [negb]. now rewrite IH.
Qed.

Lemma strip_trailing_eq_pad (l : list ascii) (k : nat) :
  Forall plain l -> (k <= 2)%nat ->
  strip_trailing_eq (l ++ List.repeat eq_sign k) = l.
Proof.
  intros Hl Hk. unfold strip_trailing_eq. rewrite rev_app_distr.
  assert (Hrev : Forall plain (rev l)) by (apply Forall_rev; exact Hl).
  pose proof (rev_involutive l) as Hinv.
  destruct k as [|[|[|k]]]; [| | |lia]; cbn [List.repeat rev app].
  - rewrite app_nil_r.
    destruct (rev l) as [|a [|b r]]; [reflexivity| |];
      apply Forall_cons_1 in Hrev as [[_ Ha] _]; rewrite Ha; reflexivity.
  - destruct (rev l) as [|b r].
    + cbn in Hinv. subst l. reflexivity.
    + apply Forall_cons_1 in Hrev as [[_ Hb] _].
      change (Ascii.eqb eq_sign eq_sign) with true. cbn match.
      rewrite Hb. exact Hinv.
  - change (Ascii.eqb eq_sign eq_sign) with true. cbn match. exact Hinv.
Qed.

Lemma sextets_standard (core : list ascii) :
  forallb is_b64url_char core = true ->
  Forall plain (map to_standard core)
  /\ exists vs, sextets (map to_standard core) = Some vs
       /\ Forall sextet vs
       /\ List.length vs = List.length core
       /\ map b64_digit vs = map to_standard core.
Proof.
  induction core as [|c core IH]; intros H.
  - split; [constructor|]. exists []. repeat split; constructor.
  - cbn [forallb] in H. apply andb_true_iff in H as [Hc Hr].
    destruct (IH Hr) as [Hp [vs [Hs [Hv [Hlen Hmap]]]]].
    destruct (url_char_standard c Hc) as [Hw [He [v Hval]]].
    split; [constructor; [split; assumption | exact Hp]|].
    exists (v :: vs). cbn [map sextets List.length]. rewrite Hval, Hs.
    repeat split.
    + constructor; [exact (b64_value_range _ _ Hval) | exact Hv].
    + now rewrite Hlen.
    + now rewrite (b64_digit_value _ _ Hval), Hmap.
Qed.

Lemma pad_count_cases (n : Z) :
  n mod 4 <> 1 -> 0 <= pad_count n <= 2 /\ (n + pad_count n) mod 4 = 0.
Proof.
  unfold pad_count. intros H. Z.div_mod_to_equations. lia.
Qed.

(** [atob] on the standard form of a valid text: the bytes of its six-bit
    values. *)
Lemma atob_standard (core : list ascii) (vs : list Z) :
  Forall plain (map to_standard core) ->
  sextets (map to_standard core) = Some vs ->
  Z.of_nat (List.length core) mod 4 <> 1 ->
  atob (string_of_list_ascii
          (map to_standard core
           ++ List.repeat eq_sign
                (Z.to_nat (pad_count (Z.of_nat (List.length core))))))
  = Some (string_of_list_ascii (map JS.fromCharCode (decode_sextets vs))).
Proof.
  intros Hp Hs Hlen. unfold atob.
  rewrite list_ascii_of_string_of_list_ascii.
  rewrite filter_whitespace_pad by exact Hp.
  destruct (pad_count_cases _ Hlen) as [Hk Hz].
  assert (Hl : Z.of_nat (List.length
                 (map to_standard core
                  ++ List.repeat eq_sign
                       (Z.to_nat (pad_count (Z.of_nat (List.length core))))))
               mod 4 = 0).
  { rewrite length_app, length_map, repeat_length, Nat2Z.inj_add.
    rewrite Z2Nat.id by lia. exact Hz. }
  rewrite Hl. cbn [Z.eqb].
  rewrite strip_trailing_eq_pad by (try exact Hp; lia).
  rewrite length_map.
  destruct (Z.of_nat (List.length core) mod 4 =? 1) eqn:E; [lia|].
  rewrite Hs. reflexivity.
Qed.

(** *** Bytes and binary strings *)

Lemma octets_through_string (bs : list Z) :
  Forall octet bs ->
  map (fun c => uint8 (JS.charCode c))
      (list_ascii_of_string (string_of_list_ascii (map JS.fromCharCode bs)))
  = bs
  /\ map JS.charCode
       (list_ascii_of_string (string_of_list_ascii (map JS.fromCharCode bs)))
     = bs.
Proof.
  intros H. rewrite list_ascii_of_string_of_list_ascii.
  induction H as [|b bs Hb _ [IH1 IH2]]; [split; reflexivity|].
  cbn [map]. rewrite IH1, IH2. unfold uint8.
  rewrite (charCode_fromCharCode b Hb).
  unfold octet in Hb. rewrite Z.mod_small by lia. split; reflexivity.
Qed.

Lemma map_standard_repeat (k : nat) :
  map to_standard (List.repeat eq_sign k) = List.repeat eq_sign k.
Proof. induction k as [|k IH]; [reflexivity|]. cbn. now rewrite IH. Qed.

Lemma string_eq_of_list (a : string) (l : list ascii) :
  list_ascii_of_string a = l -> a = string_of_list_ascii l.
Proof. intros <-. symmetry. apply string_of_list_ascii_of_string. Qed.

(** The argument the codec passes to [atob]. *)
Lemma decoder_input (x : string) :
  let core := list_ascii_of_string (strip_padding x) in
  let n := Z.of_nat (List.length core) in
  let k := JS.length x - n in
  n mod 4 <> 1 -> (k = 0 \/ k = pad_count n) ->
  JS.replace_all "_" "/"
    (JS.replace_all "-" "+"
       (x +:+ JS.repeat "=" ((4 - (JS.length x mod 4)) mod 4)))
  = string_of_list_ascii
      (map to_standard core ++ List.repeat eq_sign (Z.to_nat (pad_count n))).
Proof.
  cbv zeta. intros Hn Hk. apply string_eq_of_list.
  rewrite replace_all_standard, list_ascii_app, list_ascii_repeat_eq.
  destruct (strip_padding_split x) as [Hx Hle]. cbv zeta in Hx, Hle.
  rewrite Hx at 1. rewrite !map_app, !map_standard_repeat, <- app_assoc.
  f_equal. rewrite <- repeat_app. f_equal.
  destruct (pad_count_cases _ Hn) as [Hp Hz].
  unfold JS.length in *. fold (pad_count (Z.of_nat (String.length x))).
  set (n := Z.of_nat (List.length (list_ascii_of_string (strip_padding x)))) in *.
  assert (Hxn : Z.of_nat (String.length x)
                = n + Z.of_nat (String.length x
                        - List.length (list_ascii_of_string (strip_padding x))))
    by (subst n; lia).
  destruct Hk as [Hk | Hk].
  - replace (String.length x
             - List.length (list_ascii_of_string (strip_padding x)))%nat
      with 0%nat by lia.
    replace (Z.of_nat (String.length x)) with n by lia. reflexivity.
  - assert (Hpx : pad_count (Z.of_nat (String.length x)) = 0).
    { unfold pad_count. replace (Z.of_nat (String.length x))
        with (n + pad_count n) by lia. rewrite Hz. reflexivity. }
    rewrite Hpx. lia.
Qed.

Lemma standard_padded_list (x : string) :
  let core := list_ascii_of_string (strip_padding x) in
  standard_padded x
  = string_of_list_ascii
      (map to_standard core
       ++ List.repeat eq_sign
            (Z.to_nat (pad_count (Z.of_nat (List.length core))))).
Proof.
  cbv zeta. apply string_eq_of_list. unfold standard_padded, standard_text.
  rewrite list_ascii_app, replace_all_standard, list_ascii_repeat_eq.
  unfold JS.length. rewrite <- list_ascii_length. reflexivity.
Qed.

(** Decoding a valid base64url text and encoding the bytes gives the text in
    the standard alphabet with full padding. *)
Lemma roundtrip_valid (x : string) :
  valid_b64url x = true -> roundtrip x = Some (standard_padded x).
Proof.
  unfold valid_b64url. cbv zeta. intros H.
  apply andb_true_iff in H as [H Hcan].
  apply andb_true_iff in H as [H Hk].
  apply andb_true_iff in H as [Hchars Hn].
  set (core := list_ascii_of_string (strip_padding x)) in *.
  destruct (sextets_standard core Hchars) as [Hp [vs [Hs [Hv [Hlen Hmap]]]]].
  rewrite Hs in Hcan.
  assert (Hn' : Z.of_nat (List.length core) mod 4 <> 1) by lia.
  assert (Hk' : JS.length x - Z.of_nat (List.length core) = 0
                \/ JS.length x - Z.of_nat (List.length core)
                   = pad_count (Z.of_nat (List.length core)))
    by (unfold pad_count; lia).
  unfold roundtrip, urlBase64ToUint8Array.
  rewrite (decoder_input x Hn' Hk'). fold core.
  rewrite (atob_standard core vs Hp Hs Hn').
  rewrite <- Hlen in Hn'.
  destruct (encode_decode_sextets vs Hv Hn' Hcan) as [Henc Hoct].
  destruct (octets_through_string _ Hoct) as [Hu8 Hcc].
  rewrite Hu8. unfold encodeKey, btoa. rewrite Hcc, Henc, Hmap, Hlen.
  rewrite standard_padded_list. reflexivity.
Qed.

(** *** Equality up to padding *)

Lemma drop_eq_signs_pad (l : list ascii) (k : nat) :
  drop_eq_signs (List.repeat eq_sign k ++ l) = drop_eq_signs l.
Proof. induction k as [|k IH]; [reflexivity|]. cbn. exact IH. Qed.

Lemma rev_repeat_eq (k : nat) :
  rev (List.repeat eq_sign k) = List.repeat eq_sign k.
Proof.
  induction k as [|k IH]; [reflexivity|].
  cbn [List.repeat rev]. rewrite IH. clear.
  induction k as [|k IH]; [reflexivity|]. cbn. now rewrite IH.
Qed.

Lemma strip_padding_plain (l : list ascii) (k : nat) :
  Forall plain l ->
  strip_padding (string_of_list_ascii (l ++ List.repeat eq_sign k))
  = string_of_list_ascii l.
Proof.
  intros Hl. unfold strip_padding.
  rewrite list_ascii_of_string_of_list_ascii, rev_app_distr, rev_repeat_eq.
  rewrite drop_eq_signs_pad. f_equal.
  assert (Hrev : Forall plain (rev l)) by (apply Forall_rev; exact Hl).
  rewrite <- (rev_involutive l) at 2. f_equal.
  destruct (rev l) as [|c r]; [reflexivity|].
  apply Forall_cons_1 in Hrev as [[_ Hc] _]. cbn. now rewrite Hc.
Qed.

(** C5, as amended. For every valid base64url text [x], decoding with
    [urlBase64ToUint8Array] and encoding the bytes with [btoa] succeeds and
    yields the standard-alphabet form of [x] ([-] replaced by [+], [_] by
    [/]) padded with [=] to a multiple of four characters; up to padding the
    result equals the standard-alphabet form of [x], not [x] itself. *)
Theorem codec_roundtrip_standard (x : string) :
  valid_b64url x = true ->
  roundtrip x = Some (standard_padded x)
  /\ eq_mod_padding (standard_padded x) (standard_text x).
Proof.
  intros Hv. split; [exact (roundtrip_valid x Hv)|].
  unfold valid_b64url in Hv. cbv zeta in Hv.
  apply andb_true_iff in Hv as [Hv _].
  apply andb_true_iff in Hv as [Hv _].
  apply andb_true_iff in Hv as [Hchars _].
  destruct (sextets_standard _ Hchars) as [Hp _].
  unfold eq_mod_padding. rewrite standard_padded_list. cbv zeta.
  rewrite strip_padding_plain by exact Hp.
  assert (Hx : standard_text x
               = string_of_list_ascii
                   (map to_standard (list_ascii_of_string (strip_padding x))
                    ++ List.repeat eq_sign
                         (String.length x
                          - List.length (list_ascii_of_string (strip_padding x))))).
  { apply string_eq_of_list. unfold standard_text.
    rewrite replace_all_standard.
    destruct (strip_padding_split x) as [Hs _]. cbv zeta in Hs.
    rewrite Hs at 1. rewrite map_app, map_standard_repeat. reflexivity. }
  rewrite Hx, strip_padding_plain by exact Hp. reflexivity.
Qed.

(** The amended property at a text with both URL-safe characters. *)
Lemma codec_roundtrip_standard_witness :
  (roundtrip "BEl-_w" = Some (standard_padded "BEl-_w")
   /\ eq_mod_padding (standard_padded "BEl-_w") (standard_text "BEl-_w"))
  /\ standard_padded "BEl-_w" = "BEl+/w==".
Proof.
  split; [apply (codec_roundtrip_standard "BEl-_w"); reflexivity | reflexivity].
Defined.

(** C5, as stated, fails: the valid text [-_-_] comes back as [+/+/], which
    differs from it by more than padding. *)
Lemma codec_roundtrip_changes_alphabet :
  valid_b64url "-_-_" = true
  /\ roundtrip "-_-_" = Some "+/+/"
  /\ ~ eq_mod_padding "+/+/" "-_-_".
Proof.
  split; [reflexivity|]. split; [reflexivity|].
  unfold eq_mod_padding. vm_compute. discriminate.
Qed.

End CodecFacts.

(** ** Background Worker Runtime *)
Module ServiceWorkerFacts.
Import JsonValue ServiceWorker.

(** C6. The fetch handler is network-first: a non-GET request is not
    intercepted; for a GET request a network success is returned unmodified
    with no cache call at all, a network failure is answered from the cache
    when an entry matches, and otherwise the network error itself is
    propagated; the cache storage is never changed. *)
Theorem fetch_network_first
    (network : Request -> Settled Response) (cs : CacheStorage)
    (request : Request) :
  (method request <> "GET" ->
     onfetch network cs request = (NotIntercepted, cs, []))
  /\ (method request = "GET" ->
      forall response, network request = Fulfilled response ->
        onfetch network cs request
        = (RespondWith (Fulfilled response), cs, [NetworkFetch request]))
  /\ (method request = "GET" ->
      forall error cached, network request = Rejected error ->
        caches_match cs request = Some cached ->
        onfetch network cs request
        = (RespondWith (Fulfilled cached), cs,
           [NetworkFetch request; CacheMatch request]))
  /\ (method request = "GET" ->
      forall error, network request = Rejected error ->
        caches_match cs request = None ->
        onfetch network cs request
        = (RespondWith (Rejected error), cs,
           [NetworkFetch request; CacheMatch request])).
Proof.
  unfold onfetch. repeat split.
  - intros Hm. apply String.eqb_neq in Hm. now rewrite Hm.
  - intros Hm response Hn. rewrite Hm, Hn. reflexivity.
  - intros Hm error cached Hn Hc. rewrite Hm, Hn, Hc. reflexivity.
  - intros Hm error Hn Hc. rewrite Hm, Hn, Hc. reflexivity.
Qed.

Lemma fetch_network_first_witness :
  onfetch sample_network sample_caches {| method := "POST"; url := "/api/visits" |}
  = (NotIntercepted, sample_caches, [])
  /\ onfetch sample_network sample_caches {| method := "GET"; url := "/online" |}
     = (RespondWith (Fulfilled {| status := 200; payload := "fresh" |}),
        sample_caches, [NetworkFetch {| method := "GET"; url := "/online" |}])
  /\ onfetch sample_network sample_caches {| method := "GET"; url := "/dashboard" |}
     = (RespondWith (Fulfilled {| status := 200; payload := "cached" |}),
        sample_caches,
        [NetworkFetch {| method := "GET"; url := "/dashboard" |};
         CacheMatch {| method := "GET"; url := "/dashboard" |}])
  /\ onfetch sample_network sample_caches {| method := "GET"; url := "/visits" |}
     = (RespondWith (Rejected "TypeError: Failed to fetch"), sample_caches,
        [NetworkFetch {| method := "GET"; url := "/visits" |};
         CacheMatch {| method := "GET"; url := "/visits" |}]).
Proof.
  split; [|split; [|split]].
  - apply (fetch_network_first sample_network sample_caches
             {| method := "POST"; url := "/api/visits" |}).
    discriminate.
  - apply (fetch_network_first sample_network sample_caches
             {| method := "GET"; url := "/online" |}); reflexivity.
  - apply (fetch_network_first sample_network sample_caches
             {| method := "GET"; url := "/dashboard" |})
      with (error := "TypeError: Failed to fetch"); reflexivity.
  - apply (fetch_network_first sample_network sample_caches
             {| method := "GET"; url := "/visits" |}); reflexivity.
Defined.

(** *** Push events *)

(** A body that does not parse as JSON is shown as plain text: the body of
    the notification is the raw text, or the default body when the text is
    empty; title, icon, badge and tag are the defaults. *)
Lemma push_text_fallback (now : Z) (d : PushMessageData) :
  json d = None ->
  let shown := onpush now (Some d) in
  shown_body shown
  = (if JS.truthy (text d) then JStr (text d) else JStr default_body)
  /\ shown_title shown = JStr default_title
  /\ shown_icon shown = JStr default_icon
  /\ shown_badge shown = JStr default_badge
  /\ shown_tag shown = JStr default_tag.
Proof.
  intros Hj. unfold onpush, from_json. rewrite Hj. cbn. auto.
Qed.

(** A body that parses to anything but [null] is merged over the
    defaults. *)
Lemma push_json_merge (now : Z) (d : PushMessageData) (payload : Json) :
  json d = Some payload -> payload <> JNull ->
  onpush now (Some d) = merged now payload.
Proof.
  intros Hj Hn. unfold onpush, from_json, merged. rewrite Hj.
  destruct payload; [congruence | reflexivity ..].
Qed.

(** C7 at the failing input. The body [null] parses as JSON, yet the
    handler shows it as plain text: reading a property of [null] raises
    inside the [try] block and the [catch] block takes over. The displayed
    body is the text [null] where the merge over the defaults gives the
    default body. *)
Theorem push_null_payload_shown_as_text (now : Z) :
  let d := {| text := "null"; json := Some JNull |} in
  shown_body (onpush now (Some d)) = JStr "null"
  /\ shown_body (merged now JNull) = JStr default_body
  /\ onpush now (Some d) <> merged now JNull.
Proof.
  cbn. repeat split. discriminate.
Qed.

End ServiceWorkerFacts.

(** ** Subscription Manager *)
Module SubscriptionManagerFacts.
Import ServiceWorker (Settled, Fulfilled, Rejected).
Import SubscriptionManager.

(** C8. [requestNotificationPermission] short-circuits: on a supported
    platform with permission already granted it returns [granted], with
    permission already denied it throws the permission-denied error, in both
    cases without prompting (the world, and so the list of platform calls,
    is unchanged); when the capability check fails it throws the
    unsupported error. *)
Theorem request_permission_short_circuit (w : World) :
  (isPushNotificationSupported (platform w) = true ->
   permission (platform w) = granted ->
   requestNotificationPermission w = (Return granted, w))
  /\ (isPushNotificationSupported (platform w) = true ->
      permission (platform w) = denied ->
      requestNotificationPermission w = (Throw PermissionDeniedError, w))
  /\ (isPushNotificationSupported (platform w) = false ->
      requestNotificationPermission w = (Throw UnsupportedError, w)).
Proof.
  unfold requestNotificationPermission. repeat split.
  - intros Hs Hp. rewrite Hs, Hp. reflexivity.
  - intros Hs Hp. rewrite Hs, Hp. reflexivity.
  - intros Hs. rewrite Hs. reflexivity.
Qed.

Lemma request_permission_short_circuit_witness :
  requestNotificationPermission (sample_world true granted)
  = (Return granted, sample_world true granted)
  /\ requestNotificationPermission (sample_world true denied)
     = (Throw PermissionDeniedError, sample_world true denied)
  /\ requestNotificationPermission (sample_world false default)
     = (Throw UnsupportedError, sample_world false default).
Proof.
  split; [|split].
  - apply (request_permission_short_circuit (sample_world true granted));
      reflexivity.
  - apply (request_permission_short_circuit (sample_world true denied));
      reflexivity.
  - apply (request_permission_short_circuit (sample_world false default));
      reflexivity.
Defined.

(** Only an undecided permission leads to a prompt. *)
Lemma request_permission_prompts (w : World) :
  isPushNotificationSupported (platform w) = true ->
  permission (platform w) = default ->
  fst (requestNotificationPermission w) = Return (prompt_answer (platform w))
  /\ calls (snd (requestNotificationPermission w)) = calls w ++ [PromptPermission].
Proof.
  intros Hs Hp. unfold requestNotificationPermission.
  rewrite Hs, Hp. split; reflexivity.
Qed.

(** Saving a subscription does reach the server. *)
Lemma save_issues_request (token : option string)
    (server : HttpRequest -> Settled (Z * option string))
    (d : PushSubscriptionData) (w : World) :
  exists r, server_requests (snd (saveSubscriptionToServer token server d w))
            = server_requests w ++ [r]
            /\ http_url r = "/api/push/subscribe".
Proof.
  eexists. unfold saveSubscriptionToServer.
  assert (E : forall c, server_requests (record_call w (HttpFetch c))
                        = server_requests w ++ [c]).
  { intros c. unfold server_requests, record_call. cbn [calls].
    rewrite omap_app. reflexivity. }
  destruct (server _) as [[st msg]|e]; [destruct (_ && _)|]; cbn [snd];
    (split; [apply E | reflexivity]).
Qed.

(** C9, as amended. In every platform state [disablePushNotifications]
    sends nothing to the server, so the stored subscription record stays.
    On a supported platform whose subscription lookup succeeds it
    unsubscribes an existing subscription and returns success when the
    platform call succeeds, returns a failure and keeps the subscription
    when the platform call is rejected, and returns success without any
    call when there is no subscription; on an unsupported platform it
    returns a failure and leaves the platform untouched. *)
Theorem disable_leaves_server_untouched (w : World) :
  server_requests (snd (disablePushNotifications w)) = server_requests w
  /\ (isPushNotificationSupported (platform w) = true ->
      getSubscription_error (platform w) = None ->
      forall sub b,
        subscription (platform w) = Some sub ->
        unsubscribe_answer (platform w) = Fulfilled b ->
        success (fst (disablePushNotifications w)) = true
        /\ subscription (platform (snd (disablePushNotifications w))) = None
        /\ calls (snd (disablePushNotifications w))
           = calls w ++ [PushUnsubscribe (endpoint sub)])
  /\ (isPushNotificationSupported (platform w) = true ->
      getSubscription_error (platform w) = None ->
      forall sub e,
        subscription (platform w) = Some sub ->
        unsubscribe_answer (platform w) = Rejected e ->
        success (fst (disablePushNotifications w)) = false
        /\ subscription (platform (snd (disablePushNotifications w))) = Some sub)
  /\ (isPushNotificationSupported (platform w) = true ->
      getSubscription_error (platform w) = None ->
      subscription (platform w) = None ->
      disablePushNotifications w = ({| success := true; error := None |}, w))
  /\ (isPushNotificationSupported (platform w) = false ->
      disablePushNotifications w
      = ({| success := false; error := Some "Push notifications não suportadas" |}, w)).
Proof.
  unfold disablePushNotifications. split; [|split; [|split; [|split]]].
  - destruct (isPushNotificationSupported (platform w)); cbn [negb]; [|reflexivity].
    destruct (getSubscription_error (platform w)); [reflexivity|].
    destruct (subscription (platform w)) as [sub|]; [|reflexivity].
    destruct (unsubscribe_answer (platform w)); cbn [snd];
      unfold server_requests, record_call; cbn [calls];
      rewrite omap_app; cbn; apply app_nil_r.
  - intros Hs He sub b Hsub Hu. rewrite Hs, He, Hsub, Hu.
    repeat split; reflexivity.
  - intros Hs He sub e Hsub Hu. rewrite Hs, He, Hsub, Hu.
    split; [reflexivity | exact Hsub].
  - intros Hs He Hn. rewrite Hs, He, Hn. reflexivity.
  - intros Hs. rewrite Hs. reflexivity.
Qed.

Lemma disable_leaves_server_untouched_witness :
  (success (fst (disablePushNotifications (subscribed_world true (Fulfilled true))))
   = true
   /\ subscription
        (platform (snd (disablePushNotifications
                          (subscribed_world true (Fulfilled true)))))
      = None
   /\ calls (snd (disablePushNotifications (subscribed_world true (Fulfilled true))))
      = calls (subscribed_world true (Fulfilled true))
        ++ [PushUnsubscribe "https://push.example/abc"])
  /\ disablePushNotifications (sample_world true granted)
     = ({| success := true; error := None |}, sample_world true granted)
  /\ disablePushNotifications (subscribed_world false (Fulfilled true))
     = ({| success := false; error := Some "Push notifications não suportadas" |},
        subscribed_world false (Fulfilled true))
  /\ server_requests
       (snd (disablePushNotifications (subscribed_world true (Fulfilled true))))
     = server_requests (subscribed_world true (Fulfilled true)).
Proof.
  split; [|split; [|split]].
  - exact (proj1 (proj2 (disable_leaves_server_untouched
                           (subscribed_world true (Fulfilled true))))
             eq_refl eq_refl _ true eq_refl eq_refl).
  - exact (proj1 (proj2 (proj2 (proj2 (disable_leaves_server_untouched
                                         (sample_world true granted)))))
             eq_refl eq_refl eq_refl).
  - exact (proj2 (proj2 (proj2 (proj2 (disable_leaves_server_untouched
                                         (subscribed_world false (Fulfilled true))))))
             eq_refl).
  - exact (proj1 (disable_leaves_server_untouched
                    (subscribed_world true (Fulfilled true)))).
Defined.

(** C9, as stated, fails. On an unsupported platform [disable] returns a
    failure and an existing subscription is not unsubscribed; on a
    supported platform whose [unsubscribe] call is rejected it returns a
    failure and the subscription stays. *)
Lemma disable_can_fail :
  (subscription (platform (subscribed_world false (Fulfilled true)))
   = Some {| endpoint := "https://push.example/abc";
             p256dh := "cDI1Ng=="; auth := "YXV0aA==" |}
   /\ success (fst (disablePushNotifications
                      (subscribed_world false (Fulfilled true)))) = false
   /\ snd (disablePushNotifications (subscribed_world false (Fulfilled true)))
      = subscribed_world false (Fulfilled true))
  /\ (isPushNotificationSupported
        (platform (subscribed_world true (Rejected "AbortError"))) = true
      /\ success (fst (disablePushNotifications
                         (subscribed_world true (Rejected "AbortError")))) = false
      /\ subscription
           (platform (snd (disablePushNotifications
                             (subscribed_world true (Rejected "AbortError")))))
         = Some {| endpoint := "https://push.example/abc";
                   p256dh := "cDI1Ng=="; auth := "YXV0aA==" |}).
Proof. repeat split. Qed.

End SubscriptionManagerFacts.

(** ** Notification Dispatcher *)
Module DispatcherFacts.
Import JsonValue DataStore Dispatcher.

(** *** The secret gate *)

(** C3. A request whose [x-internal-secret] header is absent or differs
    from the configured secret is answered with status 401 and leaves the
    world as it was: no gateway call, no query and no deletion is made,
    whatever the body and the other collaborators. *)
Theorem send_gate_rejects
    (fetchError : option string) (gateway : string -> GatewayOutcome)
    (completion : list StoredRow -> list StoredRow)
    (deleteError : string -> option string)
    (env : Env) (request : Request) (w : World) :
  x_internal_secret request <> Some (internalSecret env) ->
  let '(response, w') := POST fetchError gateway completion deleteError env request w in
  status response = 401 /\ effects w' = effects w /\ table w' = table w.
Proof.
  intros Hh. unfold POST.
  assert (Hd : header_differs (x_internal_secret request) (internalSecret env)
               = true).
  { unfold header_differs. destruct (x_internal_secret request) as [h|]; [|reflexivity].
    destruct (String.eqb_spec h (internalSecret env)); [congruence | reflexivity]. }
  rewrite Hd. cbn. auto.
Qed.

Lemma send_gate_rejects_witness :
  let '(response, w') :=
    POST None sample_gateway (@rev StoredRow) accepting_deletes sample_env
         (sample_request (Some "guess") None) sample_world in
  status response = 401 /\ effects w' = effects sample_world
  /\ table w' = table sample_world.
Proof.
  apply (send_gate_rejects None sample_gateway (@rev StoredRow) accepting_deletes
      sample_env
           (sample_request (Some "guess") None) sample_world).
  vm_compute. discriminate.
Defined.

Lemma or_else_blank (v : option string) (d : string) :
  blank v -> JS.or_else v d = d.
Proof. intros [-> | ->]; reflexivity. Qed.

Lemma or_opt_blank (v o : option string) : blank v -> JS.or_opt v o = o.
Proof. intros [-> | ->]; reflexivity. Qed.

(** C10, as amended. The secret the gate compares with is the
    [INTERNAL_SECRET] value when that is set to a non-empty string,
    otherwise the [VAPID_SUBJECT] value when that is set to a non-empty
    string, otherwise the constant [change-me-in-production]; and a request
    that carries this effective secret in its header is never answered
    with 401. *)
Theorem internal_secret_fallback_chain
    (fetchError : option string) (gateway : string -> GatewayOutcome)
    (completion : list StoredRow -> list StoredRow)
    (deleteError : string -> option string)
    (env : Env) :
  (forall s, INTERNAL_SECRET env = Some s -> s <> "" -> internalSecret env = s)
  /\ (blank (INTERNAL_SECRET env) ->
      forall s, VAPID_SUBJECT env = Some s -> s <> "" -> internalSecret env = s)
  /\ (blank (INTERNAL_SECRET env) -> blank (VAPID_SUBJECT env) ->
      internalSecret env = "change-me-in-production")
  /\ (forall request w,
        x_internal_secret request = Some (internalSecret env) ->
        status (fst (POST fetchError gateway completion deleteError
            env request w)) <> 401).
Proof.
  unfold internalSecret. split; [|split; [|split]].
  - intros s Hs Hne. rewrite Hs. destruct s; [congruence | reflexivity].
  - intros Hb s Hs Hne. rewrite (or_opt_blank _ _ Hb), Hs.
    destruct s; [congruence | reflexivity].
  - intros Hb Hv. rewrite (or_opt_blank _ _ Hb). now apply or_else_blank.
  - intros request w Hh. unfold POST. rewrite Hh.
    unfold header_differs, internalSecret. rewrite String.eqb_refl. cbn [negb].
    repeat match goal with
           | |- context [if ?b then _ else _] => destruct b
           | |- context [match ?x with _ => _ end] => destruct x
           end; cbn; discriminate.
Qed.

Lemma internal_secret_fallback_chain_witness :
  internalSecret sample_env = "s3cret"
  /\ internalSecret no_secret_env = "mailto:ops@example.com"
  /\ status (fst (POST None sample_gateway (@rev StoredRow) accepting_deletes
      no_secret_env
                    (sample_request (Some "mailto:ops@example.com") None)
                    sample_world)) <> 401.
Proof.
  split; [|split].
  - refine (proj1 (internal_secret_fallback_chain None sample_gateway
                     (@rev StoredRow) accepting_deletes sample_env) "s3cret" eq_refl _).
    discriminate.
  - refine (proj1 (proj2 (internal_secret_fallback_chain None sample_gateway
                            (@rev StoredRow) accepting_deletes no_secret_env))
                  (or_introl eq_refl) "mailto:ops@example.com" eq_refl _).
    discriminate.
  - exact (proj2 (proj2 (proj2 (internal_secret_fallback_chain None
                                  sample_gateway (@rev StoredRow) accepting_deletes
                                      no_secret_env)))
                 (sample_request (Some "mailto:ops@example.com") None)
                 sample_world eq_refl).
Defined.

(** C10, as stated, fails: with [INTERNAL_SECRET] set to the empty string
    the gate does not compare with that value but with the [VAPID_SUBJECT]
    value; a request carrying the empty [INTERNAL_SECRET] value is answered
    with 401. *)
Lemma internal_secret_blank_is_skipped :
  INTERNAL_SECRET blank_secret_env = Some ""
  /\ internalSecret blank_secret_env = "mailto:ops@example.com"
  /\ status (fst (POST None sample_gateway (@rev StoredRow) accepting_deletes
      blank_secret_env
                    (sample_request (Some "") None) sample_world)) = 401.
Proof. repeat split. Qed.

(** *** The fan-out *)

Section SendFacts.
Variable gateway : string -> GatewayOutcome.
Variable completion : list StoredRow -> list StoredRow.
Variable deleteError : string -> option string.

Lemma settle_lookup (w : World) (s : StoredRow) (i : string) :
  table (settle gateway deleteError w s) !! i
  = if String.eqb (id s) i && gone gateway i && delete_accepted deleteError i
    then None else table w !! i.
Proof.
  unfold settle, gone, delete_accepted, delete_eq_id.
  destruct (String.eqb_spec (id s) i) as [->|Hne]; cbn [andb].
  - destruct (gateway i) as [|[code|] msg]; try reflexivity.
    destruct (code =? 410); [|reflexivity]. cbn [table andb].
    destruct (deleteError i); [reflexivity|].
    apply lookup_delete_eq.
  - destruct (gateway (id s)) as [|[code|] msg]; try reflexivity.
    destruct (code =? 410); [|reflexivity]. cbn [table].
    destruct (deleteError (id s)); [reflexivity|].
    now apply lookup_delete_ne.
Qed.

(** The table after the sends have completed, in any order. *)
Lemma settle_all_lookup (order : list StoredRow) (w : World) (i : string) :
  table (fold_left (settle gateway deleteError) order w) !! i
  = if existsb (fun s => String.eqb (id s) i) order && gone gateway i
       && delete_accepted deleteError i
    then None else table w !! i.
Proof.
  revert w. induction order as [|s order IH]; intros w; [reflexivity|].
  cbn [fold_left existsb]. rewrite IH, settle_lookup.
  destruct (String.eqb (id s) i), (existsb _ order), (gone gateway i),
    (delete_accepted deleteError i); reflexivity.
Qed.

(** The calls made while the sends complete: one deletion per subscription
    whose gateway call reported status 410, whatever the data store
    answers. *)
Lemma settle_all_effects (order : list StoredRow) (w : World) :
  effects (fold_left (settle gateway deleteError) order w)
  = effects w ++ map StoreDelete (List.filter (gone gateway) (map id order)).
Proof.
  revert w. induction order as [|s order IH]; intros w.
  - cbn. now rewrite app_nil_r.
  - cbn [fold_left map List.filter]. rewrite IH. unfold settle, gone.
    destruct (gateway (id s)) as [|[code|] msg]; try reflexivity.
    destruct (code =? 410); [|reflexivity].
    cbn [effects map]. now rewrite <- app_assoc.
Qed.

Lemma deletes_issued_app (es es' : list Effect) :
  deletes_issued (es ++ es') = deletes_issued es ++ deletes_issued es'.
Proof.
  induction es as [|[u|s p|i] es IH]; cbn; [reflexivity | exact IH | exact IH|].
  now rewrite IH.
Qed.

Lemma deletes_issued_deletes (l : list string) :
  deletes_issued (map StoreDelete l) = l.
Proof. induction l as [|i l IH]; cbn; [reflexivity | now rewrite IH]. Qed.

Lemma deletes_issued_sends {A : Type} (f : A -> PushSubscription)
    (p : WirePayload) (l : list A) :
  deletes_issued (map (fun s => GatewaySend (f s) p) l) = [].
Proof. induction l as [|x l IH]; cbn; [reflexivity | exact IH]. Qed.

Lemma filter_permutation {A : Type} (f : A -> bool) (l l' : list A) :
  Permutation l l' -> Permutation (List.filter f l) (List.filter f l').
Proof.
  induction 1 as [|x l l' _ IH|x y l|l l' l'' _ IH1 _ IH2]; cbn.
  - constructor.
  - destruct (f x); [now constructor | exact IH].
  - destruct (f x), (f y); try reflexivity. constructor.
  - now transitivity (List.filter f l').
Qed.

Lemma existsb_permutation {A : Type} (f : A -> bool) (l l' : list A) :
  Permutation l l' -> existsb f l = existsb f l'.
Proof.
  induction 1 as [|x l l' _ IH|x y l|l l' l'' _ IH1 _ IH2]; cbn.
  - reflexivity.
  - now rewrite IH.
  - destruct (f x), (f y); reflexivity.
  - now rewrite IH1.
Qed.

(** A row is among the selected ones exactly when the table has it and
    the filter accepts it. *)
Lemma selected_lookup (P : Row -> bool) (t : Table) (i : string) :
  existsb (fun s => String.eqb (id s) i) (select_where P t)
  = match t !! i with Some r => P r | None => false end.
Proof.
  unfold select_where.
  destruct (existsb _ _) eqn:E.
  - apply existsb_exists in E as [[j r] [Hin Hid]].
    apply filter_In in Hin as [Hin HP]. cbn in Hid, HP.
    apply String.eqb_eq in Hid. subst j.
    apply list_elem_of_In, elem_of_map_to_list in Hin. now rewrite Hin.
  - destruct (t !! i) as [r|] eqn:L; [|reflexivity].
    destruct (P r) eqn:HP; [|reflexivity].
    assert (Hex : existsb (fun s => String.eqb (id s) i)
                    (List.filter (fun s => P (snd s)) (map_to_list t)) = true).
    { apply existsb_exists. exists (i, r). split.
      - apply filter_In. split; [|exact HP].
        apply list_elem_of_In, elem_of_map_to_list. exact L.
      - apply String.eqb_refl. }
    congruence.
Qed.

Lemma send_result_success (s : StoredRow) :
  result_success (send_result gateway s) = negb (call_fails gateway s).
Proof. unfold send_result, call_fails. now destruct (gateway (id s)). Qed.

Lemma results_partition (subscriptions : list StoredRow) :
  (List.length (List.filter result_success
                  (map (send_result gateway) subscriptions))
   + List.length (List.filter (call_fails gateway) subscriptions)
   = List.length subscriptions)%nat.
Proof.
  induction subscriptions as [|s l IH]; [reflexivity|].
  cbn [map List.filter]. rewrite send_result_success.
  destruct (call_fails gateway s); cbn [negb List.length]; lia.
Qed.

Lemma successful_count (subscriptions : list StoredRow) :
  successful (map (send_result gateway) subscriptions)
  = Z.of_nat (List.length subscriptions) - failures gateway subscriptions
  /\ 0 <= failures gateway subscriptions <= Z.of_nat (List.length subscriptions).
Proof.
  unfold successful, failures.
  pose proof (results_partition subscriptions). lia.
Qed.

(** The outcome of the fan-out over the rows a query selected. *)
Lemma send_all_outcome (userId : option string) (payload : WirePayload)
    (w : World) :
  let subscriptions := select_where (matches userId) (table w) in
  Permutation (completion subscriptions) subscriptions ->
  forall started, table started = table w ->
  let '(results, w') := send_all gateway completion deleteError
      subscriptions payload started in
  successful results
  = Z.of_nat (List.length subscriptions) - failures gateway subscriptions
  /\ Z.of_nat (List.length results) - successful results
     = failures gateway subscriptions
  /\ (forall i, table w' !! i = pruned gateway deleteError userId (table w) i)
  /\ Permutation (deletes_issued (effects w'))
       (deletes_issued (effects started)
        ++ List.filter (gone gateway) (map id subscriptions)).
Proof.
  cbv zeta. intros Hperm started Ht. unfold send_all.
  destruct (successful_count (select_where (matches userId) (table w)))
    as [Hs Hb].
  rewrite length_map, Hs. split; [reflexivity|]. split; [lia|]. split.
  - intros i. rewrite settle_all_lookup.
    rewrite (existsb_permutation _ _ _ Hperm), selected_lookup.
    unfold record_effects. cbn [table]. rewrite Ht. unfold pruned.
    destruct (table w !! i) as [r|]; [reflexivity|].
    now destruct (gone gateway i), (delete_accepted deleteError i).
  - rewrite settle_all_effects. cbn [record_effects effects].
    rewrite !deletes_issued_app, deletes_issued_sends, deletes_issued_deletes.
    rewrite app_nil_r. apply Permutation_app_head, filter_permutation.
    now apply Permutation_map.
Qed.

End SendFacts.

(** C4, as amended. With VAPID and the data store configured, a non-empty
    title and body, and a query that matches no subscription, the send is
    not an error: [sendPushNotificationServer] returns
    [{success: true, sent: 0, failed: 0}] (its result has no [total]), and
    the route answers with status 200 and the body
    [{message: 'Nenhuma subscription encontrada', sent: 0}], which has no
    [success], [failed] or [total] property. *)
Theorem send_without_subscriptions
    (gateway : string -> GatewayOutcome)
    (completion : list StoredRow -> list StoredRow)
    (deleteError : string -> option string)
    (env : Env) (payload : PushNotificationPayload) (w : World) :
  JS.otruthy (vapidPublicKey env) = true ->
  JS.otruthy (vapidPrivateKey env) = true ->
  JS.otruthy (SUPABASE_SERVICE_ROLE_KEY env) = true ->
  JS.otruthy (title payload) = true ->
  JS.otruthy (body payload) = true ->
  select_where (matches (userId payload)) (table w) = [] ->
  fst (sendPushNotificationServer None gateway completion deleteError env payload w)
  = {| success := true; sent := 0; failed := 0; error := None |}
  /\ forall request,
       x_internal_secret request = Some (internalSecret env) ->
       json request = inr payload ->
       fst (POST None gateway completion deleteError env request w)
       = {| status := 200;
            resp_message := Some "Nenhuma subscription encontrada";
            resp_success := None;
            resp_sent := Some 0;
            resp_failed := None;
            resp_total := None |}.
Proof.
  intros Hpub Hpriv Hkey Ht Hb Hsel. split.
  - unfold sendPushNotificationServer.
    rewrite Hpub, Hpriv, Hkey, Ht, Hb, Hsel. reflexivity.
  - intros request Hh Hj. unfold POST.
    rewrite Hh, Hj, Hpub, Hpriv, Hkey, Ht, Hb, Hsel.
    unfold header_differs. rewrite String.eqb_refl. reflexivity.
Qed.

Lemma send_without_subscriptions_witness :
  fst (sendPushNotificationServer None sample_gateway (@rev StoredRow) accepting_deletes
         sample_env (sample_payload (Some "zoe")) sample_world)
  = {| success := true; sent := 0; failed := 0; error := None |}
  /\ fst (POST None sample_gateway (@rev StoredRow) accepting_deletes sample_env
            (sample_request (Some "s3cret") (Some "zoe")) sample_world)
     = {| status := 200;
          resp_message := Some "Nenhuma subscription encontrada";
          resp_success := None;
          resp_sent := Some 0;
          resp_failed := None;
          resp_total := None |}.
Proof.
  pose proof (send_without_subscriptions sample_gateway (@rev StoredRow) accepting_deletes
                sample_env (sample_payload (Some "zoe")) sample_world
                eq_refl eq_refl eq_refl eq_refl eq_refl eq_refl) as [Hlib Hroute].
  split; [exact Hlib|].
  exact (Hroute (sample_request (Some "s3cret") (Some "zoe")) eq_refl eq_refl).
Defined.

(** C4, as stated, fails: over an empty table the route's reply has no
    [success], [failed] or [total] property, and the result of the library
    function has no [total] at all. *)
Lemma send_empty_reply_has_no_total :
  let response :=
    fst (POST None sample_gateway (@rev StoredRow) accepting_deletes sample_env
           (sample_request (Some "s3cret") None)
           {| table := ∅; effects := [] |}) in
  status response = 200
  /\ resp_sent response = Some 0
  /\ resp_success response <> Some true
  /\ resp_failed response <> Some 0
  /\ resp_total response <> Some 0.
Proof. cbn. repeat split; discriminate. Qed.

(** C1, as amended. Let [N] be the number of subscriptions the query
    matches and [K] the number of them whose gateway call fails, the sends
    completing in any order. [sendPushNotificationServer] succeeds with
    [sent = N - K] and [failed = K] (its result has no [total]); when
    [N >= 1] the route answers with status 200, [sent = N - K],
    [failed = K] and [total = N]. In both, the data store is asked to
    delete exactly the matched rows whose gateway call failed with status
    410, once each, and the table afterwards is the table before without
    those of them whose deletion the data store accepted: the answer to a
    deletion is not looked at, so a refused deletion leaves its row and
    changes neither the counts nor the status. *)
Theorem send_counts_and_pruning
    (gateway : string -> GatewayOutcome)
    (completion : list StoredRow -> list StoredRow)
    (deleteError : string -> option string)
    (env : Env) (payload : PushNotificationPayload) (w : World) :
  JS.otruthy (vapidPublicKey env) = true ->
  JS.otruthy (vapidPrivateKey env) = true ->
  JS.otruthy (SUPABASE_SERVICE_ROLE_KEY env) = true ->
  JS.otruthy (title payload) = true ->
  JS.otruthy (body payload) = true ->
  let subscriptions := select_where (matches (userId payload)) (table w) in
  let N := Z.of_nat (List.length subscriptions) in
  let K := failures gateway subscriptions in
  Permutation (completion subscriptions) subscriptions ->
  (let '(result, w') :=
     sendPushNotificationServer None gateway completion deleteError env payload w in
   success result = true /\ sent result = N - K /\ failed result = K
   /\ (forall i, table w' !! i
                 = pruned gateway deleteError (userId payload) (table w) i)
   /\ Permutation (deletes_issued (effects w'))
        (deletes_issued (effects w)
         ++ List.filter (gone gateway) (map id subscriptions)))
  /\ (forall request,
        x_internal_secret request = Some (internalSecret env) ->
        json request = inr payload ->
        subscriptions <> [] ->
        let '(response, w') :=
          POST None gateway completion deleteError env request w in
        status response = 200
        /\ resp_sent response = Some (N - K)
        /\ resp_failed response = Some K
        /\ resp_total response = Some N
        /\ (forall i, table w' !! i
                      = pruned gateway deleteError (userId payload) (table w) i)
        /\ Permutation (deletes_issued (effects w'))
             (deletes_issued (effects w)
              ++ List.filter (gone gateway) (map id subscriptions))).
Proof.
  cbv zeta. intros Hpub Hpriv Hkey Ht Hb Hperm.
  pose proof (send_all_outcome gateway completion deleteError (userId payload)
                (notificationPayload payload) w Hperm
                (record_effects w [StoreSelect (query_filter (userId payload))])
                eq_refl) as Hout.
  assert (Hq : deletes_issued
                 (effects (record_effects w
                             [StoreSelect (query_filter (userId payload))]))
               = deletes_issued (effects w)).
  { cbn [record_effects effects]. rewrite deletes_issued_app. cbn.
    apply app_nil_r. }
  rewrite Hq in Hout. clear Hq.
  remember (select_where (matches (userId payload)) (table w)) as subs
    eqn:Hsubs.
  split.
  - unfold sendPushNotificationServer.
    rewrite Hpub, Hpriv, Hkey, Ht, Hb, <- Hsubs. cbn [negb orb].
    destruct subs as [|s rest].
    + assert (Hc : completion [] = []) by (now apply Permutation_nil).
      unfold send_all in Hout. rewrite Hc in Hout.
      destruct Hout as [_ [_ [Hp _]]].
      split; [reflexivity|]. split; [reflexivity|]. split; [reflexivity|].
      split; [exact Hp|].
      cbn [snd record_effects effects map List.filter].
      rewrite deletes_issued_app, !app_nil_r. reflexivity.
    + destruct (send_all gateway completion deleteError (s :: rest)
                  (notificationPayload payload) _) as [results w2].
      destruct Hout as [Hs [Hf [Hp Hd]]]. cbn [success sent failed].
      rewrite Hf, Hs. auto.
  - intros request Hh Hj Hne. unfold POST.
    rewrite Hh, Hj, Hpub, Hpriv, Hkey, Ht, Hb, <- Hsubs.
    unfold header_differs. rewrite String.eqb_refl. cbn [negb orb].
    destruct subs as [|s rest]; [congruence|].
    destruct (send_all gateway completion deleteError (s :: rest)
                (notificationPayload payload) _) as [results w2].
    destruct Hout as [Hs [Hf [Hp Hd]]].
    cbn [status resp_sent resp_failed resp_total].
    rewrite Hf, Hs. auto 6.
Qed.

Lemma send_counts_and_pruning_witness :
  let subscriptions := select_where (matches None) (table sample_world) in
  let N := Z.of_nat (List.length subscriptions) in
  let K := failures sample_gateway subscriptions in
  let '(response, w') :=
    POST None sample_gateway (@rev StoredRow) refusing_deletes sample_env
         (sample_request (Some "s3cret") None) sample_world in
  status response = 200
  /\ resp_sent response = Some (N - K)
  /\ resp_failed response = Some K
  /\ resp_total response = Some N
  /\ (forall i, table w' !! i
                = pruned sample_gateway refusing_deletes None
                    (table sample_world) i)
  /\ Permutation (deletes_issued (effects w'))
       (deletes_issued (effects sample_world)
        ++ List.filter (gone sample_gateway) (map id subscriptions)).
Proof.
  refine (proj2 (send_counts_and_pruning sample_gateway (@rev StoredRow)
                   refusing_deletes sample_env (sample_payload None)
                   sample_world eq_refl eq_refl eq_refl eq_refl eq_refl _)
                (sample_request (Some "s3cret") None) eq_refl eq_refl _).
  - symmetry. apply Permutation_rev.
  - vm_compute. discriminate.
Defined.

(** The sample send: three subscriptions, one delivered, one gone, one
    failing with status 500; only the gone one leaves the table. *)
Example send_sample_run :
  let '(response, w') :=
    POST None sample_gateway (@rev StoredRow) accepting_deletes sample_env
         (sample_request (Some "s3cret") None) sample_world in
  response = {| status := 200; resp_message := None; resp_success := Some true;
                resp_sent := Some 1; resp_failed := Some 2; resp_total := Some 3 |}
  /\ table w' = delete "s2" sample_table
  /\ List.filter (fun e => match e with StoreDelete _ => true | _ => false end)
       (effects w') = [StoreDelete "s2"].
Proof. vm_compute. repeat split. Qed.

(** The same send over a data store that refuses the deletion: the same
    reply and the same deletion call, and the gone subscription is still in
    the table. *)
Example send_refused_delete_run :
  let '(response, w') :=
    POST None sample_gateway (@rev StoredRow) refusing_deletes sample_env
         (sample_request (Some "s3cret") None) sample_world in
  response = {| status := 200; resp_message := None; resp_success := Some true;
                resp_sent := Some 1; resp_failed := Some 2; resp_total := Some 3 |}
  /\ table w' = sample_table
  /\ deletes_issued (effects w') = ["s2"].
Proof. vm_compute. repeat split. Qed.

(** C1, as stated, fails: when the query matches no subscription ([N = 0],
    [K = 0]) the route's reply carries [sent] only; it has neither
    [failed] nor [total]. *)
Lemma send_route_empty_match_has_no_counts :
  let subscriptions := select_where (matches (Some "zoe")) (table sample_world) in
  let response :=
    fst (POST None sample_gateway (@rev StoredRow) accepting_deletes sample_env
           (sample_request (Some "s3cret") (Some "zoe")) sample_world) in
  subscriptions = []
  /\ resp_sent response = Some 0
  /\ resp_failed response <> Some (failures sample_gateway subscriptions)
  /\ resp_total response <> Some (Z.of_nat (List.length subscriptions)).
Proof. vm_compute. repeat split; discriminate. Qed.

End DispatcherFacts.

(** ** Subscription Store *)
Module SubscriptionStoreFacts.
Import DataStore SubscriptionStore.

Lemma selected_iff (P : Row -> bool) (t : Table) (i : string) (r : Row) :
  In (i, r) (select_where P t) <-> t !! i = Some r /\ P r = true.
Proof.
  unfold select_where. rewrite filter_In, <- list_elem_of_In, elem_of_map_to_list.
  reflexivity.
Qed.

Lemma selected_NoDup (P : Row -> bool) (t : Table) :
  List.NoDup (select_where P t).
Proof.
  unfold select_where. apply Stdlib.Lists.List.NoDup_filter.
  apply NoDup_ListNoDup, NoDup_map_to_list.
Qed.

Lemma singleton_by_members {A : Type} (l : list A) (a : A) :
  List.NoDup l -> (forall x, In x l <-> x = a) -> l = [a].
Proof.
  intros Hnd Hm. destruct l as [|x [|y l']].
  - exfalso. apply (proj2 (Hm a) eq_refl).
  - f_equal. apply Hm. now left.
  - exfalso.
    assert (x = a) by (apply Hm; now left).
    assert (y = a) by (apply Hm; right; now left).
    subst. inversion Hnd as [|? ? Hnin _]. apply Hnin. now left.
Qed.

Lemma empty_by_members {A : Type} (l : list A) :
  (forall x, ~ In x l) -> l = [].
Proof.
  destruct l as [|x l]; [reflexivity|]. intros H. exfalso. apply (H x). now left.
Qed.

Lemma single_Some (rows : list StoredRow) (x : StoredRow) :
  single rows = Some x -> rows = [x].
Proof.
  destruct rows as [|y [|z rows]]; cbn; congruence.
Qed.

Lemma is_for_spec (u e : string) (r : Row) :
  is_for u e r = true <-> user_id r = u /\ endpoint r = e.
Proof.
  unfold is_for. rewrite andb_true_iff, !String.eqb_eq. reflexivity.
Qed.

Lemma same_key_is_for (d r : Row) :
  same_key d r = is_for (user_id d) (endpoint d) r.
Proof.
  unfold same_key, is_for.
  now rewrite (String.eqb_sym (user_id d)), (String.eqb_sym (endpoint d)).
Qed.

(** Updating the one row found for a user and an endpoint leaves exactly
    that row for them, carrying the new data. *)
Lemma records_after_update (u e : string) (t : Table) (i : string) (r0 d : Row)
    (NOW : string) :
  records_of u e t = [(i, r0)] ->
  user_id d = u -> endpoint d = e ->
  records_of u e (alter (apply_update NOW d) i t) = [(i, apply_update NOW d r0)].
Proof.
  intros Hone Hu He. unfold records_of in *.
  assert (Hin0 : t !! i = Some r0 /\ is_for u e r0 = true).
  { apply selected_iff. rewrite Hone. now left. }
  destruct Hin0 as [Hl0 _].
  apply singleton_by_members; [apply selected_NoDup|].
  intros [j r]. rewrite selected_iff. split.
  - intros [Hl HP]. destruct (decide (i = j)) as [<-|Hne].
    + rewrite lookup_alter_eq, Hl0 in Hl. cbn in Hl. congruence.
    + rewrite lookup_alter_ne in Hl by exact Hne.
      assert (Hin : In (j, r) (select_where (is_for u e) t))
        by (apply selected_iff; auto).
      rewrite Hone in Hin. destruct Hin as [Heq|[]]. congruence.
  - intros Heq. injection Heq as -> ->.
    rewrite lookup_alter_eq, Hl0. split; [reflexivity|].
    apply is_for_spec. cbn. auto.
Qed.

(** Inserting a row for a user and an endpoint that have none leaves
    exactly that row for them. *)
Lemma records_after_insert (t : Table) (i : string) (d : Row) :
  select_where (same_key d) t = [] ->
  records_of (user_id d) (endpoint d) (<[i := d]> t) = [(i, d)].
Proof.
  intros Hnone. unfold records_of.
  apply singleton_by_members; [apply selected_NoDup|].
  intros [j r]. rewrite selected_iff. split.
  - intros [Hl HP]. destruct (decide (i = j)) as [<-|Hne].
    + rewrite lookup_insert_eq in Hl. congruence.
    + rewrite lookup_insert_ne in Hl by exact Hne.
      assert (Hin : In (j, r) (select_where (same_key d) t)).
      { apply selected_iff. rewrite same_key_is_for. auto. }
      rewrite Hnone in Hin. destruct Hin.
  - intros Heq. injection Heq as -> ->.
    rewrite lookup_insert_eq. split; [reflexivity|].
    apply is_for_spec. auto.
Qed.

Lemma select_where_ext (P Q : Row -> bool) (t : Table) :
  (forall r, P r = Q r) -> select_where P t = select_where Q t.
Proof.
  intros H. unfold select_where. apply filter_ext. intros x. apply H.
Qed.

(** Under the schema's uniqueness constraint a user has at most one record
    per endpoint. *)
Lemma at_most_one_record (u e : string) (t : Table) :
  unique_endpoints t ->
  records_of u e t = [] \/ exists x, records_of u e t = [x].
Proof.
  intros Huniq. unfold records_of.
  pose proof (selected_NoDup (is_for u e) t) as Hnd.
  assert (Hall : forall x y, In x (select_where (is_for u e) t) ->
                             In y (select_where (is_for u e) t) -> x = y).
  { intros [i r] [j r'] Hx Hy.
    apply selected_iff in Hx as [Hx Px]. apply selected_iff in Hy as [Hy Py].
    apply is_for_spec in Px as [Pu Pe]. apply is_for_spec in Py as [Qu Qe].
    assert (i = j).
    { apply (Huniq i j r r' Hx Hy). unfold same_key.
      rewrite Pu, Pe, Qu, Qe, !String.eqb_refl. reflexivity. }
    subst j. congruence. }
  destruct (select_where (is_for u e) t) as [|x [|y l]].
  - now left.
  - right. now exists x.
  - exfalso. assert (x = y) by (apply Hall; [now left | right; now left]).
    subst y. inversion Hnd as [|? ? Hnin _]. apply Hnin. now left.
Qed.

(** One call by an authenticated user with valid data, the data store
    being available: it is answered with 200 and leaves exactly one record
    for the user and the endpoint, carrying the keys of the call. *)
Lemma subscribe_call (ctx : Context) (t : Table) (request : Request)
    (u : User) (e k a : string) :
  authenticated_call ctx request u e k a ->
  store_available ctx ->
  (records_of (uid u) e t = [] /\ t !! generated_id ctx = None)
  \/ (exists x, records_of (uid u) e t = [x]) ->
  status (fst (POST ctx t request)) = 200
  /\ exists i r, records_of (uid u) e (snd (POST ctx t request)) = [(i, r)]
                 /\ p256dh r = k /\ auth r = a.
Proof.
  intros (Htok & Hu & Hj & He & Hk & Ha) [Hlf Hwe] Hrec.
  unfold POST. rewrite Htok, Hu, Hj. cbn [negb body_endpoint body_p256dh body_auth].
  rewrite He, Hk, Ha, Hlf, Hwe. cbn [negb orb].
  fold (records_of (uid u) e t).
  destruct Hrec as [[Hnone Hfresh] | [[i r0] Hone]].
  - rewrite Hnone. cbn [single]. unfold insert_row. rewrite Hfresh.
    set (d := {| user_id := uid u; endpoint := e; p256dh := k; auth := a;
                 created_at := database_now ctx; updated_at := now ctx |}).
    assert (Hsk : select_where (same_key d) t = []).
    { rewrite (select_where_ext _ _ t (same_key_is_for d)). exact Hnone. }
    rewrite Hsk. cbn [fst snd status]. split; [reflexivity|].
    exists (generated_id ctx), d. split; [|split; reflexivity].
    exact (records_after_insert t (generated_id ctx) d Hsk).
  - rewrite Hone. cbn [single fst snd status id]. split; [reflexivity|].
    eexists i, _. split; [|split].
    + apply records_after_update; [exact Hone | reflexivity | reflexivity].
    + reflexivity.
    + reflexivity.
Qed.

(** C2. Two successive calls by the same authenticated user with the same
    endpoint: both are answered with 200, and afterwards the table holds
    exactly one record for that user and endpoint, carrying the key
    material of the second call. The table before satisfies the schema's
    [UNIQUE(user_id, endpoint)] constraint, the data store is available and
    the identifier generated for a new row is not in use. *)
Theorem subscribe_twice_one_record
    (ctx1 ctx2 : Context) (t : Table) (request1 request2 : Request)
    (u : User) (e k1 a1 k2 a2 : string) :
  unique_endpoints t ->
  t !! generated_id ctx1 = None ->
  store_available ctx1 -> store_available ctx2 ->
  authenticated_call ctx1 request1 u e k1 a1 ->
  authenticated_call ctx2 request2 u e k2 a2 ->
  let '(response1, t1) := POST ctx1 t request1 in
  let '(response2, t2) := POST ctx2 t1 request2 in
  status response1 = 200 /\ status response2 = 200
  /\ exists i r, records_of (uid u) e t2 = [(i, r)]
                 /\ p256dh r = k2 /\ auth r = a2.
Proof.
  intros Huniq Hfresh Hs1 Hs2 Hc1 Hc2.
  assert (H1 : (records_of (uid u) e t = [] /\ t !! generated_id ctx1 = None)
               \/ (exists x, records_of (uid u) e t = [x])).
  { destruct (at_most_one_record (uid u) e t Huniq) as [Hn | Hx]; auto. }
  destruct (subscribe_call ctx1 t request1 u e k1 a1 Hc1 Hs1 H1)
    as [Hst1 (i1 & r1 & Hone1 & _)].
  destruct (POST ctx1 t request1) as [response1 t1]. cbn [fst snd] in *.
  assert (H2 : (records_of (uid u) e t1 = [] /\ t1 !! generated_id ctx2 = None)
               \/ (exists x, records_of (uid u) e t1 = [x]))
    by (right; eauto).
  destruct (subscribe_call ctx2 t1 request2 u e k2 a2 Hc2 Hs2 H2)
    as [Hst2 Hone2].
  destruct (POST ctx2 t1 request2) as [response2 t2]. cbn [fst snd] in *.
  auto.
Qed.

Lemma unique_endpoints_empty : unique_endpoints ∅.
Proof. intros i j r s' Hi. rewrite lookup_empty in Hi. discriminate. Qed.

Lemma subscribe_twice_one_record_witness :
  let '(response1, t1) :=
    POST (sample_context "id-1" "2024-05-01T10:00:00Z") ∅
         (sample_request "key-1" "auth-1") in
  let '(response2, t2) :=
    POST (sample_context "id-2" "2024-05-02T10:00:00Z") t1
         (sample_request "key-2" "auth-2") in
  status response1 = 200 /\ status response2 = 200
  /\ exists i r, records_of (uid ana) "https://push.example/a1" t2 = [(i, r)]
                 /\ p256dh r = "key-2" /\ auth r = "auth-2".
Proof.
  apply (subscribe_twice_one_record
           (sample_context "id-1" "2024-05-01T10:00:00Z")
           (sample_context "id-2" "2024-05-02T10:00:00Z")
           ∅ (sample_request "key-1" "auth-1") (sample_request "key-2" "auth-2")
           ana "https://push.example/a1" "key-1" "auth-1" "key-2" "auth-2").
  - exact unique_endpoints_empty.
  - reflexivity.
  - split; reflexivity.
  - split; reflexivity.
  - repeat split.
  - repeat split.
Defined.

(** The two sample calls: the second updates the row the first inserted,
    keeping its identifier and creation time. *)
Example subscribe_sample_run :
  snd (POST (sample_context "id-2" "2024-05-02T10:00:00Z")
            (snd (POST (sample_context "id-1" "2024-05-01T10:00:00Z") ∅
                       (sample_request "key-1" "auth-1")))
            (sample_request "key-2" "auth-2"))
  = {[ "id-1" := {| user_id := "ana"; endpoint := "https://push.example/a1";
                    p256dh := "key-2"; auth := "auth-2";
                    created_at := "2024-05-01T10:00:00Z";
                    updated_at := "2024-05-02T10:00:00Z" |} ]}.
Proof. vm_compute. reflexivity. Qed.

(** A call without a usable token, without an authenticated user or
    without a required field is refused and leaves the table as it was. *)
Lemma subscribe_refusals (ctx : Context) (t : Table) (request : Request) :
  (JS.otruthy (JS.remove_first "Bearer " <$> authorization request) = false ->
   POST ctx t request = (error_response 401 "Token de acesso não fornecido", t))
  /\ (JS.otruthy (JS.remove_first "Bearer " <$> authorization request) = true ->
      getServerUser ctx = None ->
      POST ctx t request = (error_response 401 "Não autenticado", t)).
Proof.
  unfold POST. split.
  - intros H. rewrite H. reflexivity.
  - intros H Hu. rewrite H, Hu. reflexivity.
Qed.

End SubscriptionStoreFacts.

(** ** The key decoder on arbitrary texts and the encoder on arbitrary
       bytes *)
Module CodecDomainFacts.
Import Codec CodecDomain CodecFacts.

(** Induction over a list three elements at a time, the way the encoder
    consumes bytes. *)
Lemma list_ind3 {A : Type} (P : list A -> Prop) :
  P [] -> (forall a, P [a]) -> (forall a b, P [a; b]) ->
  (forall a b c r, P r -> P (a :: b :: c :: r)) ->
  forall l, P l.
Proof.
  intros H0 H1 H2 H3. fix IH 1.
  intros [|a [|b [|c r]]];
    [exact H0 | apply H1 | apply H2 | apply H3, IH].
Qed.

Lemma b64_value_digit (v : Z) : sextet v -> b64_value (b64_digit v) = Some v.
Proof.
  unfold sextet, b64_digit, b64_value. intros Hv.
  destruct (v <? 26) eqn:E1; [|destruct (v <? 52) eqn:E2;
    [|destruct (v <? 62) eqn:E3; [|destruct (v =? 62) eqn:E4]]].
  - rewrite charCode_fromCharCode by lia.
    replace ((65 <=? v + 65) && (v + 65 <=? 90)) with true by lia.
    f_equal. lia.
  - rewrite charCode_fromCharCode by lia.
    replace ((65 <=? v + 71) && (v + 71 <=? 90)) with false by lia.
    replace ((97 <=? v + 71) && (v + 71 <=? 122)) with true by lia.
    f_equal. lia.
  - rewrite charCode_fromCharCode by lia.
    replace ((65 <=? v - 4) && (v - 4 <=? 90)) with false by lia.
    replace ((97 <=? v - 4) && (v - 4 <=? 122)) with false by lia.
    replace ((48 <=? v - 4) && (v - 4 <=? 57)) with true by lia.
    f_equal. lia.
  - cbn. f_equal. lia.
  - cbn. f_equal. lia.
Qed.

(** A character of the standard alphabet is plain and is left alone by the
    URL-safe substitution. *)
Lemma standard_char_plain (c : ascii) (v : Z) :
  b64_value c = Some v -> plain c /\ to_standard c = c.
Proof.
  destruct c as [[] [] [] [] [] [] [] []]; vm_compute; intros H;
    try discriminate H; repeat split.
Qed.

(** Three bytes unpacked into four six-bit values and packed again. *)
Lemma pack_full (x y z : Z) :
  octet x -> octet y -> octet z ->
  let a := x / 4 in
  let b := (x mod 4) * 16 + y / 16 in
  let c := (y mod 16) * 4 + z / 64 in
  let d := z mod 64 in
  (a * 4 + b / 16 = x /\ (b mod 16) * 16 + c / 4 = y /\ (c mod 4) * 64 + d = z)
  /\ sextet a /\ sextet b /\ sextet c /\ sextet d.
Proof.
  unfold sextet, octet. intros Hx Hy Hz. cbv zeta.
  repeat split; Z.div_mod_to_equations; lia.
Qed.

Lemma pack_two (x y : Z) :
  octet x -> octet y ->
  let a := x / 4 in
  let b := (x mod 4) * 16 + y / 16 in
  let c := (y mod 16) * 4 in
  (a * 4 + b / 16 = x /\ (b mod 16) * 16 + c / 4 = y)
  /\ sextet a /\ sextet b /\ sextet c.
Proof.
  unfold sextet, octet. intros Hx Hy. cbv zeta.
  repeat split; Z.div_mod_to_equations; lia.
Qed.

Lemma pack_one (x : Z) :
  octet x ->
  let a := x / 4 in
  let b := (x mod 4) * 16 in
  a * 4 + b / 16 = x /\ sextet a /\ sextet b.
Proof.
  unfold sextet, octet. intros Hx. cbv zeta.
  repeat split; Z.div_mod_to_equations; lia.
Qed.

(** The encoder's output: the characters of six-bit values that decode to
    the bytes, followed by the padding. *)
Lemma encode_bytes_values (bs : list Z) :
  Forall octet bs ->
  exists vs,
    encode_bytes bs
    = map b64_digit vs
      ++ List.repeat eq_sign (Z.to_nat (pad_count (Z.of_nat (List.length vs))))
    /\ Forall sextet vs
    /\ Z.of_nat (List.length vs) mod 4 <> 1
    /\ decode_sextets vs = bs.
Proof.
  induction bs as [|x|x y|x y z r IH] using list_ind3; intros Hb.
  - exists []. repeat split; [constructor | discriminate].
  - apply Forall_cons_1 in Hb as [Hx _].
    destruct (pack_one x Hx) as (E & Sa & Sb). cbv zeta in *.
    exists [x / 4; (x mod 4) * 16]. cbn [decode_sextets]. rewrite E.
    repeat split; [octets | discriminate].
  - apply Forall_cons_1 in Hb as [Hx Hb]. apply Forall_cons_1 in Hb as [Hy _].
    destruct (pack_two x y Hx Hy) as ((E1 & E2) & Sa & Sb & Sc). cbv zeta in *.
    exists [x / 4; (x mod 4) * 16 + y / 16; (y mod 16) * 4].
    cbn [decode_sextets]. rewrite E1, E2.
    repeat split; [octets | discriminate].
  - apply Forall_cons_1 in Hb as [Hx Hb]. apply Forall_cons_1 in Hb as [Hy Hb].
    apply Forall_cons_1 in Hb as [Hz Hr].
    destruct (IH Hr) as (vs & Henc & Hs & Hlen & Hdec).
    destruct (pack_full x y z Hx Hy Hz) as ((E1 & E2 & E3) & Sa & Sb & Sc & Sd).
    cbv zeta in *.
    exists (x / 4 :: (x mod 4) * 16 + y / 16 :: (y mod 16) * 4 + z / 64
              :: z mod 64 :: vs).
    unfold pad_count. rewrite length4_mod. fold (pad_count (Z.of_nat (List.length vs))).
    split; [|split; [|split]].
    + change (encode_bytes (x :: y :: z :: r))
        with (b64_digit (x / 4) :: b64_digit ((x mod 4) * 16 + y / 16)
                :: b64_digit ((y mod 16) * 4 + z / 64) :: b64_digit (z mod 64)
                :: encode_bytes r).
      rewrite Henc. reflexivity.
    + octets.
    + exact Hlen.
    + change (decode_sextets (?a :: ?b :: ?c :: ?d :: ?t))
        with ((a * 4 + b / 16) :: ((b mod 16) * 16 + c / 4)
                :: ((c mod 4) * 64 + d) :: decode_sextets t).
      rewrite E1, E2, E3, Hdec. reflexivity.
Qed.

Lemma sextets_digits (vs : list Z) :
  Forall sextet vs ->
  sextets (map b64_digit vs) = Some vs
  /\ Forall plain (map b64_digit vs)
  /\ map to_standard (map b64_digit vs) = map b64_digit vs.
Proof.
  induction 1 as [|v vs Hv _ (IH1 & IH2 & IH3)].
  - repeat split. constructor.
  - pose proof (b64_value_digit v Hv) as Hval.
    destruct (standard_char_plain _ _ Hval) as [Hp Hst].
    cbn [map sextets]. rewrite Hval, IH1, Hst, IH3.
    repeat split. constructor; assumption.
Qed.

(** [atob] on plain characters of the standard alphabet followed by the
    padding: the bytes of their six-bit values. *)
Lemma atob_plain (l : list ascii) (vs : list Z) :
  Forall plain l ->
  sextets l = Some vs ->
  Z.of_nat (List.length l) mod 4 <> 1 ->
  atob (string_of_list_ascii
          (l ++ List.repeat eq_sign
                  (Z.to_nat (pad_count (Z.of_nat (List.length l))))))
  = Some (string_of_list_ascii (map JS.fromCharCode (decode_sextets vs))).
Proof.
  intros Hp Hs Hlen. unfold atob.
  rewrite list_ascii_of_string_of_list_ascii.
  rewrite filter_whitespace_pad by exact Hp.
  destruct (pad_count_cases _ Hlen) as [Hk Hz].
  assert (Hl : Z.of_nat (List.length
                 (l ++ List.repeat eq_sign
                         (Z.to_nat (pad_count (Z.of_nat (List.length l))))))
               mod 4 = 0).
  { rewrite length_app, repeat_length, Nat2Z.inj_add.
    rewrite Z2Nat.id by lia. exact Hz. }
  rewrite Hl. cbn [Z.eqb].
  rewrite strip_trailing_eq_pad by (try exact Hp; lia).
  destruct (Z.of_nat (List.length l) mod 4 =? 1) eqn:E; [lia|].
  rewrite Hs. reflexivity.
Qed.

Lemma encode_then_decode (bs : list Z) :
  Forall octet bs -> urlBase64ToUint8Array (encodeKey bs) = Some bs.
Proof.
  intros Hb.
  destruct (octets_through_string bs Hb) as [_ Hcc].
  destruct (encode_bytes_values bs Hb) as (vs & Henc & Hs & Hlen & Hdec).
  destruct (sextets_digits vs Hs) as (Hsx & Hp & Hst).
  assert (Hlist : list_ascii_of_string (encodeKey bs)
                  = map b64_digit vs
                    ++ List.repeat eq_sign
                         (Z.to_nat (pad_count (Z.of_nat (List.length vs))))).
  { unfold encodeKey, btoa.
    rewrite list_ascii_of_string_of_list_ascii, Hcc. exact Henc. }
  destruct (pad_count_cases _ Hlen) as [Hk Hz].
  assert (Hmod : JS.length (encodeKey bs) mod 4 = 0).
  { unfold JS.length. rewrite <- list_ascii_length, Hlist.
    rewrite length_app, length_map, repeat_length, Nat2Z.inj_add.
    rewrite Z2Nat.id by lia. exact Hz. }
  unfold urlBase64ToUint8Array. rewrite Hmod.
  change (JS.repeat "=" ((4 - 0) mod 4)) with "".
  assert (Harg : JS.replace_all "_" "/" (JS.replace_all "-" "+" (encodeKey bs +:+ ""))
                 = string_of_list_ascii
                     (map b64_digit vs
                      ++ List.repeat eq_sign
                           (Z.to_nat (pad_count
                                        (Z.of_nat (List.length (map b64_digit vs))))))).
  { apply string_eq_of_list.
    rewrite replace_all_standard, list_ascii_app, Hlist. cbn [list_ascii_of_string].
    rewrite app_nil_r, map_app, Hst, map_standard_repeat, length_map.
    reflexivity. }
  rewrite Harg.
  rewrite (atob_plain (map b64_digit vs) vs Hp Hsx)
    by (rewrite length_map; exact Hlen).
  rewrite Hdec.
  destruct (octets_through_string bs Hb) as [Hu8 _]. rewrite Hu8. reflexivity.
Qed.

(** X1. Encoding key bytes with [btoa] and decoding the text with
    [urlBase64ToUint8Array] gives the bytes back. *)
Theorem decode_encoded_key (bs : list Z) :
  Forall octet bs -> urlBase64ToUint8Array (encodeKey bs) = Some bs.
Proof. exact (encode_then_decode bs). Qed.

Lemma decode_encoded_key_witness :
  urlBase64ToUint8Array (encodeKey [4; 251; 255; 0; 62]) = Some [4; 251; 255; 0; 62].
Proof.
  apply (decode_encoded_key [4; 251; 255; 0; 62]).
  unfold octet. repeat (apply Stdlib.Lists.List.Forall_cons; [lia|]).
  apply Stdlib.Lists.List.Forall_nil.
Defined.

(** The decoder on a text it accepts: the bytes of the six-bit values of
    the unpadded part. *)
Lemma decode_decodable (x : string) :
  decodable_b64url x = true ->
  exists vs,
    sextets (map to_standard (list_ascii_of_string (strip_padding x))) = Some vs
    /\ List.length vs = List.length (list_ascii_of_string (strip_padding x))
    /\ Forall sextet vs
    /\ urlBase64ToUint8Array x
       = Some (map (fun c => uint8 (JS.charCode c))
                 (list_ascii_of_string
                    (string_of_list_ascii
                       (map JS.fromCharCode (decode_sextets vs))))).
Proof.
  unfold decodable_b64url. cbv zeta. intros H.
  apply andb_true_iff in H as [H Hk].
  apply andb_true_iff in H as [Hchars Hn].
  set (core := list_ascii_of_string (strip_padding x)) in *.
  destruct (sextets_standard core Hchars) as [Hp [vs [Hs [Hv [Hlen Hmap]]]]].
  assert (Hn' : Z.of_nat (List.length core) mod 4 <> 1) by lia.
  assert (Hk' : JS.length x - Z.of_nat (List.length core) = 0
                \/ JS.length x - Z.of_nat (List.length core)
                   = pad_count (Z.of_nat (List.length core)))
    by (unfold pad_count; lia).
  exists vs. split; [exact Hs|]. split; [exact Hlen|]. split; [exact Hv|].
  unfold urlBase64ToUint8Array.
  rewrite (decoder_input x Hn' Hk'). fold core.
  rewrite (atob_standard core vs Hp Hs Hn'). reflexivity.
Qed.

Lemma decode_sextets_length (vs : list Z) :
  Forall sextet vs ->
  Z.of_nat (List.length vs) mod 4 <> 1 ->
  Z.of_nat (List.length (decode_sextets vs)) = 3 * Z.of_nat (List.length vs) / 4
  /\ Forall octet (decode_sextets vs).
Proof.
  induction vs as [|a|a b|a b c|a b c d r IH] using list_ind4;
    intros Hs Hlen.
  - split; [reflexivity | constructor].
  - exfalso. apply Hlen. reflexivity.
  - apply Forall_cons_1 in Hs as [Ha Hs]. apply Forall_cons_1 in Hs as [Hb _].
    split; [reflexivity|]. unfold sextet, octet in *. cbn [decode_sextets].
    repeat constructor; Z.div_mod_to_equations; lia.
  - apply Forall_cons_1 in Hs as [Ha Hs]. apply Forall_cons_1 in Hs as [Hb Hs].
    apply Forall_cons_1 in Hs as [Hc _].
    split; [reflexivity|]. unfold sextet, octet in *. cbn [decode_sextets].
    repeat constructor; Z.div_mod_to_equations; lia.
  - apply Forall_cons_1 in Hs as [Ha Hs]. apply Forall_cons_1 in Hs as [Hb Hs].
    apply Forall_cons_1 in Hs as [Hc Hs]. apply Forall_cons_1 in Hs as [Hd Hr].
    rewrite length4_mod in Hlen. destruct (IH Hr Hlen) as [IHl IHo].
    destruct (regroup_full a b c d Ha Hb Hc Hd) as [_ [Ox [Oy Oz]]].
    cbv zeta in *.
    change (decode_sextets (a :: b :: c :: d :: r))
      with ((a * 4 + b / 16) :: ((b mod 16) * 16 + c / 4)
              :: ((c mod 4) * 64 + d) :: decode_sextets r).
    split; [|octets].
    cbn [List.length]. rewrite !Nat2Z.inj_succ.
    Z.div_mod_to_equations. lia.
Qed.

(** X2. A text the decoder accepts decodes to bytes (values 0..255), three
    for every four characters of its unpadded part: [3 * n / 4] bytes for
    [n] characters. *)
Theorem decoded_key_length (x : string) :
  decodable_b64url x = true ->
  exists bs,
    urlBase64ToUint8Array x = Some bs
    /\ Forall octet bs
    /\ Z.of_nat (List.length bs) = 3 * JS.length (strip_padding x) / 4.
Proof.
  intros Hd.
  destruct (decode_decodable x Hd) as (vs & Hs & Hlen & Hv & Hdec).
  assert (Hn : Z.of_nat (List.length vs) mod 4 <> 1).
  { unfold decodable_b64url in Hd. cbv zeta in Hd.
    apply andb_true_iff in Hd as [Hd _]. apply andb_true_iff in Hd as [_ Hn].
    rewrite Hlen. lia. }
  destruct (decode_sextets_length vs Hv Hn) as [Hl Ho].
  destruct (octets_through_string _ Ho) as [Hu8 _].
  exists (decode_sextets vs). rewrite Hdec, Hu8.
  split; [reflexivity|]. split; [exact Ho|].
  rewrite Hl, Hlen. unfold JS.length. now rewrite list_ascii_length.
Qed.

Lemma decoded_key_length_witness :
  exists bs,
    urlBase64ToUint8Array "BEl-_wR" = Some bs
    /\ Forall octet bs
    /\ Z.of_nat (List.length bs) = 3 * JS.length (strip_padding "BEl-_wR") / 4.
Proof. apply (decoded_key_length "BEl-_wR"). reflexivity. Defined.

(** *** Texts the decoder refuses *)

Lemma sextets_none (l : list ascii) (c : ascii) :
  In c l -> b64_value c = None -> sextets l = None.
Proof.
  induction l as [|a l IH]; intros Hin Hc; [destruct Hin|].
  cbn [sextets]. destruct Hin as [->|Hin].
  - now rewrite Hc.
  - rewrite (IH Hin Hc). now destruct (b64_value a).
Qed.

Lemma strip_trailing_eq_keeps (l : list ascii) (c : ascii) :
  In c l -> Ascii.eqb c eq_sign = false -> In c (strip_trailing_eq l).
Proof.
  intros Hin Hc. unfold strip_trailing_eq.
  assert (Hrev : In c (rev l)) by (now apply in_rev in Hin).
  destruct (rev l) as [|a [|b r]] eqn:E; [exact Hin| |].
  - destruct (Ascii.eqb a eq_sign) eqn:Ea; [|exact Hin].
    destruct Hrev as [->|[]]. congruence.
  - destruct (Ascii.eqb a eq_sign) eqn:Ea; [|exact Hin].
    assert (Hin' : In c (b :: r)) by (destruct Hrev as [->|H]; [congruence | exact H]).
    destruct (Ascii.eqb b eq_sign) eqn:Eb.
    + apply in_rev. rewrite rev_involutive.
      destruct Hin' as [->|H]; [congruence | exact H].
    + apply in_rev. rewrite rev_involutive. exact Hin'.
Qed.

Lemma foreign_char (c : ascii) :
  is_foreign c = true ->
  b64_value (to_standard c) = None
  /\ is_ascii_whitespace (to_standard c) = false
  /\ Ascii.eqb (to_standard c) eq_sign = false.
Proof.
  destruct c as [[] [] [] [] [] [] [] []]; vm_compute; intros H;
    try discriminate H; repeat split.
Qed.

(** X4. A text with a character that is neither in the base64 alphabets,
    nor white space, nor the padding sign makes [urlBase64ToUint8Array]
    raise. *)
Theorem decode_refuses_foreign_character (x : string) :
  existsb is_foreign (list_ascii_of_string x) = true ->
  urlBase64ToUint8Array x = None.
Proof.
  intros Hex. apply existsb_exists in Hex as [c [Hin Hf]].
  destruct (foreign_char c Hf) as (Hval & Hws & Heq).
  unfold urlBase64ToUint8Array.
  set (base64 := JS.replace_all "_" "/" (JS.replace_all "-" "+" _)).
  assert (Hin0 : In (to_standard c) (list_ascii_of_string base64)).
  { unfold base64. rewrite replace_all_standard, list_ascii_app, map_app.
    apply in_or_app. left. now apply in_map. }
  unfold atob.
  set (l1 := List.filter _ (list_ascii_of_string base64)).
  assert (Hin1 : In (to_standard c) l1).
  { unfold l1. apply filter_In. split; [exact Hin0 | now rewrite Hws]. }
  set (l2 := if Z.of_nat (List.length l1) mod 4 =? 0
             then strip_trailing_eq l1 else l1).
  assert (Hin2 : In (to_standard c) l2).
  { unfold l2. destruct (_ =? 0); [|exact Hin1].
    now apply strip_trailing_eq_keeps. }
  destruct (Z.of_nat (List.length l2) mod 4 =? 1); [reflexivity|].
  now rewrite (sextets_none l2 _ Hin2 Hval).
Qed.

Lemma decode_refuses_foreign_character_witness :
  urlBase64ToUint8Array "BEl*wR" = None.
Proof. apply (decode_refuses_foreign_character "BEl*wR"). reflexivity. Defined.

(** X3. A text of base64url characters whose length is 1 modulo 4 makes
    [urlBase64ToUint8Array] raise: the three padding signs it appends are
    not all removed by [atob]. *)
Theorem decode_refuses_length_1_mod_4 (x : string) :
  forallb is_b64url_char (list_ascii_of_string x) = true ->
  JS.length x mod 4 = 1 ->
  urlBase64ToUint8Array x = None.
Proof.
  intros Hchars Hlen. unfold urlBase64ToUint8Array. rewrite Hlen.
  change ((4 - 1) mod 4) with 3.
  destruct (sextets_standard _ Hchars) as [Hp _].
  set (l := map to_standard (list_ascii_of_string x)) in *.
  assert (Hll : Z.of_nat (List.length l) mod 4 = 1).
  { unfold l. rewrite length_map, list_ascii_length. exact Hlen. }
  assert (Harg : JS.replace_all "_" "/" (JS.replace_all "-" "+" (x +:+ JS.repeat "=" 3))
                 = string_of_list_ascii (l ++ List.repeat eq_sign 3)).
  { apply string_eq_of_list.
    rewrite replace_all_standard, list_ascii_app, map_app. reflexivity. }
  rewrite Harg. unfold atob.
  rewrite list_ascii_of_string_of_list_ascii.
  rewrite filter_whitespace_pad by exact Hp.
  assert (H0 : Z.of_nat (List.length (l ++ List.repeat eq_sign 3)) mod 4 = 0).
  { rewrite length_app, Nat2Z.inj_add. cbn [List.repeat List.length].
    Z.div_mod_to_equations. lia. }
  rewrite H0. cbn [Z.eqb].
  assert (Hstrip : strip_trailing_eq (l ++ List.repeat eq_sign 3) = l ++ [eq_sign]).
  { unfold strip_trailing_eq. rewrite rev_app_distr. cbn [List.repeat rev app].
    change (Ascii.eqb eq_sign eq_sign) with true. cbn match.
    cbn [rev]. rewrite rev_involutive. reflexivity. }
  rewrite Hstrip.
  assert (H2 : (Z.of_nat (List.length (l ++ [eq_sign])) mod 4 =? 1) = false).
  { rewrite length_app, Nat2Z.inj_add. cbn [List.length].
    apply Z.eqb_neq. Z.div_mod_to_equations. lia. }
  rewrite H2.
  rewrite (sextets_none (l ++ [eq_sign]) eq_sign); [reflexivity | | reflexivity].
  apply in_or_app. right. now left.
Qed.

Lemma decode_refuses_length_1_mod_4_witness :
  urlBase64ToUint8Array "BEl-_" = None.
Proof. apply (decode_refuses_length_1_mod_4 "BEl-_"); reflexivity. Defined.

End CodecDomainFacts.

(** ** Background Worker Runtime: activation, clicks and displayed
       notifications *)
Module ServiceWorkerEventsFacts.
Import JsonValue ServiceWorker ServiceWorkerEvents.

Lemma caches_match_stored (cs : CacheStorage) (request : Request) (r : Response) :
  caches_match cs request = Some r ->
  exists name cache, In (name, cache) cs /\ cache !! url request = Some r.
Proof.
  induction cs as [|[name cache] cs IH]; cbn [caches_match]; [discriminate|].
  destruct (cache !! url request) as [r'|] eqn:E.
  - intros [= <-]. exists name, cache. split; [now left | exact E].
  - intros H. destruct (IH H) as (n & c & Hin & Hc).
    exists n, c. split; [now right | exact Hc].
Qed.

(** X5. After activation only caches named [CACHE_NAME] are left, those are
    all kept, and the offline fallback of the fetch handler can only answer
    with a response stored in a cache of that name: with no such cache a
    failed GET request propagates the network error. *)
Theorem activation_collects_old_caches
    (network : Request -> Settled Response) (cs : CacheStorage)
    (request : Request) :
  (forall c, In c (onactivate cs) <-> In c cs /\ fst c = CACHE_NAME)
  /\ (forall r,
        fst (fst (onfetch network (onactivate cs) request))
        = RespondWith (Fulfilled r) ->
        network request = Fulfilled r
        \/ exists cache, In (CACHE_NAME, cache) cs
                         /\ cache !! url request = Some r)
  /\ ((forall c, In c cs -> fst c <> CACHE_NAME) ->
      forall e, method request = "GET" -> network request = Rejected e ->
        fst (fst (onfetch network (onactivate cs) request))
        = RespondWith (Rejected e)).
Proof.
  assert (Hin : forall c, In c (onactivate cs) <-> In c cs /\ fst c = CACHE_NAME).
  { intros c. unfold onactivate. rewrite filter_In, String.eqb_eq. reflexivity. }
  split; [exact Hin|]. split.
  - intros r. unfold onfetch.
    destruct (negb _); [discriminate|].
    destruct (network request) as [resp|e]; cbn [fst].
    + intros [= ->]. now left.
    + destruct (caches_match (onactivate cs) request) as [cached|] eqn:Hc;
        cbn [fst]; [|discriminate].
      intros [= ->]. right.
      destruct (caches_match_stored _ _ _ Hc) as (name & cache & Hm & Hl).
      apply Hin in Hm as [Hm Hname]. cbn in Hname. subst name.
      exists cache. auto.
  - intros Hnone e Hget Hnet. unfold onfetch. rewrite Hget, Hnet. cbn [negb String.eqb].
    assert (Hempty : onactivate cs = []).
    { destruct (onactivate cs) as [|c l] eqn:E; [reflexivity|]. exfalso.
      assert (Hc : In c (c :: l)) by (now left).
      apply Hin in Hc as [Hc Hn]. exact (Hnone c Hc Hn). }
    rewrite Hempty. reflexivity.
Qed.

Lemma activation_collects_old_caches_witness :
  fst (fst (onfetch sample_network
              (onactivate [("visitaflow-tecnico-v0",
                            {[ "/visits" := {| status := 200; payload := "old" |} ]})])
              {| method := "GET"; url := "/visits" |}))
  = RespondWith (Rejected "TypeError: Failed to fetch").
Proof.
  refine (proj2 (proj2 (activation_collects_old_caches sample_network
                          [("visitaflow-tecnico-v0",
                            {[ "/visits" := {| status := 200; payload := "old" |} ]})]
                          {| method := "GET"; url := "/visits" |}))
                _ "TypeError: Failed to fetch" eq_refl eq_refl).
  intros c [<-|[]]. discriminate.
Defined.

(** *** Notification clicks *)

Lemma first_match_spec (target : Json) (ws : list WindowClient) (i : nat) :
  match first_match target ws i with
  | Some (j, c) =>
      exists before after,
        ws = before ++ c :: after
        /\ j = (i + List.length before)%nat
        /\ client_matches target c = true
        /\ Forall (fun b => client_matches target b = false) before
  | None => Forall (fun b => client_matches target b = false) ws
  end.
Proof.
  revert i. induction ws as [|c ws IH]; intros i; cbn [first_match].
  - constructor.
  - destruct (client_matches target c) eqn:E.
    + exists [], ws. repeat split; [cbn; lia | exact E | constructor].
    + specialize (IH (S i)). destruct (first_match target ws (S i)) as [[j c']|].
      * destruct IH as (before & after & -> & -> & Hm & Hb).
        exists (c :: before), after. repeat split; [cbn; lia | exact Hm |].
        constructor; assumption.
      * constructor; assumption.
Qed.

(** X6. A click focuses the first open window whose URL is exactly the
    target string and that has a [focus] method (['focus' in client]),
    whether or not it is focused already, and does nothing else; when no
    window qualifies it opens the target in a new window. The target is the
    notification's [data.url], or [/dashboard] when that is missing or
    falsy. *)
Theorem click_focuses_first_exact_match
    (notification_data : option Json) (windowClients : list WindowClient) :
  let target := urlToOpen notification_data in
  match onnotificationclick true notification_data windowClients with
  | FocusClient i client =>
      exists before after,
        windowClients = before ++ client :: after
        /\ i = List.length before
        /\ target = JStr (client_url client) /\ can_focus client = true
        /\ Forall (fun b => client_matches target b = false) before
  | OpenWindow t =>
      t = target
      /\ Forall (fun b => client_matches target b = false) windowClients
  | NoAction => False
  end.
Proof.
  cbv zeta. unfold onnotificationclick.
  pose proof (first_match_spec (urlToOpen notification_data) windowClients 0) as H.
  destruct (first_match _ windowClients 0) as [[j c]|].
  - destruct H as (before & after & Hw & Hj & Hm & Hb).
    exists before, after. repeat split; try assumption.
    + unfold client_matches in Hm. destruct (urlToOpen notification_data); try discriminate.
      apply andb_true_iff in Hm as [Hm _]. apply String.eqb_eq in Hm. now subst.
    + unfold client_matches in Hm. destruct (urlToOpen notification_data); try discriminate.
      now apply andb_true_iff in Hm as [_ Hm].
  - split; [reflexivity | exact H].
Qed.

(** The target of a click never is a falsy value. *)
Lemma urlToOpen_default (notification_data : option Json) :
  truthy (urlToOpen notification_data) = true.
Proof.
  unfold urlToOpen, or_default.
  repeat match goal with
         | |- context [match ?x with _ => _ end] => destruct x eqn:?
         end; try reflexivity; assumption.
Qed.

(** *** What is displayed *)



Lemma lookup_set_prop (k : string) (v : Json) (props : list (string * Json)) :
  lookup_prop k (set_prop k v props) = Some v
  /\ forall k', k' <> k ->
       lookup_prop k' (set_prop k v props) = lookup_prop k' props.
Proof.
  induction props as [|[k0 v0] props [IH1 IH2]].
  - cbn. rewrite String.eqb_refl. split; [reflexivity|].
    intros k' Hne. apply String.eqb_neq in Hne.
    now rewrite String.eqb_sym, Hne.
  - cbn [set_prop]. destruct (String.eqb k0 k) eqn:E.
    + apply String.eqb_eq in E. subst k0. cbn [lookup_prop].
      rewrite String.eqb_refl. split; [reflexivity|].
      intros k' Hne. apply String.eqb_neq in Hne.
      now rewrite String.eqb_sym, Hne.
    + cbn [lookup_prop]. rewrite E. split; [exact IH1|].
      intros k' Hne. rewrite (IH2 k' Hne). reflexivity.
Qed.

Lemma or_else_truthy (a : option string) (d : string) :
  JS.truthy d = true -> JS.truthy (JS.or_else a d) = true.
Proof.
  intros Hd. unfold JS.or_else. destruct a as [s|]; [|exact Hd].
  destruct (JS.truthy s) eqn:E; [exact E | exact Hd].
Qed.

(** X7. From the send to the click. A payload with a non-empty title and
    body, serialised by the dispatcher and parsed by the push handler, is
    shown with that title and body, with the icon, badge and tag of the
    payload or their defaults; the caller's [data] properties other than
    [url] reach the notification unchanged, and a click on it targets the
    payload's [url], or [/dashboard] when the payload has none, whatever
    [data.url] the caller supplied. *)
Theorem sent_payload_is_shown_and_opened (now : Z) (raw : string)
    (p : Dispatcher.PushNotificationPayload) (t b : string) :
  Dispatcher.title p = Some t -> JS.truthy t = true ->
  Dispatcher.body p = Some b -> JS.truthy b = true ->
  let shown :=
    onpush now (Some {| text := raw;
                        json := Some (wire_json (Dispatcher.notificationPayload p)) |}) in
  shown_title shown = JStr t
  /\ shown_body shown = JStr b
  /\ shown_icon shown = JStr (JS.or_else (Dispatcher.icon p) "/icon.svg")
  /\ shown_badge shown = JStr (JS.or_else (Dispatcher.badge p) "/icon.svg")
  /\ shown_tag shown = JStr (JS.or_else (Dispatcher.tag p) "visitaflow-notification")
  /\ (forall k, k <> "url" ->
        get (shown_data shown) k
        = Some (lookup_prop k (match Dispatcher.data p with
                               | Some d => d
                               | None => []
                               end)))
  /\ urlToOpen (Some (shown_data shown))
     = JStr (JS.or_else (Dispatcher.url p) "/dashboard").
Proof.
  intros Ht Htt Hb Hbt. cbv zeta.
  unfold onpush, from_json, wire_json, Dispatcher.notificationPayload.
  cbn [json mbind option_bind get lookup_prop String.eqb Ascii.eqb Bool.eqb
       Dispatcher.wire_title Dispatcher.wire_body Dispatcher.wire_icon
       Dispatcher.wire_badge Dispatcher.wire_tag Dispatcher.wire_data
       showNotification shown_title shown_body shown_icon shown_badge shown_tag
       shown_data title body icon badge tag data defaults].
  rewrite Ht, Hb. cbn [JS.or_else]. rewrite Htt, Hbt.
  unfold or_default. cbn [truthy]. rewrite Htt, Hbt.
  rewrite !or_else_truthy by reflexivity.
  set (d := match Dispatcher.data p with Some d => d | None => [] end).
  destruct (lookup_set_prop "url"
              (JStr (JS.or_else (Dispatcher.url p) "/dashboard")) d) as [Hu Ho].
  do 5 (split; [reflexivity|]). split.
  - intros k Hk. cbn [get]. now rewrite (Ho k Hk).
  - unfold urlToOpen, or_default. cbn [truthy get]. rewrite Hu.
    cbn [truthy]. now rewrite or_else_truthy.
Qed.

Lemma sent_payload_is_shown_and_opened_witness :
  let p := Dispatcher.sample_payload (Some "ana") in
  let shown :=
    onpush 0 (Some {| text := "";
                      json := Some (wire_json (Dispatcher.notificationPayload p)) |}) in
  shown_title shown = JStr "T"
  /\ shown_body shown = JStr "B"
  /\ shown_icon shown = JStr (JS.or_else (Dispatcher.icon p) "/icon.svg")
  /\ shown_badge shown = JStr (JS.or_else (Dispatcher.badge p) "/icon.svg")
  /\ shown_tag shown = JStr (JS.or_else (Dispatcher.tag p) "visitaflow-notification")
  /\ (forall k, k <> "url" ->
        get (shown_data shown) k
        = Some (lookup_prop k (match Dispatcher.data p with
                               | Some d => d
                               | None => []
                               end)))
  /\ urlToOpen (Some (shown_data shown))
     = JStr (JS.or_else (Dispatcher.url p) "/dashboard").
Proof.
  exact (sent_payload_is_shown_and_opened 0 ""
           (Dispatcher.sample_payload (Some "ana")) "T" "B"
           eq_refl eq_refl eq_refl eq_refl).
Defined.

End ServiceWorkerEventsFacts.

(** ** Subscription Manager: enabling push *)
Module PushClientFacts.
Import ServiceWorker (Settled, Fulfilled, Rejected).
Import SubscriptionManager PushClient.

Lemma requests_record_fetch (w : World) (r : HttpRequest) :
  server_requests (record_call w (HttpFetch r)) = server_requests w ++ [r].
Proof.
  unfold server_requests, record_call. cbn [calls]. now rewrite omap_app.
Qed.

(** Asking for the permission changes neither the requests sent to the
    server nor the subscription, and a [granted] result is the platform's
    permission afterwards. *)
Lemma request_permission_frame (w : World) :
  let '(r, w1) := requestNotificationPermission w in
  server_requests w1 = server_requests w
  /\ subscription (platform w1) = subscription (platform w)
  /\ getSubscription_error (platform w1) = getSubscription_error (platform w)
  /\ isPushNotificationSupported (platform w1)
     = isPushNotificationSupported (platform w)
  /\ (r = Return granted ->
      permission (platform w1) = granted
      /\ isPushNotificationSupported (platform w1) = true).
Proof.
  unfold requestNotificationPermission.
  destruct (isPushNotificationSupported (platform w)) eqn:Hs; cbn [negb].
  - destruct (permission (platform w)) eqn:Hp.
    + split; [|split; [reflexivity|split; [reflexivity|split; [exact Hs|]]]].
      * unfold server_requests, record_call. cbn [calls].
        rewrite omap_app. cbn. apply app_nil_r.
      * intros [= Ha]. split; [exact Ha | exact Hs].
    + do 4 (split; [first [reflexivity | exact Hs]|]). intros _.
      split; [exact Hp | first [reflexivity | exact Hs]].
    + do 4 (split; [first [reflexivity | exact Hs]|]). discriminate.
  - do 4 (split; [first [reflexivity | exact Hs]|]). discriminate.
Qed.

(** What saving does: one request, carrying the subscription, and success
    exactly when the server answers with a 2xx status. *)
Lemma save_outcome (token : option string)
    (server : HttpRequest -> Settled (Z * option string))
    (d : PushSubscriptionData) (w : World) :
  exists req,
    server_requests (snd (saveSubscriptionToServer token server d w))
    = server_requests w ++ [req]
    /\ platform (snd (saveSubscriptionToServer token server d w)) = platform w
    /\ http_url req = "/api/push/subscribe"
    /\ http_body req = Some d
    /\ (success (fst (saveSubscriptionToServer token server d w)) = true <->
        exists st msg, server req = Fulfilled (st, msg) /\ 200 <= st <= 299).
Proof.
  unfold saveSubscriptionToServer.
  set (req := {| http_method := "POST"; http_url := "/api/push/subscribe";
                 http_authorization := _; http_body := Some d |}).
  exists req.
  destruct (server req) as [[st msg]|e] eqn:Hsrv.
  - destruct ((200 <=? st) && (st <=? 299)) eqn:Hok; cbn [fst snd success].
    + repeat split; try apply requests_record_fetch.
      intros _. exists st, msg. split; [reflexivity | lia].
    + repeat split; try apply requests_record_fetch; try discriminate.
      intros (st' & msg' & [= <- <-] & Hr). lia.
  - cbn [fst snd success].
    repeat split; try apply requests_record_fetch; try discriminate.
    intros (st' & msg' & Hd & _). discriminate.
Qed.

Section EnableFacts.
Variable atob_error : string.
Variable subscribe : list Z -> Settled RawSubscription.
Variable access_token : option string.
Variable server : HttpRequest -> Settled (Z * option string).

Lemma create_frame (key : string) (w : World) :
  let '(r, w2) := createPushSubscription atob_error subscribe key w in
  server_requests w2 = server_requests w
  /\ permission (platform w2) = permission (platform w)
  /\ getSubscription_error (platform w2) = getSubscription_error (platform w)
  /\ isPushNotificationSupported (platform w2)
     = isPushNotificationSupported (platform w)
  /\ match r with
     | Return d =>
         subscription (platform w2) = Some d
         /\ exists k sub,
              Codec.urlBase64ToUint8Array key = Some k
              /\ subscribe k = Fulfilled sub
              /\ d = {| endpoint := raw_endpoint sub;
                        p256dh := Codec.encodeKey (raw_p256dh sub);
                        auth := Codec.encodeKey (raw_auth sub) |}
     | Throw _ => w2 = w
     end.
Proof.
  unfold createPushSubscription.
  destruct (isPushNotificationSupported (platform w)) eqn:Hs; cbn [negb];
    [|do 4 (split; [first [reflexivity | exact Hs]|]); reflexivity].
  destruct (Codec.urlBase64ToUint8Array key) as [k|] eqn:Hk;
    [|do 4 (split; [first [reflexivity | exact Hs]|]); reflexivity].
  destruct (subscribe k) as [sub|e] eqn:Hsub;
    [|do 4 (split; [first [reflexivity | exact Hs]|]); reflexivity].
  do 3 (split; [reflexivity|]). split; [first [reflexivity | exact Hs]|].
  split; [reflexivity|]. exists k, sub. auto.
Qed.

(** X12. Enabling push sends at most one request to the server, as its
    last step: either nothing is sent and the result is a failure, or one
    POST to [/api/push/subscribe] is sent that carries the subscription now
    active on the platform, the permission being granted, and the result is
    a success exactly when the server answers with a 2xx status. When the
    permission is not granted, the VAPID key does not decode or the
    platform refuses to subscribe, nothing is sent and the platform's
    subscription is as before. *)
Theorem enable_sends_one_request_last (key : string) (w : World) :
  let '(o, w') :=
    enablePushNotifications atob_error subscribe access_token server key w in
  ((server_requests w' = server_requests w /\ success o = false)
   \/ exists req,
        server_requests w' = server_requests w ++ [req]
        /\ http_url req = "/api/push/subscribe"
        /\ http_body req = subscription (platform w')
        /\ permission (platform w') = granted
        /\ (success o = true <->
            exists st msg, server req = Fulfilled (st, msg) /\ 200 <= st <= 299))
  /\ (fst (requestNotificationPermission w) <> Return granted
      \/ Codec.urlBase64ToUint8Array key = None
      \/ (forall k, Codec.urlBase64ToUint8Array key = Some k ->
                    exists e, subscribe k = Rejected e) ->
      server_requests w' = server_requests w /\ success o = false
      /\ subscription (platform w') = subscription (platform w)).
Proof.
  unfold enablePushNotifications.
  pose proof (request_permission_frame w) as Hperm.
  destruct (requestNotificationPermission w) as [[perm|m] w1] eqn:Hreq.
  - destruct Hperm as (Hr1 & Hs1 & _ & _ & Hg).
    destruct perm;
      try (split; [left; split; [exact Hr1 | reflexivity]
                  | intros _; repeat split; assumption]).
    destruct (Hg eq_refl) as [Hgr _].
    pose proof (create_frame key w1) as Hcreate.
    destruct (createPushSubscription atob_error subscribe key w1)
      as [[d|m] w2] eqn:Hc.
    + destruct Hcreate as (Hr2 & Hp2 & _ & _ & Hsub & k & sub & Hk & Hsk & Hd).
      destruct (save_outcome access_token server d w2)
        as (req & Hreqs & Hplat & Hurl & Hbody & Hok).
      destruct (saveSubscriptionToServer access_token server d w2) as [o w3].
      cbn [fst snd] in *. split.
      * right. exists req. rewrite Hreqs, Hr2, Hr1, Hplat, Hsub, Hp2, Hgr. auto.
      * intros [Hn | [Hn | Hn]].
        -- exfalso. apply Hn. reflexivity.
        -- congruence.
        -- destruct (Hn k Hk) as [e He]. congruence.
    + destruct Hcreate as (_ & _ & _ & _ & ->).
      split; [left; split; [exact Hr1 | reflexivity]
             | intros _; repeat split; assumption].
  - destruct Hperm as (Hr1 & Hs1 & _).
    split; [left; split; [exact Hr1 | reflexivity]
           | intros _; repeat split; assumption].
Qed.

(** X13. No roll-back: when the server does not accept the subscription,
    enabling fails but the subscription created on the platform stays
    active. *)
Theorem enable_failure_keeps_subscription (key : string) (w : World)
    (k : list Z) (sub : RawSubscription) :
  fst (requestNotificationPermission w) = Return granted ->
  getSubscription_error (platform w) = None ->
  Codec.urlBase64ToUint8Array key = Some k ->
  subscribe k = Fulfilled sub ->
  (forall req, match server req with
               | Fulfilled (st, _) => st < 200 \/ 299 < st
               | Rejected _ => True
               end) ->
  let '(o, w') :=
    enablePushNotifications atob_error subscribe access_token server key w in
  success o = false
  /\ hasActiveSubscription (platform w') = true
  /\ subscription (platform w')
     = Some {| endpoint := raw_endpoint sub;
               p256dh := Codec.encodeKey (raw_p256dh sub);
               auth := Codec.encodeKey (raw_auth sub) |}.
Proof.
  intros Hg Herr Hk Hsub Hsrv. unfold enablePushNotifications.
  pose proof (request_permission_frame w) as Hperm.
  destruct (requestNotificationPermission w) as [[perm|m] w1] eqn:Hreq;
    cbn [fst] in Hg; [|discriminate]. injection Hg as ->.
  destruct Hperm as (_ & _ & He1 & _ & Hgr). destruct (Hgr eq_refl) as [_ Hsup].
  pose proof (create_frame key w1) as Hcreate.
  unfold createPushSubscription in *. rewrite Hsup, Hk, Hsub in *. cbn [negb] in *.
  destruct Hcreate as (_ & _ & He2 & Hs2 & Hsb & _).
  match goal with
  | |- context [saveSubscriptionToServer _ _ ?d ?w2] =>
      destruct (save_outcome access_token server d w2)
        as (req & _ & Hplat & _ & _ & Hok);
      destruct (saveSubscriptionToServer access_token server d w2) as [o w3]
  end.
  cbn [fst snd] in *. split; [|split].
  - destruct (success o); [|reflexivity]. exfalso.
    destruct (proj1 Hok eq_refl) as (st & msg & Hs & Hr).
    specialize (Hsrv req). rewrite Hs in Hsrv. lia.
  - rewrite Hplat. unfold hasActiveSubscription.
    rewrite Hs2. try rewrite Hsup. rewrite He2, He1, Herr.
    cbn [negb]. now rewrite Hsb.
  - rewrite Hplat. exact Hsb.
Qed.

(** X14. The keys a created subscription carries are the standard base64
    of the platform's key bytes: decoding them gives those bytes back. *)
Theorem created_subscription_keys (key : string) (w : World)
    (k : list Z) (sub : RawSubscription) :
  isPushNotificationSupported (platform w) = true ->
  Codec.urlBase64ToUint8Array key = Some k ->
  subscribe k = Fulfilled sub ->
  Forall Codec.octet (raw_p256dh sub) ->
  Forall Codec.octet (raw_auth sub) ->
  exists d,
    fst (createPushSubscription atob_error subscribe key w) = Return d
    /\ endpoint d = raw_endpoint sub
    /\ Codec.urlBase64ToUint8Array (p256dh d) = Some (raw_p256dh sub)
    /\ Codec.urlBase64ToUint8Array (auth d) = Some (raw_auth sub).
Proof.
  intros Hs Hk Hsub Hp Ha. unfold createPushSubscription.
  rewrite Hs, Hk, Hsub. cbn [negb fst]. eexists. split; [reflexivity|].
  cbn [endpoint p256dh auth]. split; [reflexivity|].
  split; apply CodecDomainFacts.encode_then_decode; assumption.
Qed.

(** X15. After a successful enable the platform reports an active
    subscription. *)
Theorem enable_success_is_active (key : string) (w : World) :
  getSubscription_error (platform w) = None ->
  success (fst (enablePushNotifications atob_error subscribe access_token
                  server key w)) = true ->
  hasActiveSubscription
    (platform (snd (enablePushNotifications atob_error subscribe access_token
                      server key w))) = true.
Proof.
  intros Herr. unfold enablePushNotifications.
  pose proof (request_permission_frame w) as Hperm.
  destruct (requestNotificationPermission w) as [[perm|m] w1] eqn:Hreq;
    [|discriminate].
  destruct Hperm as (_ & _ & He1 & _ & Hg).
  destruct perm; try discriminate.
  destruct (Hg eq_refl) as [_ Hsup].
  pose proof (create_frame key w1) as Hcreate.
  destruct (createPushSubscription atob_error subscribe key w1)
    as [[d|m] w2] eqn:Hc; [|discriminate].
  destruct Hcreate as (_ & _ & He2 & Hs2 & Hsub & _).
  destruct (save_outcome access_token server d w2)
    as (req & _ & Hplat & _ & _ & _).
  intros _. rewrite Hplat. unfold hasActiveSubscription.
  rewrite Hs2, Hsup, He2, He1, Herr, Hsub. reflexivity.
Qed.

End EnableFacts.

Lemma enable_sends_one_request_last_witness :
  let w := sample_world true denied in
  let '(o, w') :=
    enablePushNotifications "InvalidCharacterError" sample_subscribe
      (Some "token") accepting_server "AQAB" w in
  server_requests w' = server_requests w /\ success o = false
  /\ subscription (platform w') = subscription (platform w).
Proof.
  refine (proj2 (enable_sends_one_request_last "InvalidCharacterError"
                   sample_subscribe (Some "token") accepting_server "AQAB"
                   (sample_world true denied))
                (or_introl _)).
  discriminate.
Defined.

Lemma enable_failure_keeps_subscription_witness :
  let '(o, w') :=
    enablePushNotifications "InvalidCharacterError" sample_subscribe
      (Some "token") refusing_server "AQAB" (sample_world true granted) in
  success o = false
  /\ hasActiveSubscription (platform w') = true
  /\ subscription (platform w')
     = Some {| endpoint := "https://push.example/a1";
               p256dh := Codec.encodeKey [4; 251; 255];
               auth := Codec.encodeKey [1; 2; 3; 4] |}.
Proof.
  refine (enable_failure_keeps_subscription "InvalidCharacterError"
            sample_subscribe (Some "token") refusing_server "AQAB"
            (sample_world true granted) [1; 0; 1]
            {| raw_endpoint := "https://push.example/a1";
               raw_p256dh := [4; 251; 255]; raw_auth := [1; 2; 3; 4] |}
            eq_refl eq_refl eq_refl eq_refl _).
  intros req. cbn. lia.
Defined.

Lemma created_subscription_keys_witness :
  exists d,
    fst (createPushSubscription "InvalidCharacterError" sample_subscribe "AQAB"
           (sample_world true granted)) = Return d
    /\ endpoint d = "https://push.example/a1"
    /\ Codec.urlBase64ToUint8Array (p256dh d) = Some [4; 251; 255]
    /\ Codec.urlBase64ToUint8Array (auth d) = Some [1; 2; 3; 4].
Proof.
  refine (created_subscription_keys "InvalidCharacterError" sample_subscribe
            "AQAB" (sample_world true granted) [1; 0; 1]
            {| raw_endpoint := "https://push.example/a1";
               raw_p256dh := [4; 251; 255]; raw_auth := [1; 2; 3; 4] |}
            eq_refl eq_refl eq_refl _ _);
    unfold Codec.octet;
    repeat (apply Stdlib.Lists.List.Forall_cons; [lia|]);
    apply Stdlib.Lists.List.Forall_nil.
Defined.

Lemma enable_success_is_active_witness :
  hasActiveSubscription
    (platform (snd (enablePushNotifications "InvalidCharacterError"
                      sample_subscribe (Some "token") accepting_server "AQAB"
                      (sample_world true default)))) = true.
Proof.
  exact (enable_success_is_active "InvalidCharacterError" sample_subscribe
           (Some "token") accepting_server "AQAB" (sample_world true default)
           eq_refl eq_refl).
Defined.

(** X16. After a successful disable the platform reports no active
    subscription, and disabling again succeeds without any platform
    call. *)
Theorem disable_success_is_inactive (w : World) :
  success (fst (disablePushNotifications w)) = true ->
  let w' := snd (disablePushNotifications w) in
  hasActiveSubscription (platform w') = false
  /\ disablePushNotifications w' = ({| success := true; error := None |}, w').
Proof.
  cbv zeta. unfold disablePushNotifications, hasActiveSubscription.
  destruct (isPushNotificationSupported (platform w)) eqn:Hs; cbn [negb];
    [|discriminate].
  destruct (getSubscription_error (platform w)) eqn:He; [discriminate|].
  destruct (subscription (platform w)) as [sub|] eqn:Hsub.
  - destruct (unsubscribe_answer (platform w)) eqn:Hu; [|discriminate].
    intros _. cbn [snd platform record_call without_subscription].
    change (isPushNotificationSupported
              (without_subscription (platform w)))
      with (isPushNotificationSupported (platform w)).
    cbn [getSubscription_error subscription without_subscription].
    rewrite Hs, He. cbn [negb]. split; reflexivity.
  - intros _. cbn [snd]. rewrite Hs, He, Hsub. cbn [negb]. split; reflexivity.
Qed.

Lemma disable_success_is_inactive_witness :
  let w' := snd (disablePushNotifications (subscribed_world true (Fulfilled true))) in
  hasActiveSubscription (platform w') = false
  /\ disablePushNotifications w' = ({| success := true; error := None |}, w').
Proof.
  exact (disable_success_is_inactive (subscribed_world true (Fulfilled true))
           eq_refl).
Defined.

End PushClientFacts.

(** ** From the page to the subscription store *)
Module SubscribeFlowFacts.
Import ServiceWorker (Settled, Fulfilled, Rejected).
Import DataStore.

Lemma startsWith_prefix (p s : string) :
  JS.startsWith p s = true -> s = p +:+ JS.drop (String.length p) s.
Proof.
  revert s. induction p as [|a p IH]; intros s H; [reflexivity|].
  destruct s as [|c s]; [discriminate|]. cbn in H.
  apply andb_true_iff in H as [Hc Hs]. apply Ascii.eqb_eq in Hc. subst c.
  cbn [String.length JS.drop]. change (String a p +:+ ?r) with (String a (p +:+ r)).
  f_equal. exact (IH s Hs).
Qed.

Lemma remove_first_prefixed (p t : string) :
  JS.remove_first p (p +:+ t) = t.
Proof.
  assert (Hs : forall q r, JS.startsWith q (q +:+ r) = true).
  { induction q as [|a q IH]; intros r; [reflexivity|].
    change (String a q +:+ r) with (String a (q +:+ r)). cbn.
    now rewrite Ascii.eqb_refl, IH. }
  assert (Hd : forall q r, JS.drop (String.length q) (q +:+ r) = r).
  { induction q as [|a q IH]; intros r; [reflexivity|].
    change (String a q +:+ r) with (String a (q +:+ r)). cbn. apply IH. }
  destruct (p +:+ t) as [|c r] eqn:E.
  - cbn. destruct p; [cbn in E; now subst | discriminate].
  - cbn [JS.remove_first]. rewrite <- E, Hs, Hd. reflexivity.
Qed.

(** The token the route extracts is empty exactly for the empty header and
    for the bare prefix. *)
Lemma empty_token (h : string) :
  JS.truthy (JS.remove_first "Bearer " h) = false <-> h = "" \/ h = "Bearer ".
Proof.
  split.
  - destruct h as [|c r]; [now left|]. intros H. right.
    cbn [JS.remove_first] in H.
    destruct (JS.startsWith "Bearer " (String c r)) eqn:Hs; [|discriminate].
    rewrite (startsWith_prefix _ _ Hs).
    destruct (JS.drop (String.length "Bearer ") (String c r)); [reflexivity|discriminate].
  - intros [-> | ->]; reflexivity.
Qed.

(** X11. The subscribe route answers 401 "Token de acesso não fornecido",
    leaving the table as it is, exactly when the [Authorization] header is
    absent, empty or the bare prefix [Bearer ]; any other header, with or
    without the prefix, passes this check. *)
Theorem subscribe_token_check (ctx : SubscriptionStore.Context) (t : Table)
    (request : SubscriptionStore.Request) :
  SubscriptionStore.POST ctx t request
  = (SubscriptionStore.error_response 401 "Token de acesso não fornecido", t)
  <-> (SubscriptionStore.authorization request = None
       \/ SubscriptionStore.authorization request = Some ""
       \/ SubscriptionStore.authorization request = Some "Bearer ").
Proof.
  unfold SubscriptionStore.POST. split.
  - destruct (SubscriptionStore.authorization request) as [h|]; [|now left].
    cbn [fmap option_fmap option_map JS.otruthy].
    destruct (JS.truthy (JS.remove_first "Bearer " h)) eqn:Ht.
    + cbn [negb].
      repeat match goal with
             | |- context [match ?x with _ => _ end] => destruct x
             end; intros H; discriminate H.
    + intros _. apply empty_token in Ht as [-> | ->]; auto.
  - intros [-> | [-> | ->]]; reflexivity.
Qed.

(** X9. A subscription saved by the page with a session token reaches the
    store: the request passes the route's token check with the session
    token, the page gets a success, and the table then holds exactly one
    record for the user and the endpoint, with the keys the page sent. *)
Theorem saved_subscription_is_stored
    (ctx : SubscriptionStore.Context) (t : Table)
    (w : SubscriptionManager.World)
    (d : SubscriptionManager.PushSubscriptionData)
    (token : string) (u : SubscriptionStore.User) :
  JS.truthy token = true ->
  SubscriptionStore.getServerUser ctx = Some u ->
  SubscriptionStore.store_available ctx ->
  unique_endpoints t ->
  t !! SubscriptionStore.generated_id ctx = None ->
  JS.truthy (SubscriptionManager.endpoint d) = true ->
  JS.truthy (SubscriptionManager.p256dh d) = true ->
  JS.truthy (SubscriptionManager.auth d) = true ->
  let '(o, w') :=
    SubscriptionManager.saveSubscriptionToServer (Some token)
      (PushClient.subscribe_endpoint ctx t) d w in
  SubscriptionManager.success o = true
  /\ exists req,
       SubscriptionManager.server_requests w'
       = SubscriptionManager.server_requests w ++ [req]
       /\ SubscriptionManager.http_authorization req = Some ("Bearer " +:+ token)
       /\ exists i r,
            SubscriptionStore.records_of (SubscriptionStore.uid u)
              (SubscriptionManager.endpoint d)
              (snd (SubscriptionStore.POST ctx t (PushClient.to_store_request req)))
            = [(i, r)]
            /\ p256dh r = SubscriptionManager.p256dh d
            /\ auth r = SubscriptionManager.auth d.
Proof.
  intros Htok Hu Hav Huniq Hfresh He Hk Ha.
  unfold SubscriptionManager.saveSubscriptionToServer. rewrite Htok.
  set (req := {| SubscriptionManager.http_method := "POST";
                 SubscriptionManager.http_url := "/api/push/subscribe";
                 SubscriptionManager.http_authorization := Some ("Bearer " +:+ token);
                 SubscriptionManager.http_body := Some d |}).
  assert (Hcall : SubscriptionStore.authenticated_call ctx
                    (PushClient.to_store_request req) u
                    (SubscriptionManager.endpoint d)
                    (SubscriptionManager.p256dh d)
                    (SubscriptionManager.auth d)).
  { unfold SubscriptionStore.authenticated_call.
    cbn [PushClient.to_store_request SubscriptionStore.authorization
         SubscriptionStore.json req SubscriptionManager.http_authorization
         SubscriptionManager.http_body fmap option_fmap option_map JS.otruthy].
    rewrite (remove_first_prefixed "Bearer " token). auto 10. }
  assert (Hrec : (SubscriptionStore.records_of (SubscriptionStore.uid u)
                    (SubscriptionManager.endpoint d) t = []
                  /\ t !! SubscriptionStore.generated_id ctx = None)
                 \/ (exists x, SubscriptionStore.records_of
                                 (SubscriptionStore.uid u)
                                 (SubscriptionManager.endpoint d) t = [x])).
  { destruct (SubscriptionStoreFacts.at_most_one_record
                (SubscriptionStore.uid u) (SubscriptionManager.endpoint d) t Huniq);
      auto. }
  destruct (SubscriptionStoreFacts.subscribe_call ctx t
              (PushClient.to_store_request req) u _ _ _ Hcall Hav Hrec)
    as [Hst Hone].
  unfold PushClient.subscribe_endpoint at 1. rewrite Hst. cbn [Z.leb andb Z.compare Pos.compare Pos.compare_cont].
  split; [reflexivity|]. exists req.
  split; [apply PushClientFacts.requests_record_fetch|].
  split; [reflexivity | exact Hone].
Qed.

(** X10. Without a session token the page cannot save a subscription:
    the request it sends has no [Authorization] header, the route refuses
    it with status 401 before it looks at the user, so the page gets a
    failure with the message "Token de acesso não fornecido" and the table
    is not touched, even when the identity provider would recognise the
    user. *)
Theorem save_without_token_fails
    (ctx : SubscriptionStore.Context) (t : Table)
    (w : SubscriptionManager.World)
    (d : SubscriptionManager.PushSubscriptionData) (token : option string) :
  JS.otruthy token = false ->
  let '(o, w') :=
    SubscriptionManager.saveSubscriptionToServer token
      (PushClient.subscribe_endpoint ctx t) d w in
  o = {| SubscriptionManager.success := false;
         SubscriptionManager.error := Some "Token de acesso não fornecido" |}
  /\ exists req,
       SubscriptionManager.server_requests w'
       = SubscriptionManager.server_requests w ++ [req]
       /\ SubscriptionManager.http_authorization req = None
       /\ snd (SubscriptionStore.POST ctx t (PushClient.to_store_request req)) = t.
Proof.
  intros Htok. unfold SubscriptionManager.saveSubscriptionToServer.
  assert (Hauth : match token with
                  | Some t0 => if JS.truthy t0 then Some ("Bearer " +:+ t0) else None
                  | None => None
                  end = None).
  { destruct token as [t0|]; [|reflexivity]. cbn in Htok. now rewrite Htok. }
  rewrite Hauth.
  set (req := {| SubscriptionManager.http_method := "POST";
                 SubscriptionManager.http_url := "/api/push/subscribe";
                 SubscriptionManager.http_authorization := None;
                 SubscriptionManager.http_body := Some d |}).
  split; [reflexivity|]. exists req.
  split; [apply PushClientFacts.requests_record_fetch|].
  split; reflexivity.
Qed.

Lemma saved_subscription_is_stored_witness :
  let d := {| SubscriptionManager.endpoint := "https://push.example/a1";
              SubscriptionManager.p256dh := "cDI1Ng==";
              SubscriptionManager.auth := "YXV0aA==" |} in
  let ctx := SubscriptionStore.sample_context "id-1" "2024-05-01T10:00:00Z" in
  let w := SubscriptionManager.sample_world true SubscriptionManager.granted in
  let '(o, w') :=
    SubscriptionManager.saveSubscriptionToServer (Some "token")
      (PushClient.subscribe_endpoint ctx ∅) d w in
  SubscriptionManager.success o = true
  /\ exists req,
       SubscriptionManager.server_requests w'
       = SubscriptionManager.server_requests w ++ [req]
       /\ SubscriptionManager.http_authorization req = Some ("Bearer " +:+ "token")
       /\ exists i r,
            SubscriptionStore.records_of "ana" "https://push.example/a1"
              (snd (SubscriptionStore.POST ctx ∅ (PushClient.to_store_request req)))
            = [(i, r)]
            /\ p256dh r = "cDI1Ng==" /\ auth r = "YXV0aA==".
Proof.
  refine (saved_subscription_is_stored
            (SubscriptionStore.sample_context "id-1" "2024-05-01T10:00:00Z") ∅
            (SubscriptionManager.sample_world true SubscriptionManager.granted)
            {| SubscriptionManager.endpoint := "https://push.example/a1";
               SubscriptionManager.p256dh := "cDI1Ng==";
               SubscriptionManager.auth := "YXV0aA==" |}
            "token" SubscriptionStore.ana
            eq_refl eq_refl _ SubscriptionStoreFacts.unique_endpoints_empty
            eq_refl eq_refl eq_refl eq_refl).
  split; reflexivity.
Defined.

Lemma save_without_token_fails_witness :
  let d := {| SubscriptionManager.endpoint := "https://push.example/a1";
              SubscriptionManager.p256dh := "cDI1Ng==";
              SubscriptionManager.auth := "YXV0aA==" |} in
  let ctx := SubscriptionStore.sample_context "id-1" "2024-05-01T10:00:00Z" in
  let w := SubscriptionManager.sample_world true SubscriptionManager.granted in
  let '(o, w') :=
    SubscriptionManager.saveSubscriptionToServer None
      (PushClient.subscribe_endpoint ctx ∅) d w in
  o = {| SubscriptionManager.success := false;
         SubscriptionManager.error := Some "Token de acesso não fornecido" |}
  /\ exists req,
       SubscriptionManager.server_requests w'
       = SubscriptionManager.server_requests w ++ [req]
       /\ SubscriptionManager.http_authorization req = None
       /\ snd (SubscriptionStore.POST ctx ∅ (PushClient.to_store_request req)) = ∅.
Proof.
  exact (save_without_token_fails
           (SubscriptionStore.sample_context "id-1" "2024-05-01T10:00:00Z") ∅
           (SubscriptionManager.sample_world true SubscriptionManager.granted)
           {| SubscriptionManager.endpoint := "https://push.example/a1";
              SubscriptionManager.p256dh := "cDI1Ng==";
              SubscriptionManager.auth := "YXV0aA==" |}
           None eq_refl).
Defined.

End SubscribeFlowFacts.

(** ** Notification Dispatcher: traces, repeated sends and callers *)
Module DispatcherCallersFacts.
Import JsonValue DataStore Dispatcher DispatcherCallers DispatcherFacts.

(** The world after a send of the library function that got past its
    checks. *)
Lemma library_send_world (gateway : string -> GatewayOutcome)
    (completion : list StoredRow -> list StoredRow)
    (deleteError : string -> option string)
    (env : Env) (payload : PushNotificationPayload) (w : World) :
  JS.otruthy (vapidPublicKey env) = true ->
  JS.otruthy (vapidPrivateKey env) = true ->
  JS.otruthy (SUPABASE_SERVICE_ROLE_KEY env) = true ->
  JS.otruthy (title payload) = true ->
  JS.otruthy (body payload) = true ->
  let subscriptions := select_where (matches (userId payload)) (table w) in
  Permutation (completion subscriptions) subscriptions ->
  let w' := snd (sendPushNotificationServer None gateway completion deleteError
      env payload w) in
  (forall i, table w' !! i = pruned gateway deleteError (userId payload) (table w) i)
  /\ effects w'
     = effects w
       ++ StoreSelect (query_filter (userId payload))
          :: gateway_calls payload subscriptions
          ++ map StoreDelete
               (List.filter (gone gateway) (map id (completion subscriptions))).
Proof.
  cbv zeta. intros Hpub Hpriv Hkey Ht Hb Hperm.
  unfold sendPushNotificationServer.
  rewrite Hpub, Hpriv, Hkey, Ht, Hb. cbn [negb orb].
  pose proof (selected_lookup (matches (userId payload)) (table w)) as Hsel.
  remember (select_where (matches (userId payload)) (table w)) as subs eqn:Hsubs.
  destruct subs as [|s rest].
  - assert (Hc : completion [] = []) by (now apply Permutation_nil).
    rewrite Hc. cbn [snd record_effects table effects map List.filter gateway_calls].
    split; [|now rewrite app_nil_r].
    intros i. specialize (Hsel i). cbn [existsb] in Hsel. unfold pruned.
    destruct (table w !! i) as [r|]; [|reflexivity]. now rewrite <- Hsel.
  - unfold send_all. cbn [snd]. split.
    + intros i. rewrite settle_all_lookup.
      rewrite (existsb_permutation _ _ _ Hperm), Hsel.
      cbn [record_effects table]. unfold pruned.
      destruct (table w !! i) as [r|]; [reflexivity|].
      now destruct (gone gateway i).
    + rewrite settle_all_effects. cbn [record_effects effects].
      unfold gateway_calls. rewrite <- !app_assoc. reflexivity.
Qed.

(** X19. The trace of a send that got past its checks: one query, then one
    gateway call per matched subscription, in their order and all with the
    same payload, then one deletion for each subscription whose call
    reported status 410, in the order the calls completed; nothing else. *)
Theorem send_trace (gateway : string -> GatewayOutcome)
    (completion : list StoredRow -> list StoredRow)
    (deleteError : string -> option string)
    (env : Env) (payload : PushNotificationPayload) (w : World) :
  JS.otruthy (vapidPublicKey env) = true ->
  JS.otruthy (vapidPrivateKey env) = true ->
  JS.otruthy (SUPABASE_SERVICE_ROLE_KEY env) = true ->
  JS.otruthy (title payload) = true ->
  JS.otruthy (body payload) = true ->
  let subscriptions := select_where (matches (userId payload)) (table w) in
  Permutation (completion subscriptions) subscriptions ->
  effects (snd (sendPushNotificationServer None gateway completion deleteError
      env payload w))
  = effects w
    ++ StoreSelect (query_filter (userId payload))
       :: gateway_calls payload subscriptions
       ++ map StoreDelete
            (List.filter (gone gateway) (map id (completion subscriptions))).
Proof.
  intros Hpub Hpriv Hkey Ht Hb subs Hperm.
  exact (proj2 (library_send_world gateway completion deleteError env payload w
                  Hpub Hpriv Hkey Ht Hb Hperm)).
Qed.

Lemma send_trace_witness :
  effects (snd (sendPushNotificationServer None sample_gateway (@rev StoredRow) accepting_deletes
                  sample_env (sample_payload None) sample_world))
  = effects sample_world
    ++ StoreSelect (query_filter None)
       :: gateway_calls (sample_payload None)
            (select_where (matches None) (table sample_world))
       ++ map StoreDelete
            (List.filter (gone sample_gateway)
               (map id (rev (select_where (matches None) (table sample_world))))).
Proof.
  refine (send_trace sample_gateway (@rev StoredRow) accepting_deletes sample_env
            (sample_payload None) sample_world
            eq_refl eq_refl eq_refl eq_refl eq_refl _).
  symmetry. apply Permutation_rev.
Defined.

Lemma NoDup_map_filter {A B : Type} (f : A -> B) (g : A -> bool) (l : list A) :
  List.NoDup (map f l) -> List.NoDup (map f (List.filter g l)).
Proof.
  induction l as [|a l IH]; cbn; [auto|]. intros Hnd.
  apply Stdlib.Lists.List.NoDup_cons_iff in Hnd as [Hnin Hnd].
  destruct (g a); [|auto]. cbn. constructor; [|auto].
  intros Hin. apply in_map_iff in Hin as (x & Heq & Hx).
  apply filter_In in Hx as [Hx _]. apply Hnin. rewrite <- Heq. now apply in_map.
Qed.

(** The rows a query selects have pairwise distinct [id]s. *)
Lemma selected_ids_NoDup (P : Row -> bool) (t : Table) :
  List.NoDup (map id (select_where P t)).
Proof.
  unfold select_where. apply NoDup_map_filter.
  apply NoDup_ListNoDup. exact (NoDup_fst_map_to_list t).
Qed.

Lemma selected_id_iff (P : Row -> bool) (t : Table) (i : string) :
  In i (map id (select_where P t))
  <-> exists r, t !! i = Some r /\ P r = true.
Proof.
  rewrite in_map_iff. split.
  - intros ([j r] & <- & Hin).
    apply SubscriptionStoreFacts.selected_iff in Hin. eauto.
  - intros (r & Hl & HP). exists (i, r). split; [reflexivity|].
    now apply SubscriptionStoreFacts.selected_iff.
Qed.

(** X20. A second send. What a second send of the same payload asks the
    data store to delete is exactly what the first send asked for and was
    refused: the matched rows whose gateway call reports status 410 and
    whose deletion the store did not accept. So when the store accepted the
    deletions of the first send, the second send asks for no deletion and
    leaves the table as the first send left it. *)
Theorem second_send_deletes_nothing (gateway : string -> GatewayOutcome)
    (completion completion' : list StoredRow -> list StoredRow)
    (deleteError deleteError' : string -> option string)
    (env : Env) (payload : PushNotificationPayload) (w : World) :
  JS.otruthy (vapidPublicKey env) = true ->
  JS.otruthy (vapidPrivateKey env) = true ->
  JS.otruthy (SUPABASE_SERVICE_ROLE_KEY env) = true ->
  JS.otruthy (title payload) = true ->
  JS.otruthy (body payload) = true ->
  (forall l, Permutation (completion l) l) ->
  (forall l, Permutation (completion' l) l) ->
  let w1 :=
    snd (sendPushNotificationServer None gateway completion deleteError
           env payload w) in
  let w2 :=
    snd (sendPushNotificationServer None gateway completion' deleteError'
           env payload w1) in
  (exists again,
     deletes_issued (effects w2) = deletes_issued (effects w1) ++ again
     /\ Permutation again
          (List.filter
             (fun i => gone gateway i && negb (delete_accepted deleteError i))
             (map id (select_where (matches (userId payload)) (table w)))))
  /\ ((forall i, deleteError i = None) ->
      deletes_issued (effects w2) = deletes_issued (effects w1)
      /\ table w2 = table w1).
Proof.
  cbv zeta. intros Hpub Hpriv Hkey Ht Hb Hc Hc'.
  destruct (library_send_world gateway completion deleteError env payload w
              Hpub Hpriv Hkey Ht Hb (Hc _)) as [H1 _].
  set (w1 := snd (sendPushNotificationServer None gateway completion deleteError
                    env payload w)) in *.
  destruct (library_send_world gateway completion' deleteError' env payload w1
              Hpub Hpriv Hkey Ht Hb (Hc' _)) as [H2 E2].
  set (w2 := snd (sendPushNotificationServer None gateway completion' deleteError'
                    env payload w1)) in *.
  set (subs1 := select_where (matches (userId payload)) (table w1)) in *.
  assert (Hagain : deletes_issued (effects w2)
                   = deletes_issued (effects w1)
                     ++ List.filter (gone gateway) (map id (completion' subs1))).
  { rewrite E2, deletes_issued_app. f_equal.
    change (deletes_issued
              (gateway_calls payload subs1
               ++ map StoreDelete
                    (List.filter (gone gateway) (map id (completion' subs1))))
            = List.filter (gone gateway) (map id (completion' subs1))).
    unfold gateway_calls.
    now rewrite deletes_issued_app, deletes_issued_sends, deletes_issued_deletes. }
  assert (Hperm : Permutation
            (List.filter (gone gateway) (map id (completion' subs1)))
            (List.filter
               (fun i => gone gateway i && negb (delete_accepted deleteError i))
               (map id (select_where (matches (userId payload)) (table w))))).
  { transitivity (List.filter (gone gateway) (map id subs1)).
    - apply filter_permutation, Permutation_map, Hc'.
    - apply Stdlib.Sorting.Permutation.NoDup_Permutation.
      + apply Stdlib.Lists.List.NoDup_filter, selected_ids_NoDup.
      + apply Stdlib.Lists.List.NoDup_filter, selected_ids_NoDup.
      + intros i. unfold subs1. rewrite !filter_In, !selected_id_iff.
        split.
        * intros [(r & Hl & Hm) Hg]. rewrite H1 in Hl. unfold pruned in Hl.
          destruct (table w !! i) as [r0|]; [|discriminate].
          destruct (matches (userId payload) r0 && gone gateway i
                    && delete_accepted deleteError i) eqn:E; [discriminate|].
          injection Hl as ->. rewrite Hm, Hg in E. cbn in E.
          split; [eauto|]. now rewrite Hg, E.
        * intros [(r & Hl & Hm) Hg]. apply andb_true_iff in Hg as [Hg Ha].
          apply negb_true_iff in Ha. split; [|exact Hg].
          exists r. split; [|exact Hm]. rewrite H1. unfold pruned.
          now rewrite Hl, Hm, Hg, Ha. }
  split; [eauto|].
  intros Hacc.
  assert (Hnone : List.filter
                    (fun i => gone gateway i && negb (delete_accepted deleteError i))
                    (map id (select_where (matches (userId payload)) (table w)))
                  = []).
  { apply SubscriptionStoreFacts.empty_by_members. intros i Hin.
    apply filter_In in Hin as [_ Hg]. unfold delete_accepted in Hg.
    rewrite Hacc in Hg. now destruct (gone gateway i). }
  rewrite Hnone in Hperm. apply Permutation_sym, Permutation_nil in Hperm.
  split; [now rewrite Hagain, Hperm, app_nil_r|].
  apply map_eq. intros i. rewrite H2. unfold pruned.
  destruct (table w1 !! i) as [r|] eqn:Hl; [|reflexivity].
  destruct (matches (userId payload) r) eqn:Hm; [|reflexivity].
  destruct (gone gateway i) eqn:Hg; [|reflexivity]. exfalso.
  rewrite H1 in Hl. unfold pruned in Hl.
  destruct (table w !! i) as [r0|]; [|discriminate].
  unfold delete_accepted in Hl. rewrite Hacc, Hg in Hl.
  destruct (matches (userId payload) r0) eqn:Hm0; cbn in Hl; congruence.
Qed.

Lemma second_send_deletes_nothing_witness :
  let w1 :=
    snd (sendPushNotificationServer None sample_gateway (@rev StoredRow)
           refusing_deletes sample_env (sample_payload None) sample_world) in
  let w2 :=
    snd (sendPushNotificationServer None sample_gateway (fun l => l)
           accepting_deletes sample_env (sample_payload None) w1) in
  (exists again,
     deletes_issued (effects w2) = deletes_issued (effects w1) ++ again
     /\ Permutation again
          (List.filter
             (fun i => gone sample_gateway i
                       && negb (delete_accepted refusing_deletes i))
             (map id (select_where (matches None) (table sample_world)))))
  /\ ((forall i, refusing_deletes i = None) ->
      deletes_issued (effects w2) = deletes_issued (effects w1)
      /\ table w2 = table w1).
Proof.
  refine (second_send_deletes_nothing sample_gateway (@rev StoredRow)
            (fun l => l) refusing_deletes accepting_deletes
            sample_env (sample_payload None) sample_world
            eq_refl eq_refl eq_refl eq_refl eq_refl _ _).
  - intros l. symmetry. apply Permutation_rev.
  - intros l. reflexivity.
Defined.

(** The two sends of the sample: over a store that refuses deletions the
    second send asks again for the deletion of the gone subscription; over
    one that accepts them it asks for none. *)
Example second_send_sample_run :
  let first deletes :=
    snd (sendPushNotificationServer None sample_gateway (@rev StoredRow)
           deletes sample_env (sample_payload None) sample_world) in
  let second deletes :=
    snd (sendPushNotificationServer None sample_gateway (@rev StoredRow)
           accepting_deletes sample_env (sample_payload None) (first deletes)) in
  deletes_issued (effects (first refusing_deletes)) = ["s2"]
  /\ deletes_issued (effects (second refusing_deletes)) = ["s2"; "s2"]
  /\ deletes_issued (effects (first accepting_deletes)) = ["s2"]
  /\ deletes_issued (effects (second accepting_deletes)) = ["s2"].
Proof. vm_compute. repeat split. Qed.

(** *** The route and the library function *)

Ltac refused_case :=
  split; [reflexivity|]; split; [split; discriminate|]; split; [auto|];
  split; [reflexivity|]; split; [reflexivity|];
  intros _; split; [reflexivity|]; split; [reflexivity|]; eauto.

Ltac accepted_case :=
  split; [reflexivity|]; split; [split; reflexivity|]; split; [auto|];
  split; [reflexivity|]; split; [reflexivity|];
  let H := fresh in intros H; now contradiction H.

(** Behind the gate the route does what the library function does. *)
Lemma route_library_agree (fetchError : option string)
    (gateway : string -> GatewayOutcome)
    (completion : list StoredRow -> list StoredRow)
    (deleteError : string -> option string)
    (env : Env) (request : Request) (payload : PushNotificationPayload)
    (w : World) :
  x_internal_secret request = Some (internalSecret env) ->
  json request = inr payload ->
  let '(response, w1) := POST fetchError gateway completion deleteError env request w in
  let '(result, w2) :=
    sendPushNotificationServer fetchError gateway completion deleteError env payload w in
  w1 = w2
  /\ (status response = 200 <-> success result = true)
  /\ (status response = 200 \/ status response = 400 \/ status response = 500)
  /\ or_zero (resp_sent response) = sent result
  /\ or_zero (resp_failed response) = failed result
  /\ (status response <> 200 ->
      sent result = 0 /\ failed result = 0
      /\ exists msg, resp_message response = Some msg /\ JS.truthy msg = true).
Proof.
  intros Hh Hj. unfold POST, sendPushNotificationServer.
  rewrite Hh, Hj. unfold header_differs. rewrite String.eqb_refl. cbn [negb].
  destruct (negb (JS.otruthy (vapidPublicKey env))
            || negb (JS.otruthy (vapidPrivateKey env))).
  { cbn. refused_case. }
  destruct (negb (JS.otruthy (title payload)) || negb (JS.otruthy (body payload))).
  { cbn. refused_case. }
  destruct (negb (JS.otruthy (SUPABASE_SERVICE_ROLE_KEY env))).
  { cbn. refused_case. }
  destruct fetchError as [e|].
  { cbn [status success sent failed resp_sent resp_failed resp_message error
         error_response failure or_zero].
    split; [reflexivity|]. split; [split; discriminate|].
    split; [auto|]. split; [reflexivity|]. split; [reflexivity|].
    intros _. split; [reflexivity|]. split; [reflexivity|].
    eexists. split; [reflexivity|].
    unfold JS.or_else. destruct (JS.truthy e) eqn:He; [exact He | reflexivity]. }
  destruct (select_where (matches (userId payload)) (table w)) as [|s rest].
  { cbn. accepted_case. }
  destruct (send_all gateway completion deleteError
      (s :: rest) (notificationPayload payload) _)
    as [results w2].
  cbn. accepted_case.
Qed.

(** X17. Once the secret is accepted, the route and
    [sendPushNotificationServer] are two faces of one operation: for the
    same payload they leave the same table and make the same calls, the
    route answers 200 exactly when the library function succeeds (and 400
    or 500 otherwise), and the counts agree, a missing [sent] or [failed]
    in the reply standing for 0. *)
Theorem route_matches_library (fetchError : option string)
    (gateway : string -> GatewayOutcome)
    (completion : list StoredRow -> list StoredRow)
    (deleteError : string -> option string)
    (env : Env) (request : Request) (payload : PushNotificationPayload)
    (w : World) :
  x_internal_secret request = Some (internalSecret env) ->
  json request = inr payload ->
  let '(response, w1) := POST fetchError gateway completion deleteError env request w in
  let '(result, w2) :=
    sendPushNotificationServer fetchError gateway completion deleteError env payload w in
  w1 = w2
  /\ (status response = 200 <-> success result = true)
  /\ (status response = 200 \/ status response = 400 \/ status response = 500)
  /\ or_zero (resp_sent response) = sent result
  /\ or_zero (resp_failed response) = failed result.
Proof.
  intros Hh Hj.
  pose proof (route_library_agree fetchError gateway completion deleteError env request
                payload w Hh Hj) as H.
  destruct (POST fetchError gateway completion deleteError
      env request w) as [response w1].
  destruct (sendPushNotificationServer fetchError gateway completion deleteError
      env payload w)
    as [result w2].
  destruct H as (H1 & H2 & H3 & H4 & H5 & _). auto.
Qed.

Lemma route_matches_library_witness :
  let '(response, w1) :=
    POST None sample_gateway (@rev StoredRow) accepting_deletes sample_env
         (sample_request (Some "s3cret") (Some "ana")) sample_world in
  let '(result, w2) :=
    sendPushNotificationServer None sample_gateway (@rev StoredRow) accepting_deletes
        sample_env
      (sample_payload (Some "ana")) sample_world in
  w1 = w2
  /\ (status response = 200 <-> success result = true)
  /\ (status response = 200 \/ status response = 400 \/ status response = 500)
  /\ or_zero (resp_sent response) = sent result
  /\ or_zero (resp_failed response) = failed result.
Proof.
  exact (route_matches_library None sample_gateway (@rev StoredRow) accepting_deletes
      sample_env
           (sample_request (Some "s3cret") (Some "ana"))
           (sample_payload (Some "ana")) sample_world eq_refl eq_refl).
Defined.

(** X18. A send that fails touches nothing: when the route answers with a
    status other than 200, or the library function returns a failure, the
    table is unchanged, no gateway call and no deletion was made, and at
    most the query was issued. *)
Theorem failed_send_touches_nothing (fetchError : option string)
    (gateway : string -> GatewayOutcome)
    (completion : list StoredRow -> list StoredRow)
    (deleteError : string -> option string)
    (env : Env) (request : Request) (payload : PushNotificationPayload)
    (w : World) :
  (status (fst (POST fetchError gateway completion deleteError env request w)) <> 200 ->
   let w' := snd (POST fetchError gateway completion deleteError env request w) in
   table w' = table w
   /\ (effects w' = effects w
       \/ exists f, effects w' = effects w ++ [StoreSelect f]))
  /\ (success (fst (sendPushNotificationServer fetchError gateway completion deleteError
                      env payload w)) = false ->
      let w' := snd (sendPushNotificationServer fetchError gateway completion deleteError
                       env payload w) in
      table w' = table w
      /\ (effects w' = effects w
          \/ exists f, effects w' = effects w ++ [StoreSelect f])).
Proof.
  split.
  - unfold POST.
    destruct (header_differs _ _); [cbn; auto|].
    destruct (_ || _); [cbn; auto|].
    destruct (json request) as [e|p]; [cbn; auto|].
    destruct (_ || _); [cbn; auto|].
    destruct (negb _); [cbn; auto|].
    destruct fetchError as [e|]; [cbn; eauto|].
    destruct (select_where _ _) as [|s rest]; [cbn; intros H; now contradiction H|].
    destruct (send_all _ _ _ _ _) as [results w2]. cbn.
    intros H. now contradiction H.
  - unfold sendPushNotificationServer.
    destruct (_ || _); [cbn; auto|].
    destruct (_ || _); [cbn; auto|].
    destruct (negb _); [cbn; auto|].
    destruct fetchError as [e|]; [cbn; eauto|].
    destruct (select_where _ _) as [|s rest]; [cbn; discriminate|].
    destruct (send_all _ _ _ _ _) as [results w2]. cbn. discriminate.
Qed.

Lemma failed_send_touches_nothing_witness :
  let w' := snd (POST (Some "connection refused") sample_gateway (@rev StoredRow) accepting_deletes
                   sample_env (sample_request (Some "s3cret") None) sample_world) in
  table w' = table sample_world
  /\ (effects w' = effects sample_world
      \/ exists f, effects w' = effects sample_world ++ [StoreSelect f]).
Proof.
  refine (proj1 (failed_send_touches_nothing (Some "connection refused")
                   sample_gateway (@rev StoredRow) accepting_deletes sample_env
                   (sample_request (Some "s3cret") None) (sample_payload None)
                   sample_world) _).
  vm_compute. discriminate.
Defined.

(** X21. An empty [userId] is no filter: [sendPushToTechnicianServer] with
    the empty string as user does exactly what
    [sendPushToAllTechniciansServer] does, and with the keys and the data
    store configured and a non-empty title and body it calls the gateway
    for every stored subscription, whoever it belongs to. *)
Theorem empty_user_id_broadcasts (fetchError : option string)
    (gateway : string -> GatewayOutcome)
    (completion : list StoredRow -> list StoredRow)
    (deleteError : string -> option string)
    (env : Env) (title body : string) (url : option string) (w : World) :
  JS.otruthy (vapidPublicKey env) = true ->
  JS.otruthy (vapidPrivateKey env) = true ->
  JS.otruthy (SUPABASE_SERVICE_ROLE_KEY env) = true ->
  JS.truthy title = true -> JS.truthy body = true ->
  Permutation (completion (select_where (matches (Some "")) (table w)))
              (select_where (matches (Some "")) (table w)) ->
  sendPushToTechnicianServer fetchError gateway completion deleteError
      env "" title body url w
  = sendPushToAllTechniciansServer fetchError gateway completion deleteError
      env title body url w
  /\ forall i r,
       table w !! i = Some r ->
       exists p,
         In (GatewaySend (pushSubscription (i, r)) p)
            (effects (snd (sendPushToTechnicianServer None gateway completion deleteError
                             env "" title body url w)))
         /\ wire_title p = title /\ wire_body p = body.
Proof.
  intros Hpub Hpriv Hkey Ht Hb Hperm. split; [reflexivity|].
  intros i r Hl. unfold sendPushToTechnicianServer.
  set (payload := {| userId := Some ""; title := Some title; body := Some body;
                     url := Some (JS.or_else url "/dashboard");
                     icon := Some "/icon.svg"; badge := Some "/icon.svg";
                     tag := Some "visitaflow-notification"; data := None |}).
  destruct (library_send_world gateway completion deleteError env payload w
              Hpub Hpriv Hkey Ht Hb Hperm) as [_ Heffects].
  exists (notificationPayload payload). split.
  - rewrite Heffects. apply in_or_app. right. right. apply in_or_app. left.
    unfold gateway_calls.
    apply (in_map (fun s => GatewaySend (pushSubscription s)
                              (notificationPayload payload))
                  _ (i, r)).
    apply SubscriptionStoreFacts.selected_iff. split; [exact Hl | reflexivity].
  - cbn. now rewrite Ht, Hb.
Qed.

Lemma empty_user_id_broadcasts_witness :
  sendPushToTechnicianServer None sample_gateway (@rev StoredRow) accepting_deletes
      sample_env ""
    "Aviso" "Reunião às 9h" None sample_world
  = sendPushToAllTechniciansServer None sample_gateway (@rev StoredRow) accepting_deletes
      sample_env
      "Aviso" "Reunião às 9h" None sample_world
  /\ forall i r,
       table sample_world !! i = Some r ->
       exists p,
         In (GatewaySend (pushSubscription (i, r)) p)
            (effects (snd (sendPushToTechnicianServer None sample_gateway
                             (@rev StoredRow) accepting_deletes sample_env "" "Aviso"
                             "Reunião às 9h" None sample_world)))
         /\ wire_title p = "Aviso" /\ wire_body p = "Reunião às 9h".
Proof.
  refine (empty_user_id_broadcasts None sample_gateway (@rev StoredRow) accepting_deletes
            sample_env "Aviso" "Reunião às 9h" None sample_world
            eq_refl eq_refl eq_refl eq_refl eq_refl _).
  symmetry. apply Permutation_rev.
Defined.

(** *** The example client *)

(** X22. Called from a browser, the example client [sendPushNotification]
    is turned away whenever the deployment's secret is anything but the
    built-in default: it returns the failure carrying the route's 401
    message, and no query, gateway call or deletion takes place. *)
Theorem browser_client_is_rejected (fetchError : option string)
    (gateway : string -> GatewayOutcome)
    (completion : list StoredRow -> list StoredRow)
    (deleteError : string -> option string)
    (env : Env) (payload : PushNotificationPayload) (w : World) :
  internalSecret env <> "change-me-in-production" ->
  sendPushNotification fetchError gateway completion deleteError env true payload w
  = (failure "Acesso não autorizado. Secret inválido.", w).
Proof.
  intros Hne. unfold sendPushNotification, POST, client_secret, header_differs.
  cbn [x_internal_secret].
  destruct (String.eqb "change-me-in-production" (internalSecret env)) eqn:He.
  - apply String.eqb_eq in He. congruence.
  - reflexivity.
Qed.

Lemma browser_client_is_rejected_witness :
  sendPushNotification None sample_gateway (@rev StoredRow) accepting_deletes
      sample_env true
    (sample_payload (Some "ana")) sample_world
  = (failure "Acesso não autorizado. Secret inválido.", sample_world).
Proof.
  apply (browser_client_is_rejected None sample_gateway (@rev StoredRow) accepting_deletes
           sample_env (sample_payload (Some "ana")) sample_world).
  vm_compute. discriminate.
Defined.

(** X23. When the deployment runs with the built-in default secret, the
    example client called from a browser reports what the library function
    reports: the same success flag and the same [sent] and [failed]
    counts, with the same table and the same calls made. *)
Theorem browser_client_with_default_secret (fetchError : option string)
    (gateway : string -> GatewayOutcome)
    (completion : list StoredRow -> list StoredRow)
    (deleteError : string -> option string)
    (env : Env) (payload : PushNotificationPayload) (w : World) :
  internalSecret env = "change-me-in-production" ->
  let '(answer, w1) :=
    sendPushNotification fetchError gateway completion deleteError env true payload w in
  let '(result, w2) :=
    sendPushNotificationServer fetchError gateway completion deleteError env payload w in
  w1 = w2
  /\ success answer = success result
  /\ sent answer = sent result
  /\ failed answer = failed result.
Proof.
  intros Hs. unfold sendPushNotification, client_secret.
  pose proof (route_library_agree fetchError gateway completion deleteError env
                {| x_internal_secret := Some "change-me-in-production";
                   json := inr payload |} payload w
                (f_equal Some (eq_sym Hs)) eq_refl) as H.
  destruct (POST fetchError gateway completion deleteError env _ w) as [response w1].
  destruct (sendPushNotificationServer fetchError gateway completion deleteError
      env payload w)
    as [result w2].
  destruct H as (Hw & Hok & Hst & Hsent & Hfailed & Hbad).
  destruct Hst as [Hst | Hst].
  - rewrite Hst. cbn. repeat split; auto. symmetry. now apply Hok.
  - assert (Hne : status response <> 200) by (destruct Hst as [-> | ->]; discriminate).
    destruct (Hbad Hne) as (H0 & H1 & _).
    assert (Hfalse : success result = false).
    { destruct (success result) eqn:Hsr; [|reflexivity].
      now contradiction Hne; apply Hok. }
    destruct Hst as [-> | ->]; cbn; rewrite H0, H1, Hfalse; auto.
Qed.

Lemma browser_client_with_default_secret_witness :
  let '(answer, w1) :=
    sendPushNotification None sample_gateway (@rev StoredRow) accepting_deletes
        default_secret_env
      true (sample_payload (Some "ana")) sample_world in
  let '(result, w2) :=
    sendPushNotificationServer None sample_gateway (@rev StoredRow) accepting_deletes
      default_secret_env (sample_payload (Some "ana")) sample_world in
  w1 = w2
  /\ success answer = success result
  /\ sent answer = sent result
  /\ failed answer = failed result.
Proof.
  exact (browser_client_with_default_secret None sample_gateway (@rev StoredRow) accepting_deletes
           default_secret_env (sample_payload (Some "ana")) sample_world eq_refl).
Defined.

(** *** Sends to one user *)

(** A send for a user concerns that user's subscriptions only. *)
Lemma targeted_send (gateway : string -> GatewayOutcome)
    (completion : list StoredRow -> list StoredRow)
    (deleteError : string -> option string)
    (env : Env) (payload : PushNotificationPayload) (u : string) (w : World) :
  JS.otruthy (vapidPublicKey env) = true ->
  JS.otruthy (vapidPrivateKey env) = true ->
  JS.otruthy (SUPABASE_SERVICE_ROLE_KEY env) = true ->
  JS.otruthy (title payload) = true ->
  JS.otruthy (body payload) = true ->
  userId payload = Some u -> JS.truthy u = true ->
  (let subscriptions := select_where (matches (userId payload)) (table w) in
   Permutation (completion subscriptions) subscriptions) ->
  let w' := snd (sendPushNotificationServer None gateway completion deleteError
      env payload w) in
  (forall i r, table w !! i = Some r -> user_id r <> u -> table w' !! i = Some r)
  /\ exists es,
       effects w' = effects w ++ es
       /\ (forall s p, In (GatewaySend s p) es ->
             p = notificationPayload payload
             /\ exists i r, table w !! i = Some r /\ user_id r = u
                            /\ s = pushSubscription (i, r))
       /\ (forall i, In (StoreDelete i) es ->
             exists r, table w !! i = Some r /\ user_id r = u).
Proof.
  cbv zeta. intros Hpub Hpriv Hkey Ht Hb Hu Hut Hperm.
  destruct (library_send_world gateway completion deleteError env payload w
              Hpub Hpriv Hkey Ht Hb Hperm) as [Htable Heffects].
  assert (Hm : forall r, matches (userId payload) r = true <-> user_id r = u).
  { intros r. rewrite Hu. unfold matches. rewrite Hut. apply String.eqb_eq. }
  assert (Hsel : forall x, In x (select_where (matches (userId payload)) (table w)) ->
                   table w !! id x = Some (snd x) /\ user_id (snd x) = u).
  { intros [i r] Hin. apply SubscriptionStoreFacts.selected_iff in Hin as [Hl HP].
    split; [exact Hl | now apply Hm]. }
  split.
  - intros i r Hl Hne. rewrite Htable. unfold pruned. rewrite Hl.
    destruct (matches (userId payload) r) eqn:E; [|reflexivity].
    now apply Hm in E.
  - eexists. split; [exact Heffects|]. split.
    + intros s p [Hin | Hin]; [discriminate|].
      apply in_app_or in Hin as [Hin | Hin].
      * unfold gateway_calls in Hin. apply in_map_iff in Hin as ([i r] & Heq & Hin).
        injection Heq as <- <-. split; [reflexivity|].
        destruct (Hsel _ Hin) as [Hl Hr]. eauto.
      * apply in_map_iff in Hin as (j & Heq & _). discriminate.
    + intros i [Hin | Hin]; [discriminate|].
      apply in_app_or in Hin as [Hin | Hin].
      * unfold gateway_calls in Hin. apply in_map_iff in Hin as (x & Heq & _).
        discriminate.
      * apply in_map_iff in Hin as (j & Heq & Hin). injection Heq as ->.
        apply filter_In in Hin as [Hin _].
        apply in_map_iff in Hin as (x & <- & Hin).
        apply (Permutation_in _ Hperm) in Hin.
        destruct (Hsel _ Hin) as [Hl Hr]. eauto.
Qed.

(** X28. A send addressed to a user concerns that user's subscriptions
    only: the rows of every other user are still in the table afterwards,
    every gateway call it makes goes to a stored subscription of the user
    and carries the payload, and every row it asks the data store to
    delete was one of the user's. *)
Theorem send_to_user_spares_the_others (gateway : string -> GatewayOutcome)
    (completion : list StoredRow -> list StoredRow)
    (deleteError : string -> option string)
    (env : Env) (payload : PushNotificationPayload) (u : string) (w : World) :
  JS.otruthy (vapidPublicKey env) = true ->
  JS.otruthy (vapidPrivateKey env) = true ->
  JS.otruthy (SUPABASE_SERVICE_ROLE_KEY env) = true ->
  JS.otruthy (title payload) = true ->
  JS.otruthy (body payload) = true ->
  userId payload = Some u -> JS.truthy u = true ->
  (let subscriptions := select_where (matches (userId payload)) (table w) in
   Permutation (completion subscriptions) subscriptions) ->
  let w' := snd (sendPushNotificationServer None gateway completion deleteError
      env payload w) in
  (forall i r, table w !! i = Some r -> user_id r <> u -> table w' !! i = Some r)
  /\ exists es,
       effects w' = effects w ++ es
       /\ (forall s p, In (GatewaySend s p) es ->
             p = notificationPayload payload
             /\ exists i r, table w !! i = Some r /\ user_id r = u
                            /\ s = pushSubscription (i, r))
       /\ (forall i, In (StoreDelete i) es ->
             exists r, table w !! i = Some r /\ user_id r = u).
Proof. exact (targeted_send gateway completion deleteError env payload u w). Qed.

Lemma send_to_user_spares_the_others_witness :
  let w' := snd (sendPushNotificationServer None sample_gateway (@rev StoredRow) accepting_deletes
                   sample_env (sample_payload (Some "ana")) sample_world) in
  (forall i r, table sample_world !! i = Some r -> user_id r <> "ana" ->
               table w' !! i = Some r)
  /\ exists es,
       effects w' = effects sample_world ++ es
       /\ (forall s p, In (GatewaySend s p) es ->
             p = notificationPayload (sample_payload (Some "ana"))
             /\ exists i r, table sample_world !! i = Some r /\ user_id r = "ana"
                            /\ s = pushSubscription (i, r))
       /\ (forall i, In (StoreDelete i) es ->
             exists r, table sample_world !! i = Some r /\ user_id r = "ana").
Proof.
  refine (send_to_user_spares_the_others sample_gateway (@rev StoredRow) accepting_deletes
            sample_env (sample_payload (Some "ana")) "ana" sample_world
            eq_refl eq_refl eq_refl eq_refl eq_refl eq_refl eq_refl _).
  symmetry. apply Permutation_rev.
Defined.

(** X29. Whenever a send can succeed, clients can fetch the key: if
    [sendPushNotificationServer] returns a success, [GET /api/push/vapid-key]
    answers 200 with the configured public key. *)
Theorem key_served_where_sends_succeed (fetchError : option string)
    (gateway : string -> GatewayOutcome)
    (completion : list StoredRow -> list StoredRow)
    (deleteError : string -> option string)
    (env : Env) (payload : PushNotificationPayload) (w : World) :
  success (fst (sendPushNotificationServer fetchError gateway completion deleteError env
                  payload w)) = true ->
  exists k, VAPID_PUBLIC_KEY env = Some k /\ GET_vapid_key env = (200, inl k).
Proof.
  unfold sendPushNotificationServer, GET_vapid_key, vapidPublicKey.
  destruct (VAPID_PUBLIC_KEY env) as [k|]; cbn [JS.otruthy negb orb].
  - destruct (JS.truthy k); cbn [negb orb fst failure success]; [eauto | discriminate].
  - cbn. discriminate.
Qed.

Lemma key_served_where_sends_succeed_witness :
  exists k, VAPID_PUBLIC_KEY sample_env = Some k
            /\ GET_vapid_key sample_env = (200, inl k).
Proof.
  exact (key_served_where_sends_succeed None sample_gateway (@rev StoredRow) accepting_deletes
           sample_env (sample_payload (Some "ana")) sample_world eq_refl).
Defined.

End DispatcherCallersFacts.

(** ** The subscription store as a whole *)
Module SubscriptionStoreInvariants.
Import DataStore SubscriptionStore SubscriptionStoreReplies SubscriptionStoreFacts.

(** The three ways a call ends: refused with the table as it was, one row
    of the caller updated, or one row inserted. *)
Lemma POST_cases (ctx : Context) (t : Table) (request : Request) :
  (status (fst (POST ctx t request)) <> 200 /\ snd (POST ctx t request) = t)
  \/ exists u e k a,
       getServerUser ctx = Some u
       /\ json request
          = inr {| body_endpoint := Some e; body_p256dh := Some k;
                   body_auth := Some a |}
       /\ ((exists i r0,
              t !! i = Some r0 /\ is_for (uid u) e r0 = true
              /\ POST ctx t request
                 = (ok_response (i, apply_update (database_now ctx) (data_of ctx u e k a) r0),
                    alter (apply_update (database_now ctx) (data_of ctx u e k a)) i t))
           \/ (t !! generated_id ctx = None
               /\ select_where (same_key (data_of ctx u e k a)) t = []
               /\ POST ctx t request
                  = (ok_response (generated_id ctx, data_of ctx u e k a),
                     <[generated_id ctx := data_of ctx u e k a]> t))).
Proof.
  unfold POST.
  destruct (negb _); [left; cbn; split; [discriminate | reflexivity]|].
  destruct (getServerUser ctx) as [u|];
    [|left; cbn; split; [discriminate | reflexivity]].
  destruct (json request) as [err | [[e|] [k|] [a|]]];
    try (left; cbn; split; [discriminate | reflexivity]).
  cbn [body_endpoint body_p256dh body_auth].
  destruct (negb (JS.truthy e) || negb (JS.truthy k) || negb (JS.truthy a));
    [left; cbn; split; [discriminate | reflexivity]|].
  fold (data_of ctx u e k a).
  destruct (if lookup_fails ctx then None else _) as [[i r0]|] eqn:Hex.
  - destruct (write_error ctx); [left; cbn; split; [discriminate | reflexivity]|].
    right. exists u, e, k, a. split; [reflexivity|]. split; [reflexivity|].
    left. exists i, r0.
    destruct (lookup_fails ctx); [discriminate|].
    apply single_Some in Hex.
    assert (Hin : In (i, r0) (select_where (is_for (uid u) e) t))
      by (rewrite Hex; now left).
    apply selected_iff in Hin as [Hl HP].
    split; [exact Hl|]. split; [exact HP|]. reflexivity.
  - destruct (write_error ctx); [left; cbn; split; [discriminate | reflexivity]|].
    unfold insert_row.
    destruct (t !! generated_id ctx) eqn:Hfresh;
      [left; cbn; split; [discriminate | reflexivity]|].
    destruct (select_where (same_key (data_of ctx u e k a)) t) eqn:Hnone;
      [|left; cbn; split; [discriminate | reflexivity]].
    right. exists u, e, k, a. split; [reflexivity|]. split; [reflexivity|].
    right. split; [reflexivity|]. split; [exact Hnone|]. reflexivity.
Qed.

Lemma same_key_spec (r s : Row) :
  same_key r s = true <-> user_id r = user_id s /\ endpoint r = endpoint s.
Proof.
  unfold same_key. rewrite andb_true_iff, !String.eqb_eq. reflexivity.
Qed.

(** Inserting a row whose user and endpoint no stored row has keeps the
    constraint. *)
Lemma unique_after_insert (t : Table) (i : string) (d : Row) :
  unique_endpoints t ->
  select_where (same_key d) t = [] ->
  unique_endpoints (<[i := d]> t).
Proof.
  intros Huniq Hnone j j' r s' Hj Hj' Hk.
  assert (Hno : forall j r, t !! j = Some r -> same_key d r = true -> False).
  { intros j0 r0 Hl HP.
    assert (Hin : In (j0, r0) (select_where (same_key d) t))
      by (apply selected_iff; auto).
    rewrite Hnone in Hin. destruct Hin. }
  destruct (decide (i = j)) as [<-|Hni];
    destruct (decide (i = j')) as [<-|Hnj]; [reflexivity | | |].
  - rewrite lookup_insert_eq in Hj. injection Hj as <-.
    rewrite lookup_insert_ne in Hj' by exact Hnj.
    destruct (Hno _ _ Hj' Hk).
  - rewrite lookup_insert_eq in Hj'. injection Hj' as <-.
    rewrite lookup_insert_ne in Hj by exact Hni.
    exfalso. apply (Hno _ _ Hj). apply same_key_spec.
    apply same_key_spec in Hk. destruct Hk. split; congruence.
  - rewrite lookup_insert_ne in Hj by exact Hni.
    rewrite lookup_insert_ne in Hj' by exact Hnj.
    exact (Huniq j j' r s' Hj Hj' Hk).
Qed.

Lemma shared_endpoint_table_unique : unique_endpoints shared_endpoint_table.
Proof.
  unfold shared_endpoint_table.
  apply unique_after_insert; [|reflexivity].
  apply unique_after_insert; [|reflexivity].
  exact unique_endpoints_empty.
Qed.

(** X24. The route keeps the schema's [UNIQUE(user_id, endpoint)]
    constraint, and where a record exists it is not the constraint that
    keeps it. Whatever the request, the identity provider and the data
    store answer, a table without two rows for the same user and endpoint
    is left without two such rows. And when the caller already has a
    record for the endpoint, the data store being available, the call is
    answered 200 with no row added: the route writes to the row it found
    instead of attempting an insert that the constraint would refuse. *)
Theorem subscribe_preserves_uniqueness (ctx : Context) (t : Table)
    (request : Request) :
  unique_endpoints t ->
  unique_endpoints (snd (POST ctx t request))
  /\ forall u e k a,
       authenticated_call ctx request u e k a ->
       store_available ctx ->
       records_of (uid u) e t <> [] ->
       status (fst (POST ctx t request)) = 200
       /\ forall i, snd (POST ctx t request) !! i = None <-> t !! i = None.
Proof.
  intros Huniq. split.
  - destruct (POST_cases ctx t request)
      as [[_ ->] | (u & e & k & a & _ & _
                    & [(i0 & r0 & Hl0 & HP0 & ->) | (Hfresh & Hnone & ->)])];
      [exact Huniq | |]; cbn [snd].
    + apply is_for_spec in HP0 as [Hu0 He0].
      assert (Hold : forall j r,
                alter (apply_update (database_now ctx) (data_of ctx u e k a)) i0 t
                !! j = Some r ->
                exists r', t !! j = Some r'
                           /\ user_id r' = user_id r /\ endpoint r' = endpoint r).
      { intros j r Hl. destruct (decide (i0 = j)) as [<-|Hne].
        - rewrite lookup_alter_eq, Hl0 in Hl. cbn in Hl. injection Hl as <-.
          exists r0. cbn. auto.
        - rewrite lookup_alter_ne in Hl by exact Hne. eauto. }
      intros i j r s' Hi Hj Hk.
      apply Hold in Hi as (ri & Hi & Hiu & Hie).
      apply Hold in Hj as (rj & Hj & Hju & Hje).
      apply (Huniq i j ri rj Hi Hj). apply same_key_spec.
      apply same_key_spec in Hk. destruct Hk. split; congruence.
    + now apply unique_after_insert.
  - intros u e k a Hcall Havail Hsome.
    assert (Hone : exists x, records_of (uid u) e t = [x]).
    { destruct (at_most_one_record (uid u) e t Huniq) as [Hnone | Hone];
        [contradiction | exact Hone]. }
    destruct (subscribe_call ctx t request u e k a Hcall Havail (or_intror Hone))
      as [Hok _].
    split; [exact Hok|].
    destruct Hcall as (_ & Hu & Hj & _).
    destruct (POST_cases ctx t request)
      as [[Hne _] | (u' & e' & k' & a' & Hu' & Hj'
                     & [(i0 & r0 & Hl0 & HP0 & HP) | (Hfresh & Hnone & HP)])].
    + contradiction.
    + rewrite HP. cbn [snd]. intros i. destruct (decide (i0 = i)) as [<-|Hne].
      * rewrite lookup_alter_eq, Hl0. cbn. split; discriminate.
      * now rewrite lookup_alter_ne by exact Hne.
    + exfalso. rewrite Hu in Hu'. injection Hu' as <-.
      rewrite Hj in Hj'. injection Hj' as <- <- <-.
      destruct Hone as [[i r] Hone].
      assert (Hin : In (i, r) (select_where (same_key (data_of ctx u e k a)) t)).
      { rewrite (select_where_ext _ _ t (same_key_is_for (data_of ctx u e k a))).
        change (In (i, r) (records_of (uid u) e t)). rewrite Hone. now left. }
      rewrite Hnone in Hin. destruct Hin.
Qed.

Lemma subscribe_preserves_uniqueness_witness :
  let ctx := sample_context "id-2" "2024-05-02T10:00:00Z" in
  let request := sample_request "key-2" "auth-2" in
  unique_endpoints (snd (POST ctx shared_endpoint_table request))
  /\ status (fst (POST ctx shared_endpoint_table request)) = 200
  /\ forall i, snd (POST ctx shared_endpoint_table request) !! i = None
               <-> shared_endpoint_table !! i = None.
Proof.
  refine (let H := subscribe_preserves_uniqueness
                     (sample_context "id-2" "2024-05-02T10:00:00Z")
                     shared_endpoint_table (sample_request "key-2" "auth-2")
                     shared_endpoint_table_unique in
          conj (proj1 H)
               (proj2 H ana "https://push.example/a1" "key-2" "auth-2" _ _ _)).
  - repeat split; reflexivity.
  - split; reflexivity.
  - vm_compute. discriminate.
Defined.

(** X25. A call that is not answered 200 leaves the table exactly as it
    was. *)
Theorem subscribe_failure_keeps_table (ctx : Context) (t : Table)
    (request : Request) :
  status (fst (POST ctx t request)) <> 200 ->
  snd (POST ctx t request) = t.
Proof.
  intros Hne.
  destruct (POST_cases ctx t request)
    as [[_ H] | (u & e & k & a & _ & _ & [(i0 & r0 & _ & _ & H) | (_ & _ & H)])];
    [exact H | |]; rewrite H in Hne; now contradiction Hne.
Qed.

Lemma subscribe_failure_keeps_table_witness :
  snd (POST (sample_context "id-1" "2024-05-01T10:00:00Z") ∅
            {| authorization := Some "Bearer "; json := inl "no body" |})
  = ∅.
Proof.
  apply (subscribe_failure_keeps_table
           (sample_context "id-1" "2024-05-01T10:00:00Z") ∅
           {| authorization := Some "Bearer "; json := inl "no body" |}).
  vm_compute. discriminate.
Defined.

(** X26. No call removes or re-keys a row, and a call changes only a row
    of the caller for the endpoint it carries: every row of the table is
    still there afterwards under the same [id], with the same user,
    endpoint and creation time; and it is the very same row unless it
    belongs to the authenticated user and has the endpoint of the body. *)
Theorem subscribe_frame (ctx : Context) (t : Table) (request : Request)
    (i : string) (r : Row) :
  t !! i = Some r ->
  exists r',
    snd (POST ctx t request) !! i = Some r'
    /\ user_id r' = user_id r /\ endpoint r' = endpoint r
    /\ created_at r' = created_at r
    /\ (r' = r
        \/ exists u b,
             getServerUser ctx = Some u /\ json request = inr b
             /\ user_id r = uid u /\ body_endpoint b = Some (endpoint r)).
Proof.
  intros Hl.
  destruct (POST_cases ctx t request)
    as [[_ ->] | (u & e & k & a & Hu & Hj & [(i0 & r0 & Hl0 & HP0 & ->) | (Hfresh & Hnone & ->)])];
    cbn [snd].
  - exists r. do 4 (split; [first [assumption | reflexivity]|]). now left.
  - destruct (decide (i0 = i)) as [<-|Hne].
    + rewrite lookup_alter_eq, Hl. cbn [fmap option_fmap option_map].
      rewrite Hl0 in Hl. injection Hl as <-.
      apply is_for_spec in HP0 as [Hu0 He0].
      eexists. split; [reflexivity|]. cbn. do 3 (split; [auto|]).
      right. eexists u, _. split; [exact Hu|]. split; [exact Hj|].
      split; [exact Hu0|]. cbn. now rewrite He0.
    + rewrite lookup_alter_ne by exact Hne. exists r. do 4 (split; [first [assumption | reflexivity]|]). now left.
  - assert (Hne : generated_id ctx <> i) by congruence.
    rewrite lookup_insert_ne by exact Hne. exists r. do 4 (split; [first [assumption | reflexivity]|]). now left.
Qed.

Lemma subscribe_frame_witness :
  exists r',
    snd (POST (sample_context "id-2" "2024-05-02T10:00:00Z")
              (<["id-1" := data_of (sample_context "id-1" "2024-05-01T10:00:00Z")
                             ana "https://push.example/a1" "key-1" "auth-1"]> ∅)
              (sample_request "key-2" "auth-2")) !! "id-1" = Some r'
    /\ user_id r' = "ana" /\ endpoint r' = "https://push.example/a1"
    /\ created_at r' = "2024-05-01T10:00:00Z"
    /\ (r' = data_of (sample_context "id-1" "2024-05-01T10:00:00Z")
               ana "https://push.example/a1" "key-1" "auth-1"
        \/ exists u b,
             getServerUser (sample_context "id-2" "2024-05-02T10:00:00Z") = Some u
             /\ json (sample_request "key-2" "auth-2") = inr b
             /\ "ana" = uid u
             /\ body_endpoint b = Some "https://push.example/a1").
Proof.
  exact (subscribe_frame (sample_context "id-2" "2024-05-02T10:00:00Z")
           (<["id-1" := data_of (sample_context "id-1" "2024-05-01T10:00:00Z")
                          ana "https://push.example/a1" "key-1" "auth-1"]> ∅)
           (sample_request "key-2" "auth-2") "id-1"
           (data_of (sample_context "id-1" "2024-05-01T10:00:00Z")
              ana "https://push.example/a1" "key-1" "auth-1")
           eq_refl).
Defined.

(** X27. The row a successful call returns is the row now stored: a 200
    reply carries a [subscription] with an [id] under which the table holds
    exactly that row, which belongs to the authenticated user and carries
    the endpoint and keys of the body. Its timestamps are the database's
    doing: a row that was already stored keeps its [created_at] and gets
    the database's time as [updated_at], the time the route sent being
    replaced by the update trigger; a new row gets the database's time as
    [created_at] and the route's time as [updated_at]. *)
Theorem subscribe_reply_is_stored_row (ctx : Context) (t : Table)
    (request : Request) :
  status (fst (POST ctx t request)) = 200 ->
  exists i r u b,
    subscription (fst (POST ctx t request)) = Some (i, r)
    /\ snd (POST ctx t request) !! i = Some r
    /\ getServerUser ctx = Some u /\ json request = inr b
    /\ user_id r = uid u
    /\ body_endpoint b = Some (endpoint r)
    /\ body_p256dh b = Some (p256dh r)
    /\ body_auth b = Some (auth r)
    /\ match t !! i with
       | Some r0 =>
           created_at r = created_at r0 /\ updated_at r = database_now ctx
       | None =>
           created_at r = database_now ctx /\ updated_at r = now ctx
       end.
Proof.
  intros Hok.
  destruct (POST_cases ctx t request)
    as [[Hne _] | (u & e & k & a & Hu & Hj
                   & [(i0 & r0 & Hl0 & HP0 & ->) | (Hfresh & Hnone & ->)])];
    [now contradiction Hne | |]; cbn [fst snd ok_response subscription].
  - eexists i0, _, u, _. split; [reflexivity|].
    split; [now rewrite lookup_alter_eq, Hl0|].
    split; [exact Hu|]. split; [exact Hj|]. rewrite Hl0. cbn. auto 10.
  - eexists (generated_id ctx), _, u, _. split; [reflexivity|].
    split; [now rewrite lookup_insert_eq|].
    split; [exact Hu|]. split; [exact Hj|]. rewrite Hfresh. cbn. auto 10.
Qed.

Lemma subscribe_reply_is_stored_row_witness :
  let ctx := skewed_context "id-2" "2024-05-02T10:00:00Z" "2024-05-02T10:00:03Z" in
  let request := sample_request "key-2" "auth-2" in
  exists i r u b,
    subscription (fst (POST ctx shared_endpoint_table request)) = Some (i, r)
    /\ snd (POST ctx shared_endpoint_table request) !! i = Some r
    /\ getServerUser ctx = Some u /\ json request = inr b
    /\ user_id r = uid u
    /\ body_endpoint b = Some (endpoint r)
    /\ body_p256dh b = Some (p256dh r)
    /\ body_auth b = Some (auth r)
    /\ match shared_endpoint_table !! i with
       | Some r0 =>
           created_at r = created_at r0 /\ updated_at r = database_now ctx
       | None =>
           created_at r = database_now ctx /\ updated_at r = now ctx
       end.
Proof.
  exact (subscribe_reply_is_stored_row
           (skewed_context "id-2" "2024-05-02T10:00:00Z" "2024-05-02T10:00:03Z")
           shared_endpoint_table (sample_request "key-2" "auth-2") eq_refl).
Defined.

(** The update of the sample: the stored row keeps its creation time and
    carries the database's time, not the route's, as [updated_at]. *)
Example subscribe_update_sample_run :
  POST (skewed_context "id-2" "2024-05-02T10:00:00Z" "2024-05-02T10:00:03Z")
       shared_endpoint_table (sample_request "key-2" "auth-2")
  = (ok_response
       ("id-1", {| user_id := "ana"; endpoint := "https://push.example/a1";
                   p256dh := "key-2"; auth := "auth-2";
                   created_at := "2024-05-01T10:00:00Z";
                   updated_at := "2024-05-02T10:00:03Z" |}),
     <["id-1" := {| user_id := "ana"; endpoint := "https://push.example/a1";
                    p256dh := "key-2"; auth := "auth-2";
                    created_at := "2024-05-01T10:00:00Z";
                    updated_at := "2024-05-02T10:00:03Z" |}]>
       shared_endpoint_table).
Proof. vm_compute. reflexivity. Qed.

End SubscriptionStoreInvariants.

(** ** Visit notifications *)
Module VisitNotificationFacts.
Import JsonValue DataStore ServiceWorker ServiceWorkerEvents VisitNotifications.

(** X30. A visit notification, from the send to the click. With the keys
    and the data store configured, [notifyNewVisitServer] and
    [notifyVisitTodayServer] for a technician call the gateway only for
    stored subscriptions of that technician, and what each call carries is
    shown by the service worker under the fixed title, with the visit's
    title in the body and a tag naming the visit, and a click on it targets
    the page [/visit/<visitId>]. *)
Theorem visit_notification_reaches_the_technician
    (gateway : string -> Dispatcher.GatewayOutcome)
    (completion : list StoredRow -> list StoredRow)
    (deleteError : string -> option string)
    (env : Dispatcher.Env) (userId visitTitle visitId : string)
    (w : Dispatcher.World) (now : Z) (raw : string) :
  JS.otruthy (Dispatcher.vapidPublicKey env) = true ->
  JS.otruthy (Dispatcher.vapidPrivateKey env) = true ->
  JS.otruthy (Dispatcher.SUPABASE_SERVICE_ROLE_KEY env) = true ->
  JS.truthy userId = true ->
  (let subscriptions :=
     select_where (Dispatcher.matches (Some userId)) (Dispatcher.table w) in
   Permutation (completion subscriptions) subscriptions) ->
  reaches_only userId w
    (snd (DispatcherCallers.notifyNewVisitServer None gateway completion deleteError env
            userId visitTitle visitId w))
    (fun p => shown_as now raw p "Nova Visita Atribuída"
                ("Você tem uma nova visita: " +:+ visitTitle)
                ("visit-" +:+ visitId) ("/visit/" +:+ visitId))
  /\ reaches_only userId w
       (snd (DispatcherCallers.notifyVisitTodayServer None gateway completion deleteError
           env
               userId visitTitle visitId w))
       (fun p => shown_as now raw p "Visita Hoje"
                   ("Você tem uma visita agendada para hoje: " +:+ visitTitle)
                   ("visit-today-" +:+ visitId) ("/visit/" +:+ visitId)).
Proof.
  intros Hpub Hpriv Hkey Hu Hperm. split.
  - destruct (DispatcherCallersFacts.targeted_send gateway completion deleteError env
                (DispatcherCallers.newVisitPayload userId visitTitle visitId)
                userId w Hpub Hpriv Hkey eq_refl eq_refl eq_refl Hu Hperm)
      as (_ & es & He & Hcalls & _).
    exists es. split; [exact He|]. intros s p Hin.
    destruct (Hcalls s p Hin) as [-> Hrow]. split; [exact Hrow|].
    repeat split; reflexivity.
  - destruct (DispatcherCallersFacts.targeted_send gateway completion deleteError env
                (DispatcherCallers.visitTodayPayload userId visitTitle visitId)
                userId w Hpub Hpriv Hkey eq_refl eq_refl eq_refl Hu Hperm)
      as (_ & es & He & Hcalls & _).
    exists es. split; [exact He|]. intros s p Hin.
    destruct (Hcalls s p Hin) as [-> Hrow]. split; [exact Hrow|].
    repeat split; reflexivity.
Qed.

Lemma visit_notification_reaches_the_technician_witness :
  reaches_only "ana" Dispatcher.sample_world
    (snd (DispatcherCallers.notifyNewVisitServer None Dispatcher.sample_gateway
            (@rev StoredRow) Dispatcher.accepting_deletes
                Dispatcher.sample_env "ana" "Obra 12" "v42"
            Dispatcher.sample_world))
    (fun p => shown_as 0 "" p "Nova Visita Atribuída"
                ("Você tem uma nova visita: " +:+ "Obra 12")
                ("visit-" +:+ "v42") ("/visit/" +:+ "v42"))
  /\ reaches_only "ana" Dispatcher.sample_world
       (snd (DispatcherCallers.notifyVisitTodayServer None Dispatcher.sample_gateway
               (@rev StoredRow) Dispatcher.accepting_deletes
                   Dispatcher.sample_env "ana" "Obra 12" "v42"
               Dispatcher.sample_world))
       (fun p => shown_as 0 "" p "Visita Hoje"
                   ("Você tem uma visita agendada para hoje: " +:+ "Obra 12")
                   ("visit-today-" +:+ "v42") ("/visit/" +:+ "v42")).
Proof.
  refine (visit_notification_reaches_the_technician Dispatcher.sample_gateway
            (@rev StoredRow) Dispatcher.accepting_deletes
                Dispatcher.sample_env "ana" "Obra 12" "v42"
            Dispatcher.sample_world 0 "" eq_refl eq_refl eq_refl eq_refl _).
  symmetry. apply Permutation_rev.
Defined.

End VisitNotificationFacts.
